(** * The push-up counter of the PoseAI front end

    A shallow embedding of the pose logic of [src/body-measurement.js]
    (class [PoseAI]: [updateArmAngle], [updateBackAngle],
    [checkPushupPositions], [getCurrentPose], [speak], [drawKeypoints],
    [startWorkoutSession], [resetWorkout], [selectExercise]) and the
    properties of the repetition state machine proved about it, followed
    by the rest of the pose logic of that file: the skeleton, the form
    score, the coach text and the workout clock of [PoseAI], and the
    calibration, the measurements and the history of the class
    [BodyMeasurement].

    Numbers.  JavaScript numbers are IEEE doubles; here they are real
    numbers ([R]).  Comparisons against the thresholds and the remainder
    operator [%] are exact on doubles, so they agree with the real-number
    reading on every finite value; [Math.atan2] and the conversion to
    degrees are taken without rounding, and [NaN], the infinities and the
    sign of zero are not represented.

    Effects.  The methods mutate the fields of [this], call the feedback
    sinks and may raise a [TypeError] when a keypoint is missing.  They
    are written in a small monad that threads the object, collects the
    feedback events, and keeps the mutations done before an exception. *)

From Stdlib Require Import Reals Lra Lia ZArith List String Bool Arith.
From Stdlib Require Import DecimalString DecimalNat Ascii.
Import ListNotations.

Open Scope R_scope.

(** ** Numbers *)

Module Num.

(** [a > b] and [a < b] as JavaScript evaluates them, to a boolean. *)
Definition gtb (a b : R) : bool := if Rlt_dec b a then true else false.
Definition ltb (a b : R) : bool := if Rlt_dec a b then true else false.

(** [Math.atan2(y, x)]: the angle of the point [(x, y)], in [[-PI, PI]]. *)
Definition atan2 (y x : R) : R :=
  if Rlt_dec 0 x then atan (y / x)
  else if Rlt_dec x 0 then
    (if Rle_dec 0 y then atan (y / x) + PI else atan (y / x) - PI)
  else if Rlt_dec 0 y then PI / 2
  else if Rlt_dec y 0 then - (PI / 2)
  else 0.

(** Rounding towards zero. *)
Definition trunc (r : R) : Z :=
  if Rle_dec 0 r then Int_part r else (- Int_part (- r))%Z.

(** [a % b]: the remainder of the division truncated towards zero; it
    takes the sign of the dividend [a]. *)
Definition rem (a b : R) : R := a - b * IZR (trunc (a / b)).

(** [n.toString()] for a non-negative integer. *)
Definition toString (n : nat) : string :=
  NilEmpty.string_of_uint (Nat.to_uint n).

End Num.

Infix ">?" := Num.gtb (at level 70, no associativity) : R_scope.
Infix "<?" := Num.ltb (at level 70, no associativity) : R_scope.

(** ** Data *)

(** A keypoint of the pose detector. *)
Record Keypoint : Type := mkKeypoint { x : R; y : R; score : R }.

(** [pose.keypoints]: the array of keypoints of one detected pose.  The
    detector delivers 17 of them (nose 0, shoulders 5/6, elbows 7/8,
    wrists 9/10, hips 11/12, knees 13/14, ankles 15/16). *)
Definition Pose : Type := list Keypoint.

(** The fields of a [PoseAI] object that the pose logic reads or writes.
    [workoutSession] holds [workoutSession.poses] ([None] while the field
    is [null]). *)
Record PoseAI : Type := mkPoseAI {
  currentExercise : string;
  reps : nat;
  elbowAngle : R;
  backAngle : R;
  upPosition : bool;
  downPosition : bool;
  highlightBack : bool;
  backWarningGiven : bool;
  voiceFeedbackEnabled : bool;
  workoutSession : option (list Pose)
}.

(** What the methods hand to the sinks: the form-feedback banner
    ([updateFormFeedback]), the coach text ([updateAIFeedback]), the speech
    engine (an utterance requested by [speak]) and a text node of the page
    ([document.getElementById(id).textContent = text]). *)
Inductive Event : Type :=
| FormFeedback (message type : string)
| AIFeedback (message : string)
| Speak (text : string)
| TextContent (id text : string).

(** The position of the machine read off the two flags. *)
Inductive Phase : Type := Neutral | Up | Down.

Definition phase (s : PoseAI) : option Phase :=
  match upPosition s, downPosition s with
  | false, false => Some Neutral
  | true, false => Some Up
  | false, true => Some Down
  | true, true => None
  end.

(** Field assignments. *)
Definition set_currentExercise (e : string) (s : PoseAI) : PoseAI :=
  mkPoseAI e (reps s) (elbowAngle s) (backAngle s) (upPosition s)
    (downPosition s) (highlightBack s) (backWarningGiven s)
    (voiceFeedbackEnabled s) (workoutSession s).

Definition set_reps (n : nat) (s : PoseAI) : PoseAI :=
  mkPoseAI (currentExercise s) n (elbowAngle s) (backAngle s) (upPosition s)
    (downPosition s) (highlightBack s) (backWarningGiven s)
    (voiceFeedbackEnabled s) (workoutSession s).

Definition set_elbowAngle (a : R) (s : PoseAI) : PoseAI :=
  mkPoseAI (currentExercise s) (reps s) a (backAngle s) (upPosition s)
    (downPosition s) (highlightBack s) (backWarningGiven s)
    (voiceFeedbackEnabled s) (workoutSession s).

Definition set_backAngle (a : R) (s : PoseAI) : PoseAI :=
  mkPoseAI (currentExercise s) (reps s) (elbowAngle s) a (upPosition s)
    (downPosition s) (highlightBack s) (backWarningGiven s)
    (voiceFeedbackEnabled s) (workoutSession s).

Definition set_upPosition (b : bool) (s : PoseAI) : PoseAI :=
  mkPoseAI (currentExercise s) (reps s) (elbowAngle s) (backAngle s) b
    (downPosition s) (highlightBack s) (backWarningGiven s)
    (voiceFeedbackEnabled s) (workoutSession s).

Definition set_downPosition (b : bool) (s : PoseAI) : PoseAI :=
  mkPoseAI (currentExercise s) (reps s) (elbowAngle s) (backAngle s)
    (upPosition s) b (highlightBack s) (backWarningGiven s)
    (voiceFeedbackEnabled s) (workoutSession s).

Definition set_highlightBack (b : bool) (s : PoseAI) : PoseAI :=
  mkPoseAI (currentExercise s) (reps s) (elbowAngle s) (backAngle s)
    (upPosition s) (downPosition s) b (backWarningGiven s)
    (voiceFeedbackEnabled s) (workoutSession s).

Definition set_backWarningGiven (b : bool) (s : PoseAI) : PoseAI :=
  mkPoseAI (currentExercise s) (reps s) (elbowAngle s) (backAngle s)
    (upPosition s) (downPosition s) (highlightBack s) b
    (voiceFeedbackEnabled s) (workoutSession s).

Definition set_voiceFeedbackEnabled (b : bool) (s : PoseAI) : PoseAI :=
  mkPoseAI (currentExercise s) (reps s) (elbowAngle s) (backAngle s)
    (upPosition s) (downPosition s) (highlightBack s) (backWarningGiven s)
    b (workoutSession s).

Definition set_workoutSession (w : option (list Pose)) (s : PoseAI) : PoseAI :=
  mkPoseAI (currentExercise s) (reps s) (elbowAngle s) (backAngle s)
    (upPosition s) (downPosition s) (highlightBack s) (backWarningGiven s)
    (voiceFeedbackEnabled s) w.

(** ** Methods as computations *)

(** How a call ends: normally with a value, or with a [TypeError] (a
    property read on [undefined]). *)
Inductive Completion (A : Type) : Type :=
| Normal (a : A)
| TypeError.
Arguments Normal {A} a.
Arguments TypeError {A}.

(** The outcome of a call: how it ended, the object as the call left it
    (assignments made before an exception stay), and the events in the
    order they were issued. *)
Record Result (A : Type) : Type := mkResult {
  completion : Completion A;
  final : PoseAI;
  trace : list Event
}.
Arguments mkResult {A}.
Arguments completion {A}.
Arguments final {A}.
Arguments trace {A}.

Definition M (A : Type) : Type := PoseAI -> Result A.

Definition ret {A} (a : A) : M A := fun s => mkResult (Normal a) s [].

Definition bind {A B} (m : M A) (f : A -> M B) : M B :=
  fun s =>
    match m s with
    | mkResult (Normal a) s1 t1 =>
        match f a s1 with
        | mkResult c s2 t2 => mkResult c s2 (t1 ++ t2)
        end
    | mkResult TypeError s1 t1 => mkResult TypeError s1 t1
    end.

Definition get : M PoseAI := fun s => mkResult (Normal s) s [].
Definition modify (f : PoseAI -> PoseAI) : M unit :=
  fun s => mkResult (Normal tt) (f s) [].
Definition emit (e : Event) : M unit := fun s => mkResult (Normal tt) s [e].
Definition throw {A} : M A := fun s => mkResult TypeError s [].
Definition when (b : bool) (m : M unit) : M unit := if b then m else ret tt.

Declare Scope js_scope.
Delimit Scope js_scope with js.
Notation "v <- m ;; k" := (bind m (fun v => k))
  (at level 61, m at next level, right associativity) : js_scope.
Notation "m ;; k" := (bind m (fun _ => k))
  (at level 61, right associativity) : js_scope.
Open Scope js_scope.

(** [pose.keypoints[i]] followed by a property read: [undefined] when [i]
    is out of range, and reading [.x], [.y] or [.score] of it throws. *)
Definition keypoint (pose : Pose) (i : nat) : M Keypoint :=
  match nth_error pose i with
  | Some k => ret k
  | None => throw
  end.

(** The angle at vertex [v] between the directions to [a] and to [b], in
    degrees: the difference of two [Math.atan2], times [180 / Math.PI]. *)
Definition jointAngle (a b v : Keypoint) : R :=
  (Num.atan2 (y a - y v) (x a - x v) - Num.atan2 (y b - y v) (x b - x v))
  * (180 / PI).

Definition updateFormFeedback (message type : string) : M unit :=
  emit (FormFeedback message type).

Definition updateAIFeedback (message : string) : M unit :=
  emit (AIFeedback message).

(** [speak(text)]: an utterance is requested only while voice feedback is
    on (the browser must also offer [speechSynthesis]). *)
Definition speak (text : string) : M unit :=
  s <- get ;;
  when (voiceFeedbackEnabled s) (emit (Speak text)).

Definition updateArmAngle (pose : Pose) : M unit :=
  leftWrist <- keypoint pose 9 ;;
  leftShoulder <- keypoint pose 5 ;;
  leftElbow <- keypoint pose 7 ;;
  let angle := jointAngle leftWrist leftShoulder leftElbow in
  when ((score leftWrist >? 0.3) && (score leftElbow >? 0.3)
        && (score leftShoulder >? 0.3))
    (modify (set_elbowAngle angle)).

Definition updateBackAngle (pose : Pose) : M unit :=
  leftShoulder <- keypoint pose 5 ;;
  leftHip <- keypoint pose 11 ;;
  leftKnee <- keypoint pose 13 ;;
  let angle := jointAngle leftKnee leftShoulder leftHip in
  let backAngle' := Num.rem angle 180 in
  when ((score leftKnee >? 0.3) && (score leftHip >? 0.3)
        && (score leftShoulder >? 0.3))
    (modify (set_backAngle backAngle')) ;;
  s <- get ;;
  if (backAngle s <? 20) || (backAngle s >? 160) then
    modify (set_highlightBack false) ;;
    updateFormFeedback "Good posture!" "good"
  else
    modify (set_highlightBack true) ;;
    updateFormFeedback "Keep your back straight" "warning" ;;
    s <- get ;;
    when (negb (backWarningGiven s) && voiceFeedbackEnabled s)
      (speak "Keep your back straight" ;;
       modify (set_backWarningGiven true)).

(** The most recent pose stored in the workout session, [null] without a
    session or before the first stored pose. *)
Definition getCurrentPose (s : PoseAI) : option Pose :=
  match workoutSession s with
  | Some (p :: ps) => Some (last ps p)
  | _ => None
  end.

(** [getCurrentPose() && keypoints[0].y > keypoints[7].y]: falsy without a
    current pose, otherwise whether the nose lies below the elbow on
    screen. *)
Definition elbowAboveNose : M bool :=
  s <- get ;;
  match getCurrentPose s with
  | None => ret false
  | Some pose =>
      nose <- keypoint pose 0 ;;
      elbow <- keypoint pose 7 ;;
      ret (y nose >? y elbow)
  end.

(** The first block of [checkPushupPositions]. *)
Definition checkUpPosition : M unit :=
  s <- get ;;
  when ((elbowAngle s >? 170) && (elbowAngle s <? 200))
    (when (downPosition s)
       (modify (fun s => set_reps (S (reps s)) s) ;;
        s <- get ;;
        emit (TextContent "rep-count" (Num.toString (reps s))) ;;
        when (voiceFeedbackEnabled s) (speak (Num.toString (reps s))) ;;
        updateAIFeedback
          ("Great form! Rep " ++ Num.toString (reps s) ++ " completed.")%string) ;;
     modify (set_upPosition true) ;;
     modify (set_downPosition false)).

(** The second block of [checkPushupPositions]. *)
Definition checkDownPosition : M unit :=
  above <- elbowAboveNose ;;
  s <- get ;;
  when (negb (highlightBack s) && above
        && ((Rabs (elbowAngle s) >? 70) && (Rabs (elbowAngle s) <? 100)))
    (when (upPosition s && voiceFeedbackEnabled s) (speak "Up") ;;
     modify (set_downPosition true) ;;
     modify (set_upPosition false)).

Definition checkPushupPositions : M unit :=
  checkUpPosition ;; checkDownPosition.

(** [drawKeypoints(p, poses)] without the canvas calls: the three steps
    run when exactly 17 keypoints of the first pose score above 0.3. *)
Definition drawKeypoints (poses : list Pose) : M unit :=
  match poses with
  | [] => ret tt
  | pose :: _ =>
      let count := List.length (filter (fun kp => score kp >? 0.3) pose) in
      when (count =? 17)%nat
        (updateArmAngle pose ;;
         updateBackAngle pose ;;
         checkPushupPositions)
  end.

(** [startWorkoutSession]: a new session with an empty log (its clock and
    calorie counter are not part of the pose logic). *)
Definition startWorkoutSession : M unit :=
  modify (set_workoutSession (Some [])).

(** What [detectPose] does to the object once the detector has answered
    with [poses]: the first pose is appended to the session's log. *)
Definition detectPose (poses : list Pose) : M unit :=
  s <- get ;;
  match poses, workoutSession s with
  | pose :: _, Some log => modify (set_workoutSession (Some (log ++ [pose])))
  | _, _ => ret tt
  end.

Definition resetWorkout : M unit :=
  modify (set_reps 0) ;;
  modify (set_elbowAngle 999) ;;
  modify (set_backAngle 0) ;;
  modify (set_upPosition false) ;;
  modify (set_downPosition false) ;;
  modify (set_highlightBack false) ;;
  modify (set_backWarningGiven false) ;;
  emit (TextContent "rep-count" "0") ;;
  emit (TextContent "form-score" "--") ;;
  emit (TextContent "calories" "0") ;;
  emit (TextContent "workout-time" "0:00") ;;
  updateAIFeedback "Workout reset. Ready to start!" ;;
  updateFormFeedback "" "".

(** [selectExercise]: the choice is recorded and the workout reset (the
    highlighting of the buttons is left out). *)
Definition selectExercise (exerciseType : string) : M unit :=
  modify (set_currentExercise exerciseType) ;;
  resetWorkout.

(** The object as the constructor leaves it. *)
Definition newPoseAI : PoseAI :=
  mkPoseAI "pushups" 0 999 0 false false false false true None.

(** ** Runs *)

(** What can happen to the object between two page loads: a tick of the
    sketch ([p.draw] calls [drawKeypoints] with the latest poses), an
    answer of the detector, the start of a session, a reset, the choice of
    an exercise, and the voice-feedback checkbox. *)
Inductive Action : Type :=
| Draw (poses : list Pose)
| Detect (poses : list Pose)
| StartWorkoutSession
| ResetWorkout
| SelectExercise (exerciseType : string)
| SetVoiceFeedback (enabled : bool).

Definition perform (a : Action) : M unit :=
  match a with
  | Draw poses => drawKeypoints poses
  | Detect poses => detectPose poses
  | StartWorkoutSession => startWorkoutSession
  | ResetWorkout => resetWorkout
  | SelectExercise exerciseType => selectExercise exerciseType
  | SetVoiceFeedback enabled => modify (set_voiceFeedbackEnabled enabled)
  end.

(** The object after a sequence of callbacks.  Each callback runs on the
    object as the previous one left it, also when that one threw. *)
Fixpoint after (acts : list Action) (s : PoseAI) : PoseAI :=
  match acts with
  | [] => s
  | a :: rest => after rest (final (perform a s))
  end.

(** The events of a sequence of callbacks, in order. *)
Fixpoint events (acts : list Action) (s : PoseAI) : list Event :=
  match acts with
  | [] => []
  | a :: rest => trace (perform a s) ++ events rest (final (perform a s))
  end.

Definition isReset (a : Action) : bool :=
  match a with
  | ResetWorkout | SelectExercise _ => true
  | _ => false
  end.

(** No callback of the sequence is a reset. *)
Definition resetFree (acts : list Action) : bool :=
  forallb (fun a => negb (isReset a)) acts.

(** ** Vocabulary of the properties *)

(** The frame is analysed: exactly 17 keypoints of its first pose score
    above 0.3. *)
Definition analysed (poses : list Pose) : bool :=
  match poses with
  | [] => false
  | pose :: _ =>
      (List.length (filter (fun kp => score kp >? 0.3) pose) =? 17)%nat
  end.

(** After each frame of the sequence the stored elbow angle lies in the
    up window (170, 200). *)
Fixpoint elbowStaysUp (frames : list (list Pose)) (s : PoseAI) : Prop :=
  match frames with
  | [] => True
  | poses :: rest =>
      let s' := final (drawKeypoints poses s) in
      170 < elbowAngle s' < 200 /\ elbowStaysUp rest s'
  end.

(** The guards of the two blocks of [checkPushupPositions], read on the
    object the method is called on. *)
Definition upFires (s : PoseAI) : bool :=
  (elbowAngle s >? 170) && (elbowAngle s <? 200).

Definition downFires (s : PoseAI) : bool :=
  match completion (elbowAboveNose s) with
  | Normal above =>
      negb (highlightBack s) && above
      && ((Rabs (elbowAngle s) >? 70) && (Rabs (elbowAngle s) <? 100))
  | TypeError => false
  end.

(** The keypoint [i] is present and scores above 0.3. *)
Definition confident (pose : Pose) (i : nat) : bool :=
  match nth_error pose i with
  | Some k => score k >? 0.3
  | None => false
  end.

Definition confidentElbow (pose : Pose) : bool :=
  confident pose 9 && confident pose 7 && confident pose 5.

Definition confidentBack (pose : Pose) : bool :=
  confident pose 13 && confident pose 11 && confident pose 5.

(** The back angle current in a frame seen by an object: the angle at the
    left hip between the knee and the shoulder, folded by [% 180], when
    the three keypoints score above 0.3; otherwise the angle that the
    object has stored. *)
Definition currentBackAngle (s : PoseAI) (pose : Pose) : R :=
  match nth_error pose 5, nth_error pose 11, nth_error pose 13 with
  | Some leftShoulder, Some leftHip, Some leftKnee =>
      if confidentBack pose
      then Num.rem (jointAngle leftKnee leftShoulder leftHip) 180
      else backAngle s
  | _, _, _ => backAngle s
  end.

(** The spoken posture warnings among the events. *)
Definition isBackWarning (e : Event) : bool :=
  match e with
  | Speak text => String.eqb text "Keep your back straight"
  | _ => false
  end.

Definition backWarnings (t : list Event) : nat :=
  List.length (filter isBackWarning t).

(** ** Sample frames *)

Module Sample.

Definition pt (px py : R) : Keypoint := mkKeypoint px py 1.

(** A pose of 17 confident keypoints with the nose at (0, 1), the left
    shoulder at (1, 0), the left elbow at (0, 0), the left hip at (-1, 0),
    and the given left wrist and left knee. *)
Definition pose (leftWrist leftKnee : Keypoint) : Pose :=
  [ pt 0 1; pt 0 0; pt 0 0; pt 0 0; pt 0 0; pt 1 0; pt 0 0; pt 0 0; pt 0 0;
    leftWrist; pt 0 0; pt (-1) 0; pt 0 0; leftKnee; pt 0 0; pt 0 0; pt 0 0 ].

(** Arm stretched (elbow angle 180), body in line (back angle 0). *)
Definition armsUp : Pose := pose (pt (-1) 0) (pt (-2) 0).

(** Arm bent at a right angle (elbow angle 90), body in line. *)
Definition armsDown : Pose := pose (pt 0 1) (pt (-2) 0).

(** Arm stretched, body bent at the hip by a right angle (back angle 90). *)
Definition bent : Pose := pose (pt (-1) 0) (pt (-1) 1).

(** The same bend seen from the other side: the knee direction is a
    quarter turn before the shoulder direction instead of after it. *)
Definition bentMirrored : Pose := pose (pt (-1) 0) (pt (-1) (-1)).

(** All keypoints are there, but the left wrist and the left knee score
    0.1 and are not trusted. *)
Definition unsure : Pose :=
  [ pt 0 1; pt 0 0; pt 0 0; pt 0 0; pt 0 0; pt 1 0; pt 0 0; pt 0 0; pt 0 0;
    mkKeypoint (-1) 0 (1 / 10); pt 0 0; pt (-1) 0; pt 0 0;
    mkKeypoint (-1) 1 (1 / 10); pt 0 0; pt 0 0; pt 0 0 ].

(** An object in the middle of a push-up: down position taken, session
    running with [armsDown] as the current pose. *)
Definition lowered : PoseAI :=
  mkPoseAI "pushups" 0 90 0 false true false false true (Some [armsDown]).

End Sample.

(** ** The rest of the workout page *)

(** More of JavaScript's library, as the methods below use it. *)
Module JS.

(** [Math.round]: the nearest integer, halves upwards. *)
Definition round (r : R) : Z := Int_part (r + 1 / 2).

(** [s.padStart(targetLength, pad)] for a one-character [pad]. *)
Definition padStart (targetLength : nat) (pad : Ascii.ascii) (s : string)
    : string :=
  (string_of_list_ascii (repeat pad (targetLength - String.length s)) ++ s)
    %string.


End JS.

(** [formatDuration(seconds)], on a whole number of seconds. *)
Definition formatDuration (seconds : nat) : string :=
  let minutes := (seconds / 60)%nat in
  let remainingSeconds := (seconds mod 60)%nat in
  (Num.toString minutes ++ ":"
   ++ JS.padStart 2 "0"%char (Num.toString remainingSeconds))%string.

(** The callback that [startWorkoutSession] installs with [setInterval],
    as a function of [workoutSeconds]: the new value, and the texts written
    to the clock and to the calorie counter. *)
Definition workoutTimerTick (workoutSeconds : nat) : nat * list Event :=
  let workoutSeconds := S workoutSeconds in
  let minutes := (workoutSeconds / 60)%nat in
  let seconds := (workoutSeconds mod 60)%nat in
  let calories := JS.round (INR workoutSeconds * 0.1) in
  (workoutSeconds,
   [ TextContent "workout-time"
       (Num.toString minutes ++ ":"
        ++ JS.padStart 2 "0"%char (Num.toString seconds))%string;
     TextContent "calories" (Num.toString (Z.to_nat calories)) ]).

(** [calculateFormScore(pose)].  [None] stands for [NaN]: the average of
    no keypoint is 0 / 0, and [NaN] passes through the adjustments and
    through [Math.min] and [Math.max]. *)
Definition calculateFormScore (s : PoseAI) (pose : Pose) : option R :=
  match pose with
  | [] => None
  | _ :: _ =>
      let avgConfidence :=
        fold_left (fun sum kp => sum + score kp) pose 0
        / INR (List.length pose) in
      let formScore := avgConfidence * 100 in
      let formScore :=
        if String.eqb (currentExercise s) "pushups" then
          let formScore :=
            if highlightBack s then formScore - 20 else formScore in
          if (elbowAngle s >? 160) && (elbowAngle s <? 200)
          then formScore + 10 else formScore
        else formScore in
      Some (Rmax 0 (Rmin 100 formScore))
  end.










(** *** Vocabulary of the further properties *)

(** The analysed frames among the callbacks. *)
Definition analysedDraws (acts : list Action) : nat :=
  List.length
    (filter (fun a => match a with
                      | Draw poses => analysed poses
                      | _ => false
                      end) acts).

(** The callback hands a pose to [detectPose]. *)
Definition bringsPose (a : Action) : bool :=
  match a with
  | Detect (_ :: _) => true
  | _ => false
  end.

(** The callback switches voice feedback on. *)
Definition switchesVoiceOn (a : Action) : bool :=
  match a with
  | SetVoiceFeedback true => true
  | _ => false
  end.

(** The poses given to [detectPose] by the callbacks. *)
Fixpoint detected (acts : list Action) : list Pose :=
  match acts with
  | [] => []
  | Detect (pose :: _) :: rest => pose :: detected rest
  | _ :: rest => detected rest
  end.

(** The text last written to the element [id] by the events, [before]
    when they write none. *)
Definition textShown (id : string) (t : list Event) (before : string)
    : string :=
  fold_left (fun shown e =>
               match e with
               | TextContent i text => if String.eqb i id then text else shown
               | _ => shown
               end) t before.

(** Reading a duration back: the text before the first colon and the two
    characters after it, both in decimal. *)
Fixpoint splitAtColon (s : string) : option (string * string) :=
  match s with
  | EmptyString => None
  | String c rest =>
      if Ascii.eqb c ":" then Some (EmptyString, rest)
      else match splitAtColon rest with
           | Some (a, b) => Some (String c a, b)
           | None => None
           end
  end.

(** The text holds no colon. *)
Fixpoint noColon (s : string) : bool :=
  match s with
  | EmptyString => true
  | String c rest => negb (Ascii.eqb c ":") && noColon rest
  end.

Definition readNat (s : string) : option nat :=
  option_map Nat.of_uint (NilEmpty.uint_of_string s).

Definition readDuration (s : string) : option nat :=
  match splitAtColon s with
  | Some (m, ss) =>
      if (String.length ss =? 2)%nat then
        match readNat m, readNat ss with
        | Some a, Some b => Some (60 * a + b)%nat
        | _, _ => None
        end
      else None
  | None => None
  end.


(** ** The measurement page *)

(** The class [BodyMeasurement] of [src/body-measurement.js]: calibration
    on the shoulder width, measurements from a pose, and the history of
    measurements.  The canvas, the buttons and the storage of the browser
    are left out; the status line and the values shown are events. *)
Module BodyMeasurement.

(** [currentMeasurements]: each value is [null] until it is measured. *)
Record Measurements : Type := mkMeasurements {
  chest : option R;
  leftBicep : option R;
  rightBicep : option R
}.

(** An entry of [measurementHistory]: the time it was taken, as the text
    of [toISOString], and the three values. *)
Record HistoryEntry : Type := mkHistoryEntry {
  timestamp : string;
  measured : Measurements
}.

(** The fields of the object that the methods below read or write.
    [isCalibrating] is not set by the constructor; [false] stands for the
    missing field, which the tests read as false. *)
Record Obj : Type := mkObj {
  isDetecting : bool;
  isCalibrating : bool;
  isCalibrated : bool;
  scaleCmPerPixel : option R;
  currentMeasurements : Measurements;
  measurementHistory : list HistoryEntry;
  calibrationFrames : list R
}.

(** What the methods show: the status line ([updateStatus]), the
    calibration label, the scale (the number, before [toFixed(4)]) and a
    measurement (the number, before [toFixed(1)]). *)
Inductive Note : Type :=
| Status (message status : string)
| CalibrationStatus (status : string)
| ScaleValue (value : R)
| MeasurementShown (id : string) (value : R).

Definition set_isCalibrating (b : bool) (o : Obj) : Obj :=
  mkObj (isDetecting o) b (isCalibrated o) (scaleCmPerPixel o)
    (currentMeasurements o) (measurementHistory o) (calibrationFrames o).

Definition set_isCalibrated (b : bool) (o : Obj) : Obj :=
  mkObj (isDetecting o) (isCalibrating o) b (scaleCmPerPixel o)
    (currentMeasurements o) (measurementHistory o) (calibrationFrames o).

Definition set_scaleCmPerPixel (v : option R) (o : Obj) : Obj :=
  mkObj (isDetecting o) (isCalibrating o) (isCalibrated o) v
    (currentMeasurements o) (measurementHistory o) (calibrationFrames o).

Definition set_currentMeasurements (m : Measurements) (o : Obj) : Obj :=
  mkObj (isDetecting o) (isCalibrating o) (isCalibrated o)
    (scaleCmPerPixel o) m (measurementHistory o) (calibrationFrames o).

Definition set_measurementHistory (h : list HistoryEntry) (o : Obj) : Obj :=
  mkObj (isDetecting o) (isCalibrating o) (isCalibrated o)
    (scaleCmPerPixel o) (currentMeasurements o) h (calibrationFrames o).

Definition set_calibrationFrames (f : list R) (o : Obj) : Obj :=
  mkObj (isDetecting o) (isCalibrating o) (isCalibrated o)
    (scaleCmPerPixel o) (currentMeasurements o) (measurementHistory o) f.

Definition set_chest (v : option R) (m : Measurements) : Measurements :=
  mkMeasurements v (leftBicep m) (rightBicep m).

Definition set_leftBicep (v : option R) (m : Measurements) : Measurements :=
  mkMeasurements (chest m) v (rightBicep m).

Definition set_rightBicep (v : option R) (m : Measurements) : Measurements :=
  mkMeasurements (chest m) (leftBicep m) v.

(** The outcome of a call, as for the workout page. *)
Record Out (A : Type) : Type := mkOut {
  ended : Completion A;
  obj : Obj;
  notes : list Note
}.
Arguments mkOut {A}.
Arguments ended {A}.
Arguments obj {A}.
Arguments notes {A}.

Definition T (A : Type) : Type := Obj -> Out A.

Definition ret {A} (a : A) : T A := fun o => mkOut (Normal a) o [].

Definition bind {A B} (m : T A) (f : A -> T B) : T B :=
  fun o =>
    match m o with
    | mkOut (Normal a) o1 n1 =>
        match f a o1 with
        | mkOut c o2 n2 => mkOut c o2 (n1 ++ n2)
        end
    | mkOut TypeError o1 n1 => mkOut TypeError o1 n1
    end.

Definition get : T Obj := fun o => mkOut (Normal o) o [].
Definition modify (f : Obj -> Obj) : T unit :=
  fun o => mkOut (Normal tt) (f o) [].
Definition emit (n : Note) : T unit := fun o => mkOut (Normal tt) o [n].
Definition throw {A} : T A := fun o => mkOut TypeError o [].
Definition when (b : bool) (m : T unit) : T unit := if b then m else ret tt.

Declare Scope page_scope.
Delimit Scope page_scope with page.
Notation "v <- m ;; k" := (bind m (fun v => k))
  (at level 61, m at next level, right associativity) : page_scope.
Notation "m ;; k" := (bind m (fun _ => k))
  (at level 61, right associativity) : page_scope.
Local Open Scope page_scope.

(** [keypoints[i]] followed by a property read. *)
Definition keypoint (pose : Pose) (i : nat) : T Keypoint :=
  match nth_error pose i with
  | Some k => ret k
  | None => throw
  end.

(** [keypoints[i].score > threshold]. *)
Definition scoresAbove (threshold : R) (pose : Pose) (i : nat) : T bool :=
  k <- keypoint pose i ;; ret (score k >? threshold).

(** [a && b]: [b] is evaluated, and may throw, only when [a] is true. *)
Definition both (a b : T bool) : T bool :=
  x <- a ;; if x then b else ret false.

(** A value used as a condition: [null] and 0 are false. *)
Definition truthy (v : option R) : bool :=
  match v with
  | Some r => if Req_dec_T r 0 then false else true
  | None => false
  end.

(** A value used as a number: [null] counts as 0. *)
Definition number (v : option R) : R :=
  match v with
  | Some r => r
  | None => 0
  end.

(** [list.reduce((a, b) => a + b)], which throws on an empty list. *)
Definition reduceAdd (l : list R) : T R :=
  match l with
  | [] => throw
  | a :: rest => ret (fold_left Rplus rest a)
  end.

Definition updateStatus (message status : string) : T unit :=
  emit (Status message status).

Definition calibrateWithHand (pose : Pose) : T unit :=
  go <- both (scoresAbove 0.5 pose 5)
          (both (scoresAbove 0.5 pose 6)
             (both (scoresAbove 0.5 pose 9) (scoresAbove 0.5 pose 10))) ;;
  when go
    (leftShoulder <- keypoint pose 5 ;;
     rightShoulder <- keypoint pose 6 ;;
     let shoulderWidth := Rabs (x rightShoulder - x leftShoulder) in
     when (shoulderWidth >? 0)
       (modify (set_scaleCmPerPixel (Some (40 / shoulderWidth))) ;;
        modify (fun o =>
                  set_calibrationFrames
                    (calibrationFrames o ++ [number (scaleCmPerPixel o)]) o) ;;
        o <- get ;;
        when (10 <=? List.length (calibrationFrames o))%nat
          (total <- reduceAdd (calibrationFrames o) ;;
           modify (set_scaleCmPerPixel
                     (Some (total / INR (List.length (calibrationFrames o))))) ;;
           modify (set_isCalibrated true) ;;
           modify (set_isCalibrating false) ;;
           emit (CalibrationStatus "Calibrated") ;;
           o <- get ;;
           emit (ScaleValue (number (scaleCmPerPixel o))) ;;
           updateStatus "Calibration complete" "ready" ;;
           modify (set_calibrationFrames [])))).

Definition measurementsWithPose (pose : Pose) : T unit :=
  go <- both (scoresAbove 0.5 pose 5) (scoresAbove 0.5 pose 6) ;;
  when go
    (leftShoulder <- keypoint pose 5 ;;
     rightShoulder <- keypoint pose 6 ;;
     let chestWidth := Rabs (x rightShoulder - x leftShoulder) in
     modify (fun o =>
               set_currentMeasurements
                 (set_chest (Some (chestWidth * number (scaleCmPerPixel o)))
                    (currentMeasurements o)) o)) ;;
  go <- both (scoresAbove 0.5 pose 5) (scoresAbove 0.5 pose 7) ;;
  when go
    (leftShoulder <- keypoint pose 5 ;;
     leftElbow <- keypoint pose 7 ;;
     let leftBicepLength :=
       sqrt ((x leftElbow - x leftShoulder) ^ 2
             + (y leftElbow - y leftShoulder) ^ 2) in
     modify (fun o =>
               set_currentMeasurements
                 (set_leftBicep
                    (Some (leftBicepLength * number (scaleCmPerPixel o)))
                    (currentMeasurements o)) o)) ;;
  go <- both (scoresAbove 0.5 pose 6) (scoresAbove 0.5 pose 8) ;;
  when go
    (rightShoulder <- keypoint pose 6 ;;
     rightElbow <- keypoint pose 8 ;;
     let rightBicepLength :=
       sqrt ((x rightElbow - x rightShoulder) ^ 2
             + (y rightElbow - y rightShoulder) ^ 2) in
     modify (fun o =>
               set_currentMeasurements
                 (set_rightBicep
                    (Some (rightBicepLength * number (scaleCmPerPixel o)))
                    (currentMeasurements o)) o)).

Definition startCalibration : T unit :=
  o <- get ;;
  if negb (isDetecting o) then
    updateStatus "Please start camera first" "error"
  else
    modify (set_isCalibrating true) ;;
    modify (set_calibrationFrames []) ;;
    emit (CalibrationStatus "Calibrating...") ;;
    updateStatus "Stand with arms extended for calibration" "calibrating".

(** [addToHistory()], given the time: the entry goes to the front and the
    last entry is dropped when there are more than 10. *)
Definition addToHistory (now : string) : T unit :=
  o <- get ;;
  let measurement := mkHistoryEntry now (currentMeasurements o) in
  modify (set_measurementHistory (measurement :: measurementHistory o)) ;;
  o <- get ;;
  when (10 <? List.length (measurementHistory o))%nat
    (modify (fun o =>
               set_measurementHistory (removelast (measurementHistory o)) o)).

(** One of the three blocks of [takeMeasurement] that show a value. *)
Definition showMeasurement (id : string) (v : option R) : T unit :=
  when (truthy v) (emit (MeasurementShown id (number v))).

Definition takeMeasurement (now : string) : T unit :=
  o <- get ;;
  if negb (isCalibrated o) then
    updateStatus "Please calibrate first" "error"
  else
    updateStatus "Taking measurements..." "measuring" ;;
    showMeasurement "chest-measurement" (chest (currentMeasurements o)) ;;
    showMeasurement "left-bicep-measurement"
      (leftBicep (currentMeasurements o)) ;;
    showMeasurement "right-bicep-measurement"
      (rightBicep (currentMeasurements o)) ;;
    updateStatus "Measurements complete" "ready" ;;
    addToHistory now.

(** [loadMeasurementHistory()], which [init()] runs once the detector is
    set up.  [saved] is what the storage holds under [poseai_measurements],
    read as JSON: the list that [saveMeasurementHistory] wrote on an
    earlier visit, [None] when there is no item or it does not parse (the
    exception is caught and the history stays).  The writing of the
    history to the page is left out. *)
Definition loadMeasurementHistory (saved : option (list HistoryEntry))
    : T unit :=
  match saved with
  | Some history => modify (set_measurementHistory history)
  | None => ret tt
  end.

(** The [connections] of [drawSkeleton]. *)
Definition connections : list (nat * nat) :=
  [ (5, 7); (7, 9); (6, 8); (8, 10); (5, 6); (5, 11); (6, 12); (11, 12);
    (11, 13); (13, 15); (12, 14); (14, 16) ]%nat.

(** The reads of [drawPose]: those of [drawSkeleton], one connection after
    the other (the drawing itself is left out). *)
Fixpoint drawConnections (pose : Pose) (cs : list (nat * nat)) : T unit :=
  match cs with
  | [] => ret tt
  | (start, finish) :: rest =>
      both (scoresAbove 0.3 pose start) (scoresAbove 0.3 pose finish) ;;
      drawConnections pose rest
  end.

Definition drawPose (pose : Pose) : T unit :=
  drawConnections pose connections.

(** A call of an [async] method that is not awaited: an exception ends
    the call, not the caller. *)
Definition notAwaited (m : T unit) : T unit :=
  fun o => mkOut (Normal tt) (obj (m o)) (notes (m o)).

(** [detectPose()] from the answer [poses] of the detector on. *)
Definition detectPose (poses : list Pose) : T unit :=
  match poses with
  | [] => ret tt
  | pose :: _ =>
      drawPose pose ;;
      o <- get ;;
      if isCalibrating o then notAwaited (calibrateWithHand pose)
      else if isCalibrated o then measurementsWithPose pose
      else ret tt
  end.

(** The object as the constructor leaves it, before [init()] has got to
    [loadMeasurementHistory]. *)
Definition fresh : Obj :=
  mkObj false false false None (mkMeasurements None None None) [] [].

(** What can happen on the page. *)
Inductive Action : Type :=
| CameraStarted
| CameraStopped
| Calibrate
| Detected (poses : list Pose)
| Measure (now : string).

Definition set_isDetecting (b : bool) (o : Obj) : Obj :=
  mkObj b (isCalibrating o) (isCalibrated o) (scaleCmPerPixel o)
    (currentMeasurements o) (measurementHistory o) (calibrationFrames o).

(** [startCamera] and [stopCamera] as far as the object goes: the flag
    [isDetecting]. *)
Definition perform (a : Action) : T unit :=
  match a with
  | CameraStarted => modify (set_isDetecting true)
  | CameraStopped => modify (set_isDetecting false)
  | Calibrate => startCalibration
  | Detected poses => detectPose poses
  | Measure now => takeMeasurement now
  end.

Fixpoint after (acts : list Action) (o : Obj) : Obj :=
  match acts with
  | [] => o
  | a :: rest => after rest (obj (perform a o))
  end.

(** A visit of the page: the constructor, the callbacks [before] that
    come while [init()] is still waiting for the detector, the load of the
    saved history, and the callbacks [later]. *)
Definition visit (saved : option (list HistoryEntry))
    (before later : list Action) : Obj :=
  after later (obj (loadMeasurementHistory saved (after before fresh))).

(** *** Vocabulary *)

(** The scale that a frame proposes to the calibration: 40 over the
    distance between the shoulders along x, when both shoulders and both
    wrists score above 0.5 and that distance is not 0. *)
Definition frameScale (pose : Pose) : option R :=
  match nth_error pose 5, nth_error pose 6, nth_error pose 9,
        nth_error pose 10 with
  | Some ls, Some rs, Some lw, Some rw =>
      if (score ls >? 0.5) && (score rs >? 0.5) && (score lw >? 0.5)
         && (score rw >? 0.5) && (Rabs (x rs - x ls) >? 0)
      then Some (40 / Rabs (x rs - x ls))
      else None
  | _, _, _, _ => None
  end.

(** The scales proposed by a sequence of frames, in order. *)
Fixpoint frameScales (poses : list Pose) : list R :=
  match poses with
  | [] => []
  | pose :: rest =>
      match frameScale pose with
      | Some c => c :: frameScales rest
      | None => frameScales rest
      end
  end.

(** [calibrateWithHand] on one frame after the other. *)
Fixpoint calibrateAll (poses : list Pose) (o : Obj) : Obj :=
  match poses with
  | [] => o
  | pose :: rest => calibrateAll rest (obj (calibrateWithHand pose o))
  end.

(** A value is absent or not negative. *)
Definition notNegative (v : option R) : Prop :=
  match v with
  | Some r => 0 <= r
  | None => True
  end.

(** What the callbacks keep true of the object: the scales collected for
    the calibration are positive, the scale is positive once it is set and
    it is set once the page is calibrated, and no measured value is
    negative. *)
Definition settled (o : Obj) : Prop :=
  Forall (fun c => 0 < c) (calibrationFrames o)
  /\ match scaleCmPerPixel o with
     | Some c => 0 < c
     | None => isCalibrated o = false
     end
  /\ notNegative (chest (currentMeasurements o))
  /\ notNegative (leftBicep (currentMeasurements o))
  /\ notNegative (rightBicep (currentMeasurements o)).

(** What one of the three blocks of [takeMeasurement] notes for the
    value [v]. *)
Definition blockNotes (id : string) (v : option R) : list Note :=
  if truthy v then [MeasurementShown id (number v)] else [].

(** The notes that show a measurement. *)
Definition shown (ns : list Note) : list (string * R) :=
  flat_map (fun n => match n with
                     | MeasurementShown id v => [(id, v)]
                     | _ => []
                     end) ns.

End BodyMeasurement.

(** ** Facts about the numeric operations *)

Module NumFacts.
Import Num.

Lemma gtb_true (a b : R) : (a >? b) = true <-> b < a.
Proof. unfold gtb. destruct (Rlt_dec b a); split; intros; congruence || lra. Qed.

Lemma gtb_false (a b : R) : (a >? b) = false <-> a <= b.
Proof. unfold gtb. destruct (Rlt_dec b a); split; intros; congruence || lra. Qed.

Lemma ltb_true (a b : R) : (a <? b) = true <-> a < b.
Proof. unfold ltb. destruct (Rlt_dec a b); split; intros; congruence || lra. Qed.

Lemma ltb_false (a b : R) : (a <? b) = false <-> b <= a.
Proof. unfold ltb. destruct (Rlt_dec a b); split; intros; congruence || lra. Qed.

(** [Math.atan2] on the axes. *)
Lemma atan2_east (y x : R) : y = 0 -> 0 < x -> atan2 y x = 0.
Proof.
  intros -> Hx. unfold atan2. destruct (Rlt_dec 0 x); [|lra].
  unfold Rdiv. rewrite Rmult_0_l. apply atan_0.
Qed.

Lemma atan2_west (y x : R) : y = 0 -> x < 0 -> atan2 y x = PI.
Proof.
  intros -> Hx. unfold atan2.
  destruct (Rlt_dec 0 x); [lra|]. destruct (Rlt_dec x 0); [|lra].
  destruct (Rle_dec 0 0); [|lra].
  unfold Rdiv. rewrite Rmult_0_l, atan_0. lra.
Qed.

Lemma atan2_south (y x : R) : x = 0 -> 0 < y -> atan2 y x = PI / 2.
Proof.
  intros -> Hy. unfold atan2.
  destruct (Rlt_dec 0 0); [lra|]. destruct (Rlt_dec 0 y); [reflexivity|lra].
Qed.

Lemma atan2_north (y x : R) : x = 0 -> y < 0 -> atan2 y x = - (PI / 2).
Proof.
  intros -> Hy. unfold atan2.
  destruct (Rlt_dec 0 0); [lra|]. destruct (Rlt_dec 0 y); [lra|].
  destruct (Rlt_dec y 0); [reflexivity|lra].
Qed.

(** [Math.atan2] stays within half a turn. *)
Lemma atan2_bound (y x : R) : - PI <= atan2 y x <= PI.
Proof.
  pose proof PI_RGT_0 as Hpi. pose proof (atan_bound (y / x)) as Hb.
  unfold atan2.
  destruct (Rlt_dec 0 x) as [Hx|Hx]; [lra|].
  destruct (Rlt_dec x 0) as [Hx'|Hx'].
  - assert (Hinv : / x < 0) by (apply Rinv_lt_0_compat; assumption).
    destruct (Rle_dec 0 y) as [Hy|Hy].
    + assert (y / x <= 0) by (unfold Rdiv; nra).
      assert (atan (y / x) <= 0).
      { destruct (Req_dec (y / x) 0) as [E|E].
        - rewrite E, atan_0. lra.
        - rewrite <- atan_0. left. apply atan_increasing. lra. }
      lra.
    + assert (0 < y / x) by (unfold Rdiv; nra).
      assert (0 < atan (y / x)).
      { rewrite <- atan_0. apply atan_increasing. assumption. }
      lra.
  - destruct (Rlt_dec 0 y); [lra|]. destruct (Rlt_dec y 0); lra.
Qed.

(** Truncation lies between zero and its argument. *)
Lemma trunc_nonneg (r : R) :
  0 <= r -> IZR (trunc r) <= r < IZR (trunc r) + 1 /\ 0 <= IZR (trunc r).
Proof.
  intros Hr. unfold trunc. destruct (Rle_dec 0 r); [|lra].
  destruct (base_Int_part r) as [H1 H2]. split; [lra|].
  apply IZR_le.
  destruct (Z_lt_le_dec (Int_part r) 0) as [Hneg|Hpos]; [|assumption].
  exfalso. assert (Int_part r <= -1)%Z as Hle by lia.
  apply IZR_le in Hle. lra.
Qed.

Lemma trunc_neg (r : R) :
  r < 0 -> r <= IZR (trunc r) < r + 1 /\ IZR (trunc r) <= 0.
Proof.
  intros Hr. unfold trunc. destruct (Rle_dec 0 r); [lra|].
  destruct (base_Int_part (- r)) as [H1 H2]. rewrite opp_IZR.
  split; [lra|].
  assert (0 <= IZR (Int_part (- r))); [|lra].
  apply IZR_le.
  destruct (Z_lt_le_dec (Int_part (- r)) 0) as [Hneg|Hpos]; [|assumption].
  exfalso. assert (Int_part (- r) <= -1)%Z as Hle by lia.
  apply IZR_le in Hle. lra.
Qed.

Lemma trunc_unique (r : R) (z : Z) :
  0 <= r -> IZR z <= r < IZR z + 1 -> trunc r = z.
Proof.
  intros Hr Hz. destruct (trunc_nonneg r Hr) as [Ht _].
  destruct (Z.eq_dec (trunc r) z) as [E|E]; [assumption|].
  exfalso.
  destruct (Z_lt_le_dec (trunc r) z) as [Hlt|Hge].
  - assert (trunc r + 1 <= z)%Z as Hle by lia.
    apply IZR_le in Hle. rewrite plus_IZR in Hle. lra.
  - assert (z + 1 <= trunc r)%Z as Hle by lia.
    apply IZR_le in Hle. rewrite plus_IZR in Hle. lra.
Qed.

(** The remainder is smaller than the divisor in absolute value. *)
Lemma rem_range (a b : R) : 0 < b -> - b < rem a b < b.
Proof.
  intros Hb. unfold rem.
  assert (Hab : a = b * (a / b)) by (field; lra).
  destruct (Rle_lt_dec 0 (a / b)) as [Hq|Hq].
  - destruct (trunc_nonneg _ Hq) as [[H1 H2] _].
    assert (b * IZR (trunc (a / b)) <= a) by nra.
    assert (a < b * IZR (trunc (a / b)) + b) by nra.
    lra.
  - destruct (trunc_neg _ Hq) as [[H1 H2] _].
    assert (a <= b * IZR (trunc (a / b))) by nra.
    assert (b * IZR (trunc (a / b)) < a + b) by nra.
    lra.
Qed.

(** The remainder has the sign of the dividend. *)
Lemma rem_nonpos (a b : R) : 0 < b -> a < 0 -> rem a b <= 0.
Proof.
  intros Hb Ha. unfold rem.
  assert (Hab : a = b * (a / b)) by (field; lra).
  assert (Hq : a / b < 0).
  { unfold Rdiv. assert (0 < / b) by (apply Rinv_0_lt_compat; assumption). nra. }
  destruct (trunc_neg _ Hq) as [[H1 H2] _].
  assert (a <= b * IZR (trunc (a / b))) by nra.
  lra.
Qed.

Lemma rem_nonneg (a b : R) : 0 < b -> 0 <= a -> 0 <= rem a b.
Proof.
  intros Hb Ha. unfold rem.
  assert (Hab : a = b * (a / b)) by (field; lra).
  assert (Hq : 0 <= a / b).
  { unfold Rdiv. assert (0 < / b) by (apply Rinv_0_lt_compat; assumption). nra. }
  destruct (trunc_nonneg _ Hq) as [[H1 H2] _].
  assert (b * IZR (trunc (a / b)) <= a) by nra.
  lra.
Qed.

(** A dividend already inside the range is its own remainder. *)
Lemma rem_small (a b : R) : 0 < b -> - b < a < b -> rem a b = a.
Proof.
  intros Hb Ha. unfold rem.
  assert (Hinv : 0 < / b) by (apply Rinv_0_lt_compat; assumption).
  assert (Hone : b * / b = 1) by (field; lra).
  assert (Ht : trunc (a / b) = 0%Z).
  { destruct (Rle_lt_dec 0 (a / b)) as [Hq|Hq].
    - apply trunc_unique; [assumption|]. simpl. unfold Rdiv in *. nra.
    - destruct (trunc_neg _ Hq) as [[H1 H2] H3].
      assert (-1 < a / b) by (unfold Rdiv; nra).
      destruct (Z_lt_le_dec (trunc (a / b)) 0) as [Hneg|Hpos].
      + assert (trunc (a / b) <= -1)%Z as Hle by lia.
        apply IZR_le in Hle. lra.
      + apply le_IZR in H3. lia. }
  rewrite Ht. lra.
Qed.

Lemma rem_self (b : R) : 0 < b -> rem b b = 0.
Proof.
  intros Hb. unfold rem.
  assert (Hq : b / b = 1) by (field; lra).
  rewrite Hq, (trunc_unique 1 1); lra.
Qed.

End NumFacts.

(** ** Running the methods symbolically *)

(** Unfold the methods down to the monad's operations, then follow the
    control flow one test at a time. *)
Ltac js_unfold :=
  unfold drawKeypoints, checkPushupPositions, checkUpPosition,
    checkDownPosition, elbowAboveNose, updateArmAngle, updateBackAngle,
    resetWorkout, selectExercise, detectPose, startWorkoutSession, speak,
    updateFormFeedback, updateAIFeedback, keypoint, when, bind, get, ret,
    modify, emit, throw in *.

Ltac js_cbn :=
  cbn [completion final trace app negb andb orb
       set_currentExercise set_reps set_elbowAngle set_backAngle
       set_upPosition set_downPosition set_highlightBack
       set_backWarningGiven set_voiceFeedbackEnabled set_workoutSession
       currentExercise reps elbowAngle backAngle upPosition downPosition
       highlightBack backWarningGiven voiceFeedbackEnabled workoutSession]
    in *.

Ltac js_case :=
  match goal with
  | |- context [match nth_error ?p ?i with _ => _ end] =>
      destruct (nth_error p i) eqn:?
  | |- context [match getCurrentPose ?s with _ => _ end] =>
      destruct (getCurrentPose s) eqn:?
  | |- context [if ?b then _ else _] => destruct b eqn:?
  end.

Ltac js_run := js_unfold; js_cbn; repeat (js_case; js_cbn).

Ltac js_destruct s :=
  let ce := fresh "ce" in let n := fresh "n" in
  let ea := fresh "ea" in let ba := fresh "ba" in
  let up := fresh "up" in let down := fresh "down" in
  let hb := fresh "hb" in let wg := fresh "wg" in
  let voice := fresh "voice" in let ws := fresh "ws" in
  destruct s as [ce n ea ba up down hb wg voice ws].

(** Turn the outcomes of the boolean tests into inequalities. *)
Ltac js_props :=
  repeat match goal with
  | H : (_ && _) = true |- _ => apply andb_true_iff in H; destruct H
  | H : (_ || _) = false |- _ => apply orb_false_iff in H; destruct H
  | H : (_ >? _) = true |- _ => apply NumFacts.gtb_true in H
  | H : (_ >? _) = false |- _ => apply NumFacts.gtb_false in H
  | H : (_ <? _) = true |- _ => apply NumFacts.ltb_true in H
  | H : (_ <? _) = false |- _ => apply NumFacts.ltb_false in H
  end.

Lemma elbowAboveNose_completion (s : PoseAI) :
  completion (elbowAboveNose s)
  = match getCurrentPose s with
    | None => Normal false
    | Some pose =>
        match nth_error pose 0, nth_error pose 7 with
        | Some nose, Some elbow => Normal (y nose >? y elbow)
        | _, _ => TypeError
        end
    end.
Proof. js_run; reflexivity. Qed.

(** *** [updateArmAngle] *)

Lemma updateArmAngle_frame (s : PoseAI) (pose : Pose) :
  let r := updateArmAngle pose s in
  final r = set_elbowAngle (elbowAngle (final r)) s /\ trace r = [].
Proof. js_destruct s. js_run; split; reflexivity. Qed.

Lemma updateArmAngle_stale (s : PoseAI) (pose : Pose) :
  confidentElbow pose = false -> final (updateArmAngle pose s) = s.
Proof.
  unfold confidentElbow, confident. intros H. js_destruct s.
  js_run; try reflexivity.
  js_props. repeat match goal with
  | H : (_ < _) |- _ => apply NumFacts.gtb_true in H; rewrite H in *
  end. discriminate.
Qed.

Lemma updateArmAngle_completes (s : PoseAI) (pose : Pose) :
  (9 < List.length pose)%nat -> completion (updateArmAngle pose s) = Normal tt.
Proof.
  intros H. js_destruct s.
  js_run; try reflexivity;
    match goal with
    | E : nth_error _ _ = None |- _ => apply nth_error_None in E; lia
    end.
Qed.

Lemma updateArmAngle_value (s : PoseAI) (pose : Pose) (lw ls le : Keypoint) :
  nth_error pose 9 = Some lw -> nth_error pose 5 = Some ls ->
  nth_error pose 7 = Some le ->
  0.3 < score lw -> 0.3 < score le -> 0.3 < score ls ->
  final (updateArmAngle pose s) = set_elbowAngle (jointAngle lw ls le) s.
Proof.
  intros E9 E5 E7 Hw He Hs. unfold updateArmAngle, keypoint.
  rewrite E9, E5, E7.
  apply NumFacts.gtb_true in Hw, He, Hs.
  js_unfold. js_cbn. rewrite Hw, He, Hs. reflexivity.
Qed.

(** *** [updateBackAngle] *)

Lemma updateBackAngle_frame (s : PoseAI) (pose : Pose) :
  let s' := final (updateBackAngle pose s) in
  s' = set_backWarningGiven (backWarningGiven s')
         (set_highlightBack (highlightBack s')
            (set_backAngle (backAngle s') s)).
Proof. js_destruct s. js_run; reflexivity. Qed.

Lemma updateBackAngle_stale (s : PoseAI) (pose : Pose) :
  confidentBack pose = false ->
  backAngle (final (updateBackAngle pose s)) = backAngle s.
Proof.
  unfold confidentBack, confident. intros H. js_destruct s.
  js_run; try reflexivity;
    js_props; repeat match goal with
    | H : (_ < _) |- _ => apply NumFacts.gtb_true in H; rewrite H in *
    end; discriminate.
Qed.

Lemma updateBackAngle_completes (s : PoseAI) (pose : Pose) :
  (13 < List.length pose)%nat ->
  completion (updateBackAngle pose s) = Normal tt.
Proof.
  intros H. js_destruct s.
  js_run; try reflexivity;
    match goal with
    | E : nth_error _ _ = None |- _ => apply nth_error_None in E; lia
    end.
Qed.

Lemma updateBackAngle_value (s : PoseAI) (pose : Pose) (ls lh lk : Keypoint) :
  nth_error pose 5 = Some ls -> nth_error pose 11 = Some lh ->
  nth_error pose 13 = Some lk ->
  0.3 < score lk -> 0.3 < score lh -> 0.3 < score ls ->
  backAngle (final (updateBackAngle pose s))
  = Num.rem (jointAngle lk ls lh) 180.
Proof.
  intros E5 E11 E13 Hk Hh Hs. unfold updateBackAngle, keypoint.
  rewrite E5, E11, E13.
  apply NumFacts.gtb_true in Hk, Hh, Hs.
  js_destruct s. js_unfold. js_cbn. rewrite Hk, Hh, Hs. js_cbn.
  repeat (js_case; js_cbn); reflexivity.
Qed.

(** The classification follows the angle the method leaves in the field. *)
Lemma updateBackAngle_classifies (s : PoseAI) (pose : Pose) :
  let r := updateBackAngle pose s in
  completion r = Normal tt ->
  highlightBack (final r)
  = negb ((backAngle (final r) <? 20) || (backAngle (final r) >? 160)).
Proof.
  js_destruct s. js_run; intros; try discriminate;
    repeat match goal with
    | H : _ = _ |- _ => rewrite H
    end; reflexivity.
Qed.

(** The spoken warning: issued when the flag was clear, the back is
    flagged and voice feedback is on; the flag is then set, and the method
    never clears it. *)
Lemma updateBackAngle_warning (s : PoseAI) (pose : Pose) :
  let r := updateBackAngle pose s in
  backWarnings (trace r)
  = (if backWarningGiven s then 0
     else if backWarningGiven (final r) then 1 else 0)%nat
  /\ (backWarningGiven s = true -> backWarningGiven (final r) = true)
  /\ (completion r = Normal tt -> highlightBack (final r) = true ->
      voiceFeedbackEnabled s = true -> backWarningGiven (final r) = true).
Proof.
  js_destruct s. js_run; repeat split; intros; subst;
    reflexivity || discriminate || assumption.
Qed.

(** *** [checkPushupPositions] *)

(** The up window and the down window do not meet. *)
Lemma windows_disjoint (s : PoseAI) : upFires s && downFires s = false.
Proof.
  unfold upFires, downFires.
  destruct (completion (elbowAboveNose s)) as [above|];
    [|apply andb_false_r].
  destruct ((elbowAngle s >? 170) && (elbowAngle s <? 200)) eqn:Hup;
    [|reflexivity].
  destruct ((Rabs (elbowAngle s) >? 70) && (Rabs (elbowAngle s) <? 100))
    eqn:Hdown; [|rewrite andb_false_r; reflexivity].
  exfalso. js_props. rewrite Rabs_right in * by lra. lra.
Qed.

Lemma checkUpPosition_frame (s : PoseAI) :
  let r := checkUpPosition s in
  completion r = Normal tt
  /\ final r = set_downPosition (downPosition (final r))
                (set_upPosition (upPosition (final r))
                   (set_reps (reps (final r)) s)).
Proof. js_destruct s. js_run; split; reflexivity. Qed.

Lemma checkUpPosition_effect (s : PoseAI) :
  let s' := final (checkUpPosition s) in
  reps s' = (if upFires s && downPosition s then S (reps s) else reps s)
  /\ upPosition s' = (if upFires s then true else upPosition s)
  /\ downPosition s' = (if upFires s then false else downPosition s).
Proof. unfold upFires. js_destruct s. js_run; repeat split; reflexivity. Qed.

(** The second block changes the two flags when its guard holds, and
    nothing otherwise. *)
Lemma checkDownPosition_effect (s : PoseAI) :
  final (checkDownPosition s)
  = if downFires s
    then set_upPosition false (set_downPosition true s)
    else s.
Proof. unfold downFires. js_destruct s. js_run; reflexivity. Qed.

Lemma downFires_checkUpPosition (s : PoseAI) :
  downFires (final (checkUpPosition s)) = downFires s.
Proof.
  destruct (checkUpPosition_frame s) as [_ Hf]. rewrite Hf. clear Hf.
  generalize (upPosition (final (checkUpPosition s))),
    (downPosition (final (checkUpPosition s))),
    (reps (final (checkUpPosition s))).
  intros u' d' n'. unfold downFires. rewrite !elbowAboveNose_completion.
  unfold getCurrentPose. js_destruct s. js_cbn. reflexivity.
Qed.

Lemma checkPushupPositions_final (s : PoseAI) :
  final (checkPushupPositions s)
  = final (checkDownPosition (final (checkUpPosition s))).
Proof.
  unfold checkPushupPositions, bind.
  destruct (checkUpPosition_frame s) as [Hc _].
  destruct (checkUpPosition s) as [c s1 t1]. cbn in Hc. subst c. cbn.
  destruct (checkDownPosition s1); reflexivity.
Qed.

Lemma checkPushupPositions_frame (s : PoseAI) :
  let s' := final (checkPushupPositions s) in
  s' = set_downPosition (downPosition s')
         (set_upPosition (upPosition s') (set_reps (reps s') s)).
Proof. js_destruct s. js_run; reflexivity. Qed.

Lemma checkPushupPositions_effect (s : PoseAI) :
  let s' := final (checkPushupPositions s) in
  reps s' = (if upFires s && downPosition s then S (reps s) else reps s)
  /\ upPosition s'
     = (if downFires s then false
        else if upFires s then true else upPosition s)
  /\ downPosition s'
     = (if downFires s then true
        else if upFires s then false else downPosition s).
Proof.
  cbv zeta. rewrite checkPushupPositions_final, checkDownPosition_effect.
  rewrite downFires_checkUpPosition.
  destruct (checkUpPosition_effect s) as (Hr & Hu & Hd).
  destruct (downFires s); js_cbn; auto.
Qed.


(** *** [drawKeypoints] *)

Lemma analysed_length (pose : Pose) (rest : list Pose) :
  analysed (pose :: rest) = true -> (17 <= List.length pose)%nat.
Proof.
  unfold analysed. intros H. apply Nat.eqb_eq in H.
  rewrite <- H. apply filter_length_le.
Qed.

Lemma drawKeypoints_skipped (s : PoseAI) (poses : list Pose) :
  analysed poses = false -> drawKeypoints poses s = mkResult (Normal tt) s [].
Proof.
  unfold analysed, drawKeypoints. destruct poses as [|pose rest];
    [reflexivity|].
  intros H. rewrite H. reflexivity.
Qed.

(** An analysed frame goes through the three steps, none of which is cut
    short by a missing keypoint of the frame. *)
Lemma drawKeypoints_analysed (s : PoseAI) (pose : Pose) (rest : list Pose) :
  analysed (pose :: rest) = true ->
  let r1 := updateArmAngle pose s in
  let r2 := updateBackAngle pose (final r1) in
  let r3 := checkPushupPositions (final r2) in
  final (drawKeypoints (pose :: rest) s) = final r3
  /\ trace (drawKeypoints (pose :: rest) s)
     = trace r1 ++ trace r2 ++ trace r3.
Proof.
  intros H. pose proof (analysed_length _ _ H) as Hlen.
  assert (Hrun : drawKeypoints (pose :: rest) s
                 = (updateArmAngle pose ;; updateBackAngle pose ;;
                    checkPushupPositions) s).
  { unfold analysed in H. unfold drawKeypoints. rewrite H. reflexivity. }
  rewrite Hrun. clear Hrun. cbv zeta. unfold bind.
  pose proof (updateArmAngle_completes s pose ltac:(lia)) as H1.
  destruct (updateArmAngle pose s) as [c1 s1 t1]. cbn in H1. subst c1.
  cbn [final trace].
  pose proof (updateBackAngle_completes s1 pose ltac:(lia)) as H2.
  destruct (updateBackAngle pose s1) as [c2 s2 t2]. cbn in H2. subst c2.
  cbn [final trace].
  destruct (checkPushupPositions s2) as [c3 s3 t3]. cbn [final trace].
  split; reflexivity.
Qed.

(** *** The other callbacks *)

Lemma resetWorkout_final (s : PoseAI) :
  final (resetWorkout s)
  = mkPoseAI (currentExercise s) 0 999 0 false false false false
      (voiceFeedbackEnabled s) (workoutSession s).
Proof. js_destruct s. js_run. reflexivity. Qed.

Lemma selectExercise_final (s : PoseAI) (exerciseType : string) :
  final (selectExercise exerciseType s)
  = mkPoseAI exerciseType 0 999 0 false false false false
      (voiceFeedbackEnabled s) (workoutSession s).
Proof. js_destruct s. js_run. reflexivity. Qed.

Lemma detectPose_frame (s : PoseAI) (poses : list Pose) :
  let r := detectPose poses s in
  final r = set_workoutSession (workoutSession (final r)) s /\ trace r = [].
Proof.
  js_destruct s. js_unfold. js_cbn.
  destruct poses; [split; reflexivity|]. destruct ws; split; reflexivity.
Qed.

(** *** Spoken warnings in the traces *)

Lemma backWarnings_app (t1 t2 : list Event) :
  backWarnings (t1 ++ t2) = (backWarnings t1 + backWarnings t2)%nat.
Proof. unfold backWarnings. rewrite filter_app, length_app. reflexivity. Qed.

Lemma toString_not_warning (n : nat) :
  String.eqb (Num.toString n) "Keep your back straight" = false.
Proof. unfold Num.toString. destruct (Nat.to_uint n); reflexivity. Qed.

Lemma checkPushupPositions_no_warning (s : PoseAI) :
  backWarnings (trace (checkPushupPositions s)) = 0%nat.
Proof.
  js_destruct s. js_run; unfold backWarnings;
    cbn [filter isBackWarning]; rewrite ?toString_not_warning; reflexivity.
Qed.

(** *** One frame *)

(** The guards read only the elbow angle, the back flag and the session. *)
Lemma upFires_ext (s1 s2 : PoseAI) :
  elbowAngle s1 = elbowAngle s2 -> upFires s1 = upFires s2.
Proof. unfold upFires. intros ->. reflexivity. Qed.

Lemma downFires_ext (s1 s2 : PoseAI) :
  highlightBack s1 = highlightBack s2 -> elbowAngle s1 = elbowAngle s2 ->
  workoutSession s1 = workoutSession s2 -> downFires s1 = downFires s2.
Proof.
  unfold downFires. rewrite !elbowAboveNose_completion. unfold getCurrentPose.
  intros -> -> ->. reflexivity.
Qed.

Lemma checkPushupPositions_guards (s : PoseAI) :
  let s' := final (checkPushupPositions s) in
  upFires s' = upFires s /\ downFires s' = downFires s.
Proof.
  cbv zeta. rewrite (checkPushupPositions_frame s).
  split; [apply upFires_ext|apply downFires_ext]; reflexivity.
Qed.

(** What an analysed frame leaves in the fields that the first two steps
    own. *)
Lemma drawKeypoints_angles (s : PoseAI) (pose : Pose) (rest : list Pose) :
  analysed (pose :: rest) = true ->
  let s1 := final (updateArmAngle pose s) in
  let s2 := final (updateBackAngle pose s1) in
  let s' := final (drawKeypoints (pose :: rest) s) in
  elbowAngle s' = elbowAngle s1 /\ backAngle s' = backAngle s2
  /\ highlightBack s' = highlightBack s2
  /\ backWarningGiven s' = backWarningGiven s2.
Proof.
  intros H. cbv zeta.
  destruct (drawKeypoints_analysed s pose rest H) as [-> _].
  rewrite (checkPushupPositions_frame _). js_cbn.
  rewrite (updateBackAngle_frame _ pose) at 1. js_cbn.
  repeat split; reflexivity.
Qed.

(** The count and the flags after a frame, in terms of the guards read
    on the object the frame leaves behind. *)
Lemma drawKeypoints_effect (s : PoseAI) (poses : list Pose) :
  let s' := final (drawKeypoints poses s) in
  reps s'
  = (if analysed poses && upFires s' && downPosition s
     then S (reps s) else reps s)
  /\ upPosition s'
     = (if analysed poses
        then if downFires s' then false
             else if upFires s' then true else upPosition s
        else upPosition s)
  /\ downPosition s'
     = (if analysed poses
        then if downFires s' then true
             else if upFires s' then false else downPosition s
        else downPosition s).
Proof.
  cbv zeta. destruct (analysed poses) eqn:H.
  - destruct poses as [|pose rest]; [discriminate|].
    destruct (drawKeypoints_analysed s pose rest H) as [-> _].
    set (s1 := final (updateArmAngle pose s)).
    set (s2 := final (updateBackAngle pose s1)).
    destruct (checkPushupPositions_guards s2) as [-> ->].
    destruct (checkPushupPositions_effect s2) as (-> & -> & ->).
    assert (E2 : reps s2 = reps s /\ upPosition s2 = upPosition s
                 /\ downPosition s2 = downPosition s).
    { subst s2. rewrite (updateBackAngle_frame s1 pose). js_cbn.
      subst s1. destruct (updateArmAngle_frame s pose) as [-> _]. js_cbn.
      repeat split; reflexivity. }
    destruct E2 as (-> & -> & ->). cbn [andb]. repeat split; reflexivity.
  - rewrite (drawKeypoints_skipped s poses H). cbn. repeat split; reflexivity.
Qed.

(** ** The sample frames, evaluated *)

Module SampleFacts.
Import Sample.

(** Evaluate a joint angle whose two directions lie on the axes. *)
Ltac axes :=
  unfold jointAngle; cbn [x y score pt];
  repeat first
    [ rewrite (NumFacts.atan2_east (_ - _) (_ - _)) by lra
    | rewrite (NumFacts.atan2_west (_ - _) (_ - _)) by lra
    | rewrite (NumFacts.atan2_south (_ - _) (_ - _)) by lra
    | rewrite (NumFacts.atan2_north (_ - _) (_ - _)) by lra ];
  try (field; apply PI_neq0).

Lemma analysed_pose (w k : Keypoint) (rest : list Pose) :
  0.3 < score w -> 0.3 < score k -> analysed (pose w k :: rest) = true.
Proof.
  intros Hw Hk. apply NumFacts.gtb_true in Hw, Hk.
  assert (H1 : (1 >? 0.3) = true) by (apply NumFacts.gtb_true; lra).
  unfold analysed, pose. cbn [filter score pt]. rewrite Hw, Hk, H1.
  reflexivity.
Qed.

(** The elbow angle of the samples. *)
Lemma elbow_stretched : jointAngle (pt (-1) 0) (pt 1 0) (pt 0 0) = 180.
Proof. axes. Qed.

Lemma elbow_bent : jointAngle (pt 0 1) (pt 1 0) (pt 0 0) = 90.
Proof. axes. Qed.

(** The hip angle of the samples, before the remainder is taken. *)
Lemma hip_in_line : jointAngle (pt (-2) 0) (pt 1 0) (pt (-1) 0) = 180.
Proof. axes. Qed.

Lemma hip_bent : jointAngle (pt (-1) 1) (pt 1 0) (pt (-1) 0) = 90.
Proof. axes. Qed.

Lemma hip_bent_mirrored :
  jointAngle (pt (-1) (-1)) (pt 1 0) (pt (-1) 0) = -90.
Proof. axes. Qed.

(** A sample frame through [drawKeypoints]: both angles are taken from
    the frame and the back is classified on the new angle. *)
Lemma draw_pose (s : PoseAI) (w k : Keypoint) (rest : list Pose) :
  0.3 < score w -> 0.3 < score k ->
  let s' := final (drawKeypoints (pose w k :: rest) s) in
  elbowAngle s' = jointAngle w (pt 1 0) (pt 0 0)
  /\ backAngle s' = Num.rem (jointAngle k (pt 1 0) (pt (-1) 0)) 180
  /\ highlightBack s'
     = negb ((backAngle s' <? 20) || (backAngle s' >? 160)).
Proof.
  intros Hw Hk. cbv zeta.
  assert (H1 : 0.3 < 1) by lra.
  destruct (drawKeypoints_angles s (pose w k) rest
              (analysed_pose w k rest Hw Hk)) as (-> & -> & -> & _).
  set (s1 := final (updateArmAngle (pose w k) s)).
  assert (Hlen : (13 < List.length (pose w k))%nat) by (cbn; lia).
  rewrite (updateBackAngle_classifies s1 (pose w k)
             (updateBackAngle_completes s1 (pose w k) Hlen)).
  rewrite (updateBackAngle_value s1 (pose w k) (pt 1 0) (pt (-1) 0) k)
    by (reflexivity || assumption).
  subst s1.
  rewrite (updateArmAngle_value s (pose w k) w (pt 1 0) (pt 0 0))
    by (reflexivity || assumption).
  repeat split; reflexivity.
Qed.

Lemma draw_armsUp (s : PoseAI) (rest : list Pose) :
  let s' := final (drawKeypoints (armsUp :: rest) s) in
  elbowAngle s' = 180 /\ backAngle s' = 0 /\ highlightBack s' = false.
Proof.
  cbv zeta. unfold armsUp.
  destruct (draw_pose s (pt (-1) 0) (pt (-2) 0) rest) as (He & Hb & Hh);
    [cbn; lra | cbn; lra |].
  rewrite hip_in_line, NumFacts.rem_self in Hb by lra.
  rewrite Hb in Hh. rewrite He, Hb, Hh, elbow_stretched.
  repeat split; try reflexivity.
  assert (E : (0 <? 20) = true) by (apply NumFacts.ltb_true; lra).
  rewrite E. reflexivity.
Qed.

Lemma draw_armsDown (s : PoseAI) (rest : list Pose) :
  let s' := final (drawKeypoints (armsDown :: rest) s) in
  elbowAngle s' = 90 /\ backAngle s' = 0 /\ highlightBack s' = false.
Proof.
  cbv zeta. unfold armsDown.
  destruct (draw_pose s (pt 0 1) (pt (-2) 0) rest) as (He & Hb & Hh);
    [cbn; lra | cbn; lra |].
  rewrite hip_in_line, NumFacts.rem_self in Hb by lra.
  rewrite Hb in Hh. rewrite He, Hb, Hh, elbow_bent.
  repeat split; try reflexivity.
  assert (E : (0 <? 20) = true) by (apply NumFacts.ltb_true; lra).
  rewrite E. reflexivity.
Qed.

Lemma draw_bent (s : PoseAI) (rest : list Pose) :
  let s' := final (drawKeypoints (bent :: rest) s) in
  elbowAngle s' = 180 /\ backAngle s' = 90 /\ highlightBack s' = true.
Proof.
  cbv zeta. unfold bent.
  destruct (draw_pose s (pt (-1) 0) (pt (-1) 1) rest) as (He & Hb & Hh);
    [cbn; lra | cbn; lra |].
  rewrite hip_bent, NumFacts.rem_small in Hb by lra.
  rewrite Hb in Hh. rewrite He, Hb, Hh, elbow_stretched.
  repeat split; try reflexivity.
  assert (E1 : (90 <? 20) = false) by (apply NumFacts.ltb_false; lra).
  assert (E2 : (90 >? 160) = false) by (apply NumFacts.gtb_false; lra).
  rewrite E1, E2. reflexivity.
Qed.

Lemma draw_bentMirrored (s : PoseAI) (rest : list Pose) :
  let s' := final (drawKeypoints (bentMirrored :: rest) s) in
  elbowAngle s' = 180 /\ backAngle s' = -90 /\ highlightBack s' = false.
Proof.
  cbv zeta. unfold bentMirrored.
  destruct (draw_pose s (pt (-1) 0) (pt (-1) (-1)) rest) as (He & Hb & Hh);
    [cbn; lra | cbn; lra |].
  rewrite hip_bent_mirrored, NumFacts.rem_small in Hb by lra.
  rewrite Hb in Hh. rewrite He, Hb, Hh, elbow_stretched.
  repeat split; try reflexivity.
  assert (E : (-90 <? 20) = true) by (apply NumFacts.ltb_true; lra).
  rewrite E. reflexivity.
Qed.

End SampleFacts.

(** ** The repetition state machine *)

Lemma phase_Up (s : PoseAI) :
  phase s = Some Up <-> upPosition s = true /\ downPosition s = false.
Proof.
  unfold phase. destruct (upPosition s), (downPosition s);
    (split; [intros H; try discriminate; auto
            |intros [H1 H2]; try discriminate; reflexivity]).
Qed.

Lemma phase_Down (s : PoseAI) :
  phase s = Some Down <-> upPosition s = false /\ downPosition s = true.
Proof.
  unfold phase. destruct (upPosition s), (downPosition s);
    (split; [intros H; try discriminate; auto
            |intros [H1 H2]; try discriminate; reflexivity]).
Qed.

Lemma upFires_window (s : PoseAI) :
  upFires s = true <-> 170 < elbowAngle s < 200.
Proof.
  unfold upFires. rewrite andb_true_iff, NumFacts.gtb_true, NumFacts.ltb_true.
  tauto.
Qed.

Lemma downFires_conditions (s : PoseAI) :
  downFires s = true
  <-> highlightBack s = false
      /\ completion (elbowAboveNose s) = Normal true
      /\ 70 < Rabs (elbowAngle s) < 100.
Proof.
  unfold downFires.
  destruct (completion (elbowAboveNose s)) as [above|].
  - rewrite !andb_true_iff, negb_true_iff, NumFacts.gtb_true,
      NumFacts.ltb_true.
    split.
    + intros [[Hb Ha] Hw]. subst above. auto.
    + intros (Hb & Ha & Hw). inversion Ha. auto.
  - split; [discriminate|]. intros (_ & H & _). discriminate.
Qed.

(** Once up, frames that keep the elbow in the up window change neither
    the count nor the phase. *)
Lemma up_frames_keep_count (frames : list (list Pose)) :
  forall s : PoseAI,
    phase s = Some Up -> elbowStaysUp frames s ->
    reps (after (map Draw frames) s) = reps s
    /\ phase (after (map Draw frames) s) = Some Up.
Proof.
  induction frames as [|poses frames IH]; intros s Hup Hwin.
  - split; [reflexivity|assumption].
  - cbn [elbowStaysUp] in Hwin. destruct Hwin as [Hw Hrest].
    cbn [map after perform].
    set (s' := final (drawKeypoints poses s)) in *.
    apply phase_Up in Hup. destruct Hup as [Hu Hd].
    destruct (drawKeypoints_effect s poses) as (Hr & Hu' & Hd').
    fold s' in Hr, Hu', Hd'.
    apply upFires_window in Hw.
    pose proof (windows_disjoint s') as Hx. rewrite Hw in Hx. cbn in Hx.
    rewrite Hw, Hx, Hu in Hu'. rewrite Hw, Hx, Hd in Hd'.
    rewrite Hd, andb_false_r in Hr.
    assert (Hup' : phase s' = Some Up).
    { apply phase_Up. destruct (analysed poses); auto. }
    destruct (IH s' Hup' Hrest) as [IHr IHp].
    split; [congruence|assumption].
Qed.

(** From the down position, an analysed frame in the up window counts
    one repetition, and the frames after it that stay in the window count
    none. *)
Lemma down_then_up_frames (s : PoseAI) (poses : list Pose)
    (frames : list (list Pose)) :
  phase s = Some Down -> analysed poses = true ->
  elbowStaysUp (poses :: frames) s ->
  reps (final (drawKeypoints poses s)) = S (reps s)
  /\ phase (final (drawKeypoints poses s)) = Some Up
  /\ reps (after (map Draw frames) (final (drawKeypoints poses s)))
     = S (reps s)
  /\ phase (after (map Draw frames) (final (drawKeypoints poses s)))
     = Some Up.
Proof.
  intros Hdown Han Hwin.
  cbn [elbowStaysUp] in Hwin. destruct Hwin as [Hw Hrest].
  set (s' := final (drawKeypoints poses s)) in *.
  apply phase_Down in Hdown. destruct Hdown as [Hu Hd].
  destruct (drawKeypoints_effect s poses) as (Hr & Hu' & Hd').
  fold s' in Hr, Hu', Hd'.
  apply upFires_window in Hw.
  pose proof (windows_disjoint s') as Hx. rewrite Hw in Hx. cbn in Hx.
  rewrite Han, Hw, Hx in Hu', Hd'. rewrite Han, Hw, Hd in Hr. cbn in Hr.
  assert (Hup' : phase s' = Some Up) by (apply phase_Up; auto).
  destruct (up_frames_keep_count frames s' Hup' Hrest) as [IHr IHp].
  repeat split; congruence.
Qed.

(** While the down flag is set the stored elbow angle is outside the up
    window: the angle only changes in a frame, and the frame then runs the
    up rule on it. *)
Lemma perform_down_outside_window (s : PoseAI) (a : Action) :
  (downPosition s = true -> upFires s = false) ->
  downPosition (final (perform a s)) = true ->
  upFires (final (perform a s)) = false.
Proof.
  intros Hs. destruct a as [poses|poses| | |e|b]; cbn [perform].
  - destruct (analysed poses) eqn:Han.
    + destruct (drawKeypoints_effect s poses) as (_ & _ & Hd).
      rewrite Han in Hd. rewrite Hd.
      pose proof (windows_disjoint (final (drawKeypoints poses s))) as Hx.
      destruct (downFires (final (drawKeypoints poses s))).
      * rewrite andb_true_r in Hx. auto.
      * destruct (upFires (final (drawKeypoints poses s)));
          [discriminate|reflexivity].
    + rewrite (drawKeypoints_skipped s poses Han). exact Hs.
  - destruct (detectPose_frame s poses) as [-> _]. exact Hs.
  - exact Hs.
  - rewrite resetWorkout_final. discriminate.
  - rewrite selectExercise_final. discriminate.
  - exact Hs.
Qed.

Lemma after_down_outside_window (acts : list Action) :
  forall s : PoseAI,
    (downPosition s = true -> upFires s = false) ->
    downPosition (after acts s) = true -> upFires (after acts s) = false.
Proof.
  induction acts as [|a acts IH]; intros s Hs; [exact Hs|].
  cbn [after]. apply IH. apply perform_down_outside_window. exact Hs.
Qed.

(** C1.  Starting in phase Down, one analysed frame that puts the elbow
    angle in (170, 200) increments [reps] by exactly 1 and sets the phase
    to Up, and any number of further frames that keep the elbow angle in
    that window leave [reps] where it is (first part, on [drawKeypoints];
    second part, on [checkPushupPositions] alone).  The count moves only
    on a Down-to-Up transition: a frame that changes [reps] found the down
    flag set, adds exactly 1 and leaves the phase Up (third part).  In a
    state reached from a fresh object, a frame that leaves the elbow angle
    in the window while the phase is Down is necessarily an analysed one,
    so the first part holds there for every such frame (fourth part). *)
Theorem C1_rep_counted_on_down_up_only :
  (forall (s : PoseAI) (poses : list Pose) (frames : list (list Pose)),
      phase s = Some Down -> analysed poses = true ->
      elbowStaysUp (poses :: frames) s ->
      reps (final (drawKeypoints poses s)) = S (reps s)
      /\ phase (final (drawKeypoints poses s)) = Some Up
      /\ reps (after (map Draw frames) (final (drawKeypoints poses s)))
         = S (reps s)
      /\ phase (after (map Draw frames) (final (drawKeypoints poses s)))
         = Some Up)
  /\ (forall s : PoseAI,
        phase s = Some Down -> 170 < elbowAngle s < 200 ->
        reps (final (checkPushupPositions s)) = S (reps s)
        /\ phase (final (checkPushupPositions s)) = Some Up
        /\ reps (final (checkPushupPositions (final (checkPushupPositions s))))
           = S (reps s))
  /\ (forall (s : PoseAI) (poses : list Pose),
        reps (final (drawKeypoints poses s)) <> reps s ->
        reps (final (drawKeypoints poses s)) = S (reps s)
        /\ downPosition s = true
        /\ phase (final (drawKeypoints poses s)) = Some Up)
  /\ (forall (acts : list Action) (poses : list Pose)
             (frames : list (list Pose)),
        phase (after acts newPoseAI) = Some Down ->
        elbowStaysUp (poses :: frames) (after acts newPoseAI) ->
        reps (final (drawKeypoints poses (after acts newPoseAI)))
        = S (reps (after acts newPoseAI))
        /\ phase (final (drawKeypoints poses (after acts newPoseAI)))
           = Some Up
        /\ reps (after (map Draw frames)
                   (final (drawKeypoints poses (after acts newPoseAI))))
           = S (reps (after acts newPoseAI))
        /\ phase (after (map Draw frames)
                    (final (drawKeypoints poses (after acts newPoseAI))))
           = Some Up).
Proof.
  split; [|split; [|split]].
  - exact down_then_up_frames.
  - intros s Hdown Hw.
    apply phase_Down in Hdown. destruct Hdown as [Hu Hd].
    apply upFires_window in Hw.
    pose proof (windows_disjoint s) as Hx. rewrite Hw in Hx. cbn in Hx.
    destruct (checkPushupPositions_effect s) as (Hr & Hu' & Hd').
    rewrite Hw, Hx in Hu', Hd'. rewrite Hw, Hd in Hr. cbn in Hr.
    set (s' := final (checkPushupPositions s)) in *.
    destruct (checkPushupPositions_effect s') as (Hr2 & _ & _).
    rewrite Hd', andb_false_r in Hr2.
    repeat split; try congruence. apply phase_Up. auto.
  - intros s poses Hne.
    set (s' := final (drawKeypoints poses s)) in *.
    destruct (drawKeypoints_effect s poses) as (Hr & Hu' & Hd').
    fold s' in Hr, Hu', Hd'.
    destruct (analysed poses); [|cbn in Hr; congruence].
    destruct (upFires s') eqn:Hw; [|cbn in Hr; congruence].
    destruct (downPosition s) eqn:Hd; [|cbn in Hr; congruence].
    pose proof (windows_disjoint s') as Hx. rewrite Hw in Hx. cbn in Hx.
    rewrite Hx in Hu', Hd'. cbn in Hr.
    repeat split; try assumption. apply phase_Up. auto.
  - intros acts poses frames Hdown Hwin.
    apply down_then_up_frames; try assumption.
    destruct (analysed poses) eqn:Han; [reflexivity|exfalso].
    cbn [elbowStaysUp] in Hwin. destruct Hwin as [Hw _].
    rewrite (drawKeypoints_skipped _ poses Han) in Hw. cbn [final] in Hw.
    apply upFires_window in Hw.
    apply phase_Down in Hdown. destruct Hdown as [_ Hd].
    pose proof (after_down_outside_window acts newPoseAI
                  ltac:(discriminate) Hd) as Hout.
    congruence.
Qed.

(** ** The spoken posture warning *)

(** A frame leaves the exercise, the voice switch and the session alone. *)
Lemma drawKeypoints_keeps (s : PoseAI) (poses : list Pose) :
  let s' := final (drawKeypoints poses s) in
  currentExercise s' = currentExercise s
  /\ voiceFeedbackEnabled s' = voiceFeedbackEnabled s
  /\ workoutSession s' = workoutSession s.
Proof.
  cbv zeta. destruct (analysed poses) eqn:H.
  - destruct poses as [|pose rest]; [discriminate|].
    destruct (drawKeypoints_analysed s pose rest H) as [-> _].
    rewrite (checkPushupPositions_frame _). js_cbn.
    rewrite (updateBackAngle_frame _ pose). js_cbn.
    destruct (updateArmAngle_frame s pose) as [-> _]. js_cbn.
    repeat split; reflexivity.
  - rewrite (drawKeypoints_skipped s poses H). repeat split; reflexivity.
Qed.

(** The warning is spoken by a frame exactly when the frame sets the
    flag; a frame never clears the flag; and an analysed frame that
    flags the back sets it when voice feedback is on. *)
Lemma drawKeypoints_warning (s : PoseAI) (poses : list Pose) :
  let r := drawKeypoints poses s in
  backWarnings (trace r)
  = (if backWarningGiven s then 0
     else if backWarningGiven (final r) then 1 else 0)%nat
  /\ (backWarningGiven s = true -> backWarningGiven (final r) = true)
  /\ (analysed poses = true -> highlightBack (final r) = true ->
      voiceFeedbackEnabled s = true -> backWarningGiven (final r) = true).
Proof.
  cbv zeta. destruct (analysed poses) eqn:H.
  - destruct poses as [|pose rest]; [discriminate|].
    destruct (drawKeypoints_angles s pose rest H) as (_ & _ & Hh & Hw).
    destruct (drawKeypoints_analysed s pose rest H) as [_ Ht].
    cbv zeta in Hh, Hw, Ht. rewrite Hh, Hw, Ht. clear Hh Hw Ht.
    destruct (updateArmAngle_frame s pose) as [Hs1 Ht1]. rewrite Ht1.
    set (s1 := final (updateArmAngle pose s)) in *.
    rewrite !backWarnings_app, checkPushupPositions_no_warning.
    cbn [backWarnings filter List.length Nat.add]. rewrite Nat.add_0_r.
    assert (Hwg : backWarningGiven s1 = backWarningGiven s)
      by (rewrite Hs1; reflexivity).
    assert (Hv : voiceFeedbackEnabled s1 = voiceFeedbackEnabled s)
      by (rewrite Hs1; reflexivity).
    destruct (updateBackAngle_warning s1 pose) as (Hn & Hkeep & Hset).
    rewrite Hwg in Hn, Hkeep. rewrite Hv in Hset.
    repeat split; try assumption.
    intros _. apply Hset. apply updateBackAngle_completes.
    pose proof (analysed_length _ _ H). lia.
  - rewrite (drawKeypoints_skipped s poses H). cbn [trace final].
    repeat split; try discriminate; auto.
    destruct (backWarningGiven s); reflexivity.
Qed.

(** The same for every callback other than a reset. *)
Lemma perform_warning (s : PoseAI) (a : Action) :
  isReset a = false ->
  let r := perform a s in
  backWarnings (trace r)
  = (if backWarningGiven s then 0
     else if backWarningGiven (final r) then 1 else 0)%nat
  /\ (backWarningGiven s = true -> backWarningGiven (final r) = true).
Proof.
  destruct a as [poses|poses| | |e|b]; cbn [isReset perform];
    try discriminate; intros _.
  - destruct (drawKeypoints_warning s poses) as (H1 & H2 & _). auto.
  - cbv zeta. destruct (detectPose_frame s poses) as [-> ->]. js_cbn.
    destruct (backWarningGiven s); auto.
  - unfold startWorkoutSession, modify. js_cbn.
    destruct (backWarningGiven s); auto.
  - unfold modify. js_cbn. destruct (backWarningGiven s); auto.
Qed.

Lemma run_warning (acts : list Action) :
  forall s : PoseAI,
    resetFree acts = true ->
    backWarnings (events acts s)
    = (if backWarningGiven s then 0
       else if backWarningGiven (after acts s) then 1 else 0)%nat
    /\ (backWarningGiven s = true -> backWarningGiven (after acts s) = true).
Proof.
  induction acts as [|a acts IH]; intros s Hfree.
  - cbn. destruct (backWarningGiven s); auto.
  - cbn [resetFree forallb] in Hfree. apply andb_true_iff in Hfree.
    destruct Hfree as [Ha Hrest]. apply negb_true_iff in Ha.
    cbn [events after]. rewrite backWarnings_app.
    destruct (perform_warning s a Ha) as [H1 H2].
    destruct (IH (final (perform a s)) Hrest) as [H3 H4].
    rewrite H1, H3.
    destruct (backWarningGiven s).
    + rewrite (H2 eq_refl). split; [reflexivity|]. intros _. auto.
    + split; [|discriminate].
      destruct (backWarningGiven (final (perform a s))).
      * rewrite (H4 eq_refl). reflexivity.
      * reflexivity.
Qed.

Lemma resetFree_draws (frames : list (list Pose)) :
  resetFree (map Draw frames) = true.
Proof. induction frames; [reflexivity|assumption]. Qed.

(** Five bent frames from a fresh object: the flag is set. *)
Lemma five_bent_frames_set_flag :
  backWarningGiven (after (repeat (Draw [Sample.bent]) 5) newPoseAI) = true.
Proof.
  cbn [repeat after perform].
  set (s1 := final (drawKeypoints [Sample.bent] newPoseAI)).
  assert (H1 : backWarningGiven s1 = true).
  { destruct (drawKeypoints_warning newPoseAI [Sample.bent]) as (_ & _ & H).
    apply H.
    - apply SampleFacts.analysed_pose; cbn; lra.
    - apply SampleFacts.draw_bent.
    - reflexivity. }
  change (backWarningGiven (after (map Draw (repeat [Sample.bent] 4)) s1)
          = true).
  exact (proj2 (run_warning _ s1 (resetFree_draws _)) H1).
Qed.

(** C2, refuted as stated.  Five frames with back angle 90 give one spoken
    warning, but the frame with a straight back that follows leaves
    [backWarningGiven] set, and the next frame with back angle 90 gives no
    new warning. *)
Lemma C2_flag_survives_straight_frame :
  backWarnings (events (repeat (Draw [Sample.bent]) 5) newPoseAI) = 1%nat
  /\ backAngle (after (repeat (Draw [Sample.bent]) 5) newPoseAI) = 90
  /\ highlightBack
       (final (drawKeypoints [Sample.armsUp]
                 (after (repeat (Draw [Sample.bent]) 5) newPoseAI))) = false
  /\ backWarningGiven
       (final (drawKeypoints [Sample.armsUp]
                 (after (repeat (Draw [Sample.bent]) 5) newPoseAI))) = true
  /\ highlightBack
       (final (drawKeypoints [Sample.bent]
          (final (drawKeypoints [Sample.armsUp]
                    (after (repeat (Draw [Sample.bent]) 5) newPoseAI)))))
     = true
  /\ backWarnings
       (trace (drawKeypoints [Sample.bent]
          (final (drawKeypoints [Sample.armsUp]
                    (after (repeat (Draw [Sample.bent]) 5) newPoseAI)))))
     = 0%nat.
Proof.
  pose proof five_bent_frames_set_flag as Hflag.
  set (s5 := after (repeat (Draw [Sample.bent]) 5) newPoseAI) in *.
  assert (H6 : backWarningGiven
                 (final (drawKeypoints [Sample.armsUp] s5)) = true).
  { destruct (drawKeypoints_warning s5 [Sample.armsUp]) as (_ & Hkeep & _).
    exact (Hkeep Hflag). }
  split; [|split; [|split; [|split; [|split]]]].
  - destruct (run_warning (repeat (Draw [Sample.bent]) 5) newPoseAI eq_refl)
      as [H _].
    rewrite H. fold s5. rewrite Hflag. reflexivity.
  - subst s5. cbn [repeat after perform]. apply SampleFacts.draw_bent.
  - apply SampleFacts.draw_armsUp.
  - exact H6.
  - apply SampleFacts.draw_bent.
  - destruct (drawKeypoints_warning
                (final (drawKeypoints [Sample.armsUp] s5)) [Sample.bent])
      as (H & _ & _).
    rewrite H, H6. reflexivity.
Qed.

Lemma updateBackAngle_banner (s : PoseAI) (pose : Pose) :
  let r := updateBackAngle pose s in
  completion r = Normal tt -> highlightBack (final r) = true ->
  In (FormFeedback "Keep your back straight" "warning") (trace r).
Proof.
  js_destruct s. js_run; intros; try discriminate; cbn; auto.
Qed.

Lemma drawKeypoints_banner (s : PoseAI) (poses : list Pose) :
  analysed poses = true ->
  highlightBack (final (drawKeypoints poses s)) = true ->
  In (FormFeedback "Keep your back straight" "warning")
     (trace (drawKeypoints poses s)).
Proof.
  intros H Hh. destruct poses as [|pose rest]; [discriminate|].
  destruct (drawKeypoints_angles s pose rest H) as (_ & _ & Hh' & _).
  destruct (drawKeypoints_analysed s pose rest H) as [_ Ht].
  cbv zeta in Hh', Ht. rewrite Hh' in Hh. rewrite Ht.
  apply in_or_app. right. apply in_or_app. left.
  apply updateBackAngle_banner; [|assumption].
  apply updateBackAngle_completes.
  pose proof (analysed_length _ _ H). lia.
Qed.

(** C2, as the code has it.  In a run without a reset at most one posture
    warning is spoken, and none once [backWarningGiven] is set: no frame
    clears the flag, whatever the posture (first part).  The warning is
    spoken on the first analysed frame that flags the back while voice
    feedback is on and the flag is clear, and further frames add none
    (second part); the banner text, in contrast, is issued again on every
    such frame (third part).  Only a reset clears the flag (fourth part). *)
Theorem C2_one_spoken_warning_until_reset :
  (forall (acts : list Action) (s : PoseAI),
      resetFree acts = true ->
      (backWarnings (events acts s) <= 1)%nat
      /\ (backWarningGiven s = true ->
          backWarnings (events acts s) = 0%nat
          /\ backWarningGiven (after acts s) = true))
  /\ (forall (s : PoseAI) (poses : list Pose) (frames : list (list Pose)),
        voiceFeedbackEnabled s = true -> backWarningGiven s = false ->
        analysed poses = true ->
        highlightBack (final (drawKeypoints poses s)) = true ->
        backWarnings (trace (drawKeypoints poses s)) = 1%nat
        /\ backWarnings (events (map Draw (poses :: frames)) s) = 1%nat)
  /\ (forall (s : PoseAI) (poses : list Pose),
        analysed poses = true ->
        highlightBack (final (drawKeypoints poses s)) = true ->
        In (FormFeedback "Keep your back straight" "warning")
           (trace (drawKeypoints poses s)))
  /\ (forall s : PoseAI,
        backWarningGiven (final (resetWorkout s)) = false
        /\ backWarningGiven (final (selectExercise (currentExercise s) s))
           = false).
Proof.
  split; [|split; [|split]].
  - intros acts s Hfree. destruct (run_warning acts s Hfree) as [Hn Hkeep].
    split.
    + rewrite Hn. destruct (backWarningGiven s); [lia|].
      destruct (backWarningGiven (after acts s)); lia.
    + intros Hs. rewrite Hs in Hn. auto.
  - intros s poses frames Hv Hclear Han Hh.
    destruct (drawKeypoints_warning s poses) as (Hn & _ & Hset).
    pose proof (Hset Han Hh Hv) as Hflag.
    rewrite Hclear, Hflag in Hn. split; [assumption|].
    cbn [map events perform]. rewrite backWarnings_app, Hn.
    destruct (run_warning (map Draw frames) (final (drawKeypoints poses s))
                (resetFree_draws frames)) as [Hrest _].
    rewrite Hrest, Hflag. reflexivity.
  - intros s poses. apply drawKeypoints_banner.
  - intros s. rewrite resetWorkout_final, selectExercise_final.
    split; reflexivity.
Qed.

(** C2 on the sample frames. *)
Lemma C2_witness :
  ((backWarnings
      (events [Draw [Sample.armsUp]; Detect [Sample.bent]; Draw [Sample.bent]]
         (set_backWarningGiven true newPoseAI)) <= 1)%nat
   /\ backWarnings
        (events [Draw [Sample.armsUp]; Detect [Sample.bent];
                 Draw [Sample.bent]]
           (set_backWarningGiven true newPoseAI)) = 0%nat
   /\ backWarningGiven
        (after [Draw [Sample.armsUp]; Detect [Sample.bent];
                Draw [Sample.bent]]
           (set_backWarningGiven true newPoseAI)) = true)
  /\ (backWarnings (trace (drawKeypoints [Sample.bent] newPoseAI)) = 1%nat
      /\ backWarnings
           (events (map Draw [[Sample.bent]; [Sample.bent]; [Sample.bent];
                              [Sample.bent]; [Sample.bent]]) newPoseAI)
         = 1%nat)
  /\ In (FormFeedback "Keep your back straight" "warning")
        (trace (drawKeypoints [Sample.bent] newPoseAI)).
Proof.
  split; [|split].
  - destruct (proj1 C2_one_spoken_warning_until_reset
                [Draw [Sample.armsUp]; Detect [Sample.bent];
                 Draw [Sample.bent]]
                (set_backWarningGiven true newPoseAI) eq_refl) as [Hle Hset].
    split; [exact Hle|exact (Hset eq_refl)].
  - apply (proj1 (proj2 C2_one_spoken_warning_until_reset) newPoseAI
             [Sample.bent]
             [[Sample.bent]; [Sample.bent]; [Sample.bent]; [Sample.bent]]).
    + reflexivity.
    + reflexivity.
    + apply SampleFacts.analysed_pose; cbn; lra.
    + apply SampleFacts.draw_bent.
  - apply (proj1 (proj2 (proj2 C2_one_spoken_warning_until_reset)) newPoseAI
             [Sample.bent]).
    + apply SampleFacts.analysed_pose; cbn; lra.
    + apply SampleFacts.draw_bent.
Defined.

(** ** The down rule *)

Lemma checkPushupPositions_down_rule (s : PoseAI) :
  final (checkPushupPositions s)
  = if downFires s
    then set_upPosition false (set_downPosition true (final (checkUpPosition s)))
    else final (checkUpPosition s).
Proof.
  rewrite checkPushupPositions_final, checkDownPosition_effect.
  rewrite downFires_checkUpPosition. reflexivity.
Qed.

(** C3.  The second block of [checkPushupPositions] sets the phase to Down
    when the back is not flagged, [elbowAboveNose] is true and the absolute
    elbow angle lies in (70, 100) (first part).  With any one of the three
    negated the block changes nothing: the object stays as the first block
    left it (second to fourth part).  Hence a change of phase by the block
    implies all three conditions (fifth part). *)
Theorem C3_down_needs_all_three (s : PoseAI) :
  (highlightBack s = false ->
   completion (elbowAboveNose s) = Normal true ->
   70 < Rabs (elbowAngle s) < 100 ->
   phase (final (checkDownPosition s)) = Some Down
   /\ phase (final (checkPushupPositions s)) = Some Down)
  /\ (highlightBack s = true ->
      final (checkDownPosition s) = s
      /\ final (checkPushupPositions s) = final (checkUpPosition s))
  /\ (completion (elbowAboveNose s) <> Normal true ->
      final (checkDownPosition s) = s
      /\ final (checkPushupPositions s) = final (checkUpPosition s))
  /\ (~ 70 < Rabs (elbowAngle s) < 100 ->
      final (checkDownPosition s) = s
      /\ final (checkPushupPositions s) = final (checkUpPosition s))
  /\ (phase (final (checkDownPosition s)) <> phase s ->
      highlightBack s = false
      /\ completion (elbowAboveNose s) = Normal true
      /\ 70 < Rabs (elbowAngle s) < 100).
Proof.
  rewrite checkPushupPositions_down_rule, checkDownPosition_effect.
  pose proof (downFires_conditions s) as Hc.
  destruct (downFires s).
  - destruct (proj1 Hc eq_refl) as (Hb & Ha & Hw).
    repeat split; try assumption; intros; try reflexivity;
      congruence || tauto.
  - assert (Hn : ~ (highlightBack s = false
                    /\ completion (elbowAboveNose s) = Normal true
                    /\ 70 < Rabs (elbowAngle s) < 100)).
    { intros H. apply Hc in H. discriminate. }
    repeat split; intros; try reflexivity; try tauto; try congruence.
Qed.

(** C3 on the sample object, with each condition negated in turn. *)
Lemma C3_witness :
  (phase (final (checkDownPosition Sample.lowered)) = Some Down
   /\ phase (final (checkPushupPositions Sample.lowered)) = Some Down)
  /\ (final (checkDownPosition (set_highlightBack true Sample.lowered))
      = set_highlightBack true Sample.lowered
      /\ final (checkPushupPositions (set_highlightBack true Sample.lowered))
         = final (checkUpPosition (set_highlightBack true Sample.lowered)))
  /\ (final (checkDownPosition (set_workoutSession None Sample.lowered))
      = set_workoutSession None Sample.lowered
      /\ final (checkPushupPositions (set_workoutSession None Sample.lowered))
         = final (checkUpPosition (set_workoutSession None Sample.lowered)))
  /\ (final (checkDownPosition (set_elbowAngle 185 Sample.lowered))
      = set_elbowAngle 185 Sample.lowered
      /\ final (checkPushupPositions (set_elbowAngle 185 Sample.lowered))
         = final (checkUpPosition (set_elbowAngle 185 Sample.lowered)))
  /\ (highlightBack (set_downPosition false Sample.lowered) = false
      /\ completion (elbowAboveNose (set_downPosition false Sample.lowered))
         = Normal true
      /\ 70 < Rabs (elbowAngle (set_downPosition false Sample.lowered)) < 100).
Proof.
  assert (Habove : forall s, workoutSession s = Some [Sample.armsDown] ->
                             completion (elbowAboveNose s) = Normal true).
  { intros s Hs. rewrite elbowAboveNose_completion. unfold getCurrentPose.
    rewrite Hs. cbn. f_equal. apply NumFacts.gtb_true. lra. }
  split; [|split; [|split; [|split]]]; cycle 4.
  - apply (proj2 (proj2 (proj2 (proj2 (C3_down_needs_all_three
                                         (set_downPosition false Sample.lowered)))))).
    destruct (proj1 (C3_down_needs_all_three
                       (set_downPosition false Sample.lowered))) as [Hd _].
    + reflexivity.
    + apply Habove. reflexivity.
    + cbn. rewrite Rabs_right by lra. lra.
    + rewrite Hd. cbn. discriminate.
  - apply (proj1 (C3_down_needs_all_three Sample.lowered)).
    + reflexivity.
    + rewrite elbowAboveNose_completion. cbn.
      f_equal. apply NumFacts.gtb_true. lra.
    + cbn. rewrite Rabs_right by lra. lra.
  - apply (proj1 (proj2 (C3_down_needs_all_three
                           (set_highlightBack true Sample.lowered)))).
    reflexivity.
  - apply (proj1 (proj2 (proj2 (C3_down_needs_all_three
                                  (set_workoutSession None Sample.lowered))))).
    rewrite elbowAboveNose_completion. cbn. discriminate.
  - apply (proj1 (proj2 (proj2 (proj2 (C3_down_needs_all_three
                                         (set_elbowAngle 185 Sample.lowered)))))).
    cbn. rewrite Rabs_right by lra. lra.
Defined.

(** ** The posture evaluator *)

Lemma straight_iff (h : bool) (a : R) :
  h = negb ((a <? 20) || (a >? 160)) -> (h = false <-> a < 20 \/ a > 160).
Proof.
  intros ->. rewrite negb_false_iff, orb_true_iff, NumFacts.ltb_true,
    NumFacts.gtb_true. unfold Rgt. tauto.
Qed.

Lemma perform_classified (s : PoseAI) (a : Action) :
  (highlightBack s = false <-> backAngle s < 20 \/ backAngle s > 160) ->
  highlightBack (final (perform a s)) = false
  <-> backAngle (final (perform a s)) < 20
      \/ backAngle (final (perform a s)) > 160.
Proof.
  intros Hs. destruct a as [poses|poses| | |e|b]; cbn [perform].
  - destruct (analysed poses) eqn:Han.
    + destruct poses as [|pose rest]; [discriminate|].
      destruct (drawKeypoints_angles s pose rest Han) as (_ & -> & -> & _).
      apply straight_iff. apply updateBackAngle_classifies.
      apply updateBackAngle_completes.
      pose proof (analysed_length _ _ Han). lia.
    + rewrite (drawKeypoints_skipped s poses Han). exact Hs.
  - destruct (detectPose_frame s poses) as [-> _]. exact Hs.
  - exact Hs.
  - rewrite resetWorkout_final. cbn. split; [left; lra|reflexivity].
  - rewrite selectExercise_final. cbn. split; [left; lra|reflexivity].
  - exact Hs.
Qed.

(** The angle that [updateBackAngle] leaves in the field is the angle
    current in the frame. *)
Lemma updateBackAngle_current (s : PoseAI) (pose : Pose) :
  backAngle (final (updateBackAngle pose s)) = currentBackAngle s pose.
Proof.
  unfold currentBackAngle, confidentBack, confident.
  js_destruct s. js_run; reflexivity.
Qed.

Lemma currentBackAngle_ext (s s' : PoseAI) (pose : Pose) :
  backAngle s' = backAngle s ->
  currentBackAngle s' pose = currentBackAngle s pose.
Proof. unfold currentBackAngle. intros ->. reflexivity. Qed.

Lemma drawKeypoints_current (s : PoseAI) (pose : Pose) (rest : list Pose) :
  analysed (pose :: rest) = true ->
  backAngle (final (drawKeypoints (pose :: rest) s))
  = currentBackAngle s pose.
Proof.
  intros Han.
  destruct (drawKeypoints_angles s pose rest Han) as (_ & -> & _).
  rewrite updateBackAngle_current. apply currentBackAngle_ext.
  rewrite (proj1 (updateArmAngle_frame s pose)). reflexivity.
Qed.

(** The banner that goes with the verdict. *)
Lemma updateBackAngle_verdict (s : PoseAI) (pose : Pose) :
  completion (updateBackAngle pose s) = Normal tt ->
  In (if highlightBack (final (updateBackAngle pose s))
      then FormFeedback "Keep your back straight" "warning"
      else FormFeedback "Good posture!" "good")
     (trace (updateBackAngle pose s)).
Proof.
  js_destruct s. js_run; intros; try discriminate; cbn; auto.
Qed.

(** C4.  [updateBackAngle] stores the back angle current in the frame
    (the angle at the left hip, folded by [% 180], when knee, hip and
    shoulder score above 0.3; the angle stored before, otherwise) and
    classifies the back on it: straight ([highlightBack] false, banner
    "Good posture!") exactly when that angle is below 20 or above 160,
    flagged (banner "Keep your back straight") otherwise (first part; the
    method completes on a pose that has the three keypoints).  The same
    holds after every analysed frame (second part), and in every state
    reached from a fresh object [highlightBack] is false exactly when the
    stored angle is below 20 or above 160 (third part). *)
Theorem C4_straight_back_predicate :
  (forall (s : PoseAI) (pose : Pose),
      (13 < List.length pose)%nat ->
      completion (updateBackAngle pose s) = Normal tt
      /\ backAngle (final (updateBackAngle pose s)) = currentBackAngle s pose
      /\ (highlightBack (final (updateBackAngle pose s)) = false
          <-> currentBackAngle s pose < 20 \/ currentBackAngle s pose > 160)
      /\ (highlightBack (final (updateBackAngle pose s)) = false
          <-> backAngle (final (updateBackAngle pose s)) < 20
              \/ backAngle (final (updateBackAngle pose s)) > 160)
      /\ In (if highlightBack (final (updateBackAngle pose s))
             then FormFeedback "Keep your back straight" "warning"
             else FormFeedback "Good posture!" "good")
            (trace (updateBackAngle pose s)))
  /\ (forall (s : PoseAI) (pose : Pose) (rest : list Pose),
        analysed (pose :: rest) = true ->
        backAngle (final (drawKeypoints (pose :: rest) s))
        = currentBackAngle s pose
        /\ (highlightBack (final (drawKeypoints (pose :: rest) s)) = false
            <-> currentBackAngle s pose < 20
                \/ currentBackAngle s pose > 160)
        /\ (highlightBack (final (drawKeypoints (pose :: rest) s)) = false
            <-> backAngle (final (drawKeypoints (pose :: rest) s)) < 20
                \/ backAngle (final (drawKeypoints (pose :: rest) s)) > 160))
  /\ (forall acts : list Action,
        highlightBack (after acts newPoseAI) = false
        <-> backAngle (after acts newPoseAI) < 20
            \/ backAngle (after acts newPoseAI) > 160).
Proof.
  split; [|split].
  - intros s pose Hlen.
    pose proof (updateBackAngle_completes s pose Hlen) as Hc.
    assert (Hiff : highlightBack (final (updateBackAngle pose s)) = false
                   <-> backAngle (final (updateBackAngle pose s)) < 20
                       \/ backAngle (final (updateBackAngle pose s)) > 160).
    { apply straight_iff. apply updateBackAngle_classifies. assumption. }
    split; [assumption|]. split; [apply updateBackAngle_current|].
    split; [rewrite <- updateBackAngle_current; exact Hiff|].
    split; [exact Hiff|]. apply updateBackAngle_verdict. assumption.
  - intros s pose rest Han.
    assert (Hiff : highlightBack (final (drawKeypoints (pose :: rest) s))
                   = false
                   <-> backAngle (final (drawKeypoints (pose :: rest) s)) < 20
                       \/ backAngle (final (drawKeypoints (pose :: rest) s))
                          > 160).
    { destruct (drawKeypoints_angles s pose rest Han) as (_ & -> & -> & _).
      apply straight_iff. apply updateBackAngle_classifies.
      apply updateBackAngle_completes.
      pose proof (analysed_length _ _ Han). lia. }
    split; [apply drawKeypoints_current; assumption|].
    split; [rewrite <- (drawKeypoints_current s pose rest Han); exact Hiff|].
    exact Hiff.
  - intros acts.
    assert (Hgen : forall s,
      (highlightBack s = false <-> backAngle s < 20 \/ backAngle s > 160) ->
      highlightBack (after acts s) = false
      <-> backAngle (after acts s) < 20 \/ backAngle (after acts s) > 160).
    { induction acts as [|a acts IH]; intros s Hs; [exact Hs|].
      cbn [after]. apply IH. apply perform_classified. exact Hs. }
    apply Hgen. cbn. split; [left; lra|reflexivity].
Qed.

Lemma currentBackAngle_sample (s : PoseAI) (w k : Keypoint) :
  0.3 < score k ->
  currentBackAngle s (Sample.pose w k)
  = Num.rem (jointAngle k (Sample.pt 1 0) (Sample.pt (-1) 0)) 180.
Proof.
  intros Hk. apply NumFacts.gtb_true in Hk.
  assert (H1 : (1 >? 0.3) = true) by (apply NumFacts.gtb_true; lra).
  unfold currentBackAngle, confidentBack, confident, Sample.pose.
  cbn [nth_error score Sample.pt]. rewrite Hk, H1. reflexivity.
Qed.

(** C4 on the sample frames: the right-angle bend is stored as 90 and
    flagged, the body in line is stored as 0 and passed. *)
Lemma C4_witness :
  (completion (updateBackAngle Sample.bent newPoseAI) = Normal tt
   /\ backAngle (final (updateBackAngle Sample.bent newPoseAI))
      = currentBackAngle newPoseAI Sample.bent
   /\ (highlightBack (final (updateBackAngle Sample.bent newPoseAI)) = false
       <-> currentBackAngle newPoseAI Sample.bent < 20
           \/ currentBackAngle newPoseAI Sample.bent > 160)
   /\ (highlightBack (final (updateBackAngle Sample.bent newPoseAI)) = false
       <-> backAngle (final (updateBackAngle Sample.bent newPoseAI)) < 20
           \/ backAngle (final (updateBackAngle Sample.bent newPoseAI)) > 160)
   /\ In (if highlightBack (final (updateBackAngle Sample.bent newPoseAI))
          then FormFeedback "Keep your back straight" "warning"
          else FormFeedback "Good posture!" "good")
         (trace (updateBackAngle Sample.bent newPoseAI)))
  /\ (backAngle (final (drawKeypoints [Sample.armsUp] newPoseAI))
      = currentBackAngle newPoseAI Sample.armsUp
      /\ (highlightBack (final (drawKeypoints [Sample.armsUp] newPoseAI))
          = false
          <-> currentBackAngle newPoseAI Sample.armsUp < 20
              \/ currentBackAngle newPoseAI Sample.armsUp > 160)
      /\ (highlightBack (final (drawKeypoints [Sample.armsUp] newPoseAI))
          = false
          <-> backAngle (final (drawKeypoints [Sample.armsUp] newPoseAI)) < 20
              \/ backAngle (final (drawKeypoints [Sample.armsUp] newPoseAI))
                 > 160))
  /\ currentBackAngle newPoseAI Sample.bent = 90
  /\ currentBackAngle newPoseAI Sample.armsUp = 0.
Proof.
  split; [|split; [|split]].
  - apply (proj1 C4_straight_back_predicate newPoseAI Sample.bent).
    cbn. lia.
  - apply (proj1 (proj2 C4_straight_back_predicate) newPoseAI
             Sample.armsUp []).
    apply SampleFacts.analysed_pose; cbn; lra.
  - unfold Sample.bent. rewrite currentBackAngle_sample by (cbn; lra).
    rewrite SampleFacts.hip_bent. apply NumFacts.rem_small; lra.
  - unfold Sample.armsUp. rewrite currentBackAngle_sample by (cbn; lra).
    rewrite SampleFacts.hip_in_line. apply NumFacts.rem_self; lra.
Defined.

(** ** The two rules in one frame *)

Lemma checkUpPosition_idle (s : PoseAI) :
  upFires s = false -> checkUpPosition s = mkResult (Normal tt) s [].
Proof.
  unfold upFires. js_destruct s. js_cbn. intros H.
  js_unfold. js_cbn. rewrite H. reflexivity.
Qed.

(** C5, refuted as stated.  No object satisfies the guard of the up rule
    and the guard of the down rule at once. *)
Lemma C5_rules_never_fire_together :
  ~ exists s : PoseAI,
      170 < elbowAngle s < 200
      /\ highlightBack s = false
      /\ completion (elbowAboveNose s) = Normal true
      /\ 70 < Rabs (elbowAngle s) < 100.
Proof.
  intros (s & Hup & _ & _ & Hdown).
  rewrite Rabs_right in Hdown by lra. lra.
Qed.

(** C5, as the code has it.  The two guards exclude each other (first
    part).  When the up rule fires the down rule changes nothing and the
    phase ends Up (second part); when the down rule fires the up rule has
    changed nothing and the phase ends Down (third part). *)
Theorem C5_rules_exclusive (s : PoseAI) :
  upFires s && downFires s = false
  /\ (170 < elbowAngle s < 200 ->
      final (checkPushupPositions s) = final (checkUpPosition s)
      /\ phase (final (checkPushupPositions s)) = Some Up)
  /\ (highlightBack s = false ->
      completion (elbowAboveNose s) = Normal true ->
      70 < Rabs (elbowAngle s) < 100 ->
      final (checkUpPosition s) = s
      /\ phase (final (checkPushupPositions s)) = Some Down).
Proof.
  pose proof (windows_disjoint s) as Hx.
  split; [assumption|]. split.
  - intros Hw. apply upFires_window in Hw. rewrite Hw in Hx. cbn in Hx.
    rewrite checkPushupPositions_down_rule, Hx. split; [reflexivity|].
    destruct (checkUpPosition_effect s) as (_ & Hu & Hd).
    rewrite Hw in Hu, Hd. apply phase_Up. auto.
  - intros Hb Ha Hw.
    assert (Hd : downFires s = true) by (apply downFires_conditions; auto).
    rewrite Hd, andb_true_r in Hx.
    rewrite checkPushupPositions_down_rule, Hd.
    rewrite (checkUpPosition_idle s Hx). split; reflexivity.
Qed.

(** C5 on the sample object. *)
Lemma C5_witness :
  (final (checkPushupPositions (set_elbowAngle 185 Sample.lowered))
   = final (checkUpPosition (set_elbowAngle 185 Sample.lowered))
   /\ phase (final (checkPushupPositions (set_elbowAngle 185 Sample.lowered)))
      = Some Up)
  /\ (final (checkUpPosition (set_upPosition true
                                (set_downPosition false Sample.lowered)))
      = set_upPosition true (set_downPosition false Sample.lowered)
      /\ phase (final (checkPushupPositions
                         (set_upPosition true
                            (set_downPosition false Sample.lowered))))
         = Some Down).
Proof.
  split.
  - apply (proj1 (proj2 (C5_rules_exclusive
                           (set_elbowAngle 185 Sample.lowered)))).
    cbn. lra.
  - apply (proj2 (proj2 (C5_rules_exclusive
                           (set_upPosition true
                              (set_downPosition false Sample.lowered))))).
    + reflexivity.
    + rewrite elbowAboveNose_completion. cbn.
      f_equal. apply NumFacts.gtb_true. lra.
    + cbn. rewrite Rabs_right by lra. lra.
Defined.

(** ** The range of the back angle *)

(** What the remainder guarantees: the stored back angle stays strictly
    between -180 and 180. *)
Lemma updateBackAngle_range (s : PoseAI) (pose : Pose) :
  -180 < backAngle s < 180 ->
  -180 < backAngle (final (updateBackAngle pose s)) < 180.
Proof.
  intros H. js_destruct s. js_cbn.
  js_run; try assumption;
    match goal with
    | |- _ < Num.rem ?a 180 < _ =>
        pose proof (NumFacts.rem_range a 180 ltac:(lra)); lra
    end.
Qed.

Lemma confidentBack_sample (w k : Keypoint) :
  0.3 < score k -> confidentBack (Sample.pose w k) = true.
Proof.
  intros Hk. apply NumFacts.gtb_true in Hk.
  assert (H1 : (1 >? 0.3) = true) by (apply NumFacts.gtb_true; lra).
  unfold confidentBack, confident, Sample.pose. cbn [nth_error score Sample.pt].
  rewrite Hk, H1. reflexivity.
Qed.

(** A confident pose whose raw hip angle is negative, above -180, has that
    negative angle stored unchanged. *)
Lemma updateBackAngle_keeps_negative (s : PoseAI) (pose : Pose)
    (ls lh lk : Keypoint) :
  nth_error pose 5 = Some ls -> nth_error pose 11 = Some lh ->
  nth_error pose 13 = Some lk ->
  0.3 < score lk -> 0.3 < score lh -> 0.3 < score ls ->
  -180 < jointAngle lk ls lh < 0 ->
  backAngle (final (updateBackAngle pose s)) = jointAngle lk ls lh.
Proof.
  intros E5 E11 E13 Hk Hh Hs Hneg.
  rewrite (updateBackAngle_value s pose ls lh lk) by assumption.
  apply NumFacts.rem_small; lra.
Qed.

(** The raw angle of a joint is within a full turn either way. *)
Lemma jointAngle_range (a b v : Keypoint) : -360 <= jointAngle a b v <= 360.
Proof.
  unfold jointAngle.
  pose proof (NumFacts.atan2_bound (y a - y v) (x a - x v)) as Ha.
  pose proof (NumFacts.atan2_bound (y b - y v) (x b - x v)) as Hb.
  pose proof PI_RGT_0 as Hpi.
  set (d := Num.atan2 (y a - y v) (x a - x v)
            - Num.atan2 (y b - y v) (x b - x v)) in *.
  assert (Hd : -2 * PI <= d <= 2 * PI) by (subst d; lra).
  assert (E : d * (180 / PI) = d / PI * 180) by (field; lra).
  rewrite E.
  assert (Hq : -2 <= d / PI <= 2).
  { split.
    - apply (Rmult_le_reg_r PI); [assumption|].
      replace (d / PI * PI) with d by (field; lra). lra.
    - apply (Rmult_le_reg_r PI); [assumption|].
      replace (d / PI * PI) with d by (field; lra). lra. }
  lra.
Qed.

(** C6, evaluated where it fails.  On the pose [Sample.bentMirrored], all
    of whose keypoints are confident, the knee direction is a quarter turn
    before the shoulder direction: the angle in degrees is -90, the
    remainder by 180 keeps the sign, and the back angle stored is -90,
    outside [0, 180).  Being below 20 it is classified straight, whereas
    the same bend seen from the other side ([Sample.bent], back angle 90)
    is flagged. *)
Theorem C6_back_angle_negative :
  confidentBack Sample.bentMirrored = true
  /\ analysed [Sample.bentMirrored] = true
  /\ backAngle (final (drawKeypoints [Sample.bentMirrored] newPoseAI)) = -90
  /\ ~ (0 <= backAngle (final (drawKeypoints [Sample.bentMirrored] newPoseAI))
        < 180)
  /\ highlightBack (final (drawKeypoints [Sample.bentMirrored] newPoseAI))
     = false
  /\ backAngle (final (drawKeypoints [Sample.bent] newPoseAI)) = 90
  /\ highlightBack (final (drawKeypoints [Sample.bent] newPoseAI)) = true.
Proof.
  destruct (SampleFacts.draw_bentMirrored newPoseAI []) as (_ & Hb & Hh).
  destruct (SampleFacts.draw_bent newPoseAI []) as (_ & Hb' & Hh').
  split; [apply confidentBack_sample; cbn; lra|].
  split; [apply SampleFacts.analysed_pose; cbn; lra|].
  repeat split; try assumption. rewrite Hb. lra.
Qed.

(** ** Stale angles *)

(** C7.  When the wrist, elbow and shoulder scores do not all exceed 0.3,
    [updateArmAngle] leaves [elbowAngle] as it was, and so does the whole
    frame (first part); when the knee, hip and shoulder scores do not all
    exceed 0.3, [updateBackAngle] leaves [backAngle] as it was, and so does
    the whole frame (second part). *)
Theorem C7_stale_angles (s : PoseAI) (pose : Pose) (rest : list Pose) :
  (confidentElbow pose = false ->
   elbowAngle (final (updateArmAngle pose s)) = elbowAngle s
   /\ elbowAngle (final (drawKeypoints (pose :: rest) s)) = elbowAngle s)
  /\ (confidentBack pose = false ->
      backAngle (final (updateBackAngle pose s)) = backAngle s
      /\ backAngle (final (drawKeypoints (pose :: rest) s)) = backAngle s).
Proof.
  split.
  - intros H. pose proof (updateArmAngle_stale s pose H) as Hs.
    split; [rewrite Hs; reflexivity|].
    destruct (analysed (pose :: rest)) eqn:Han.
    + destruct (drawKeypoints_angles s pose rest Han) as (-> & _).
      rewrite Hs. reflexivity.
    + rewrite (drawKeypoints_skipped s _ Han). reflexivity.
  - intros H. split; [apply updateBackAngle_stale; assumption|].
    destruct (analysed (pose :: rest)) eqn:Han.
    + destruct (drawKeypoints_angles s pose rest Han) as (_ & -> & _).
      rewrite (updateBackAngle_stale _ pose H).
      destruct (updateArmAngle_frame s pose) as [-> _]. reflexivity.
    + rewrite (drawKeypoints_skipped s _ Han). reflexivity.
Qed.

(** C7 on a frame whose wrist and knee are not trusted. *)
Lemma C7_witness :
  (elbowAngle (final (updateArmAngle Sample.unsure Sample.lowered)) = 90
   /\ elbowAngle (final (drawKeypoints [Sample.unsure] Sample.lowered)) = 90)
  /\ (backAngle (final (updateBackAngle Sample.unsure Sample.lowered)) = 0
      /\ backAngle (final (drawKeypoints [Sample.unsure] Sample.lowered)) = 0).
Proof.
  assert (Hlow : (1 / 10 >? 0.3) = false) by (apply NumFacts.gtb_false; lra).
  split.
  - apply (proj1 (C7_stale_angles Sample.lowered Sample.unsure [])).
    unfold confidentElbow, confident, Sample.unsure.
    cbn [nth_error score]. rewrite Hlow. reflexivity.
  - apply (proj2 (C7_stale_angles Sample.lowered Sample.unsure [])).
    unfold confidentBack, confident, Sample.unsure.
    cbn [nth_error score]. rewrite Hlow. reflexivity.
Defined.

(** ** Reset *)

(** C8.  [resetWorkout] run twice leaves the object exactly as one run
    does, and that object is the zeroed one: phase Neutral, no repetition,
    angles at their initial values, back not flagged, no warning given. *)
Theorem C8_reset_idempotent (s : PoseAI) :
  final (resetWorkout (final (resetWorkout s))) = final (resetWorkout s)
  /\ phase (final (resetWorkout s)) = Some Neutral
  /\ reps (final (resetWorkout s)) = 0%nat
  /\ elbowAngle (final (resetWorkout s)) = 999
  /\ backAngle (final (resetWorkout s)) = 0
  /\ highlightBack (final (resetWorkout s)) = false
  /\ backWarningGiven (final (resetWorkout s)) = false
  /\ completion (resetWorkout s) = Normal tt
  /\ trace (resetWorkout (final (resetWorkout s))) = trace (resetWorkout s).
Proof.
  rewrite !resetWorkout_final. cbn.
  repeat split; js_destruct s; js_run; reflexivity.
Qed.

(** ** Invariants of the runs *)

Lemma perform_flags (s : PoseAI) (a : Action) :
  upPosition s && downPosition s = false ->
  upPosition (final (perform a s)) && downPosition (final (perform a s))
  = false.
Proof.
  intros Hs. destruct a as [poses|poses| | |e|b]; cbn [perform].
  - destruct (drawKeypoints_effect s poses) as (_ & -> & ->).
    destruct (analysed poses); [|assumption].
    destruct (downFires (final (drawKeypoints poses s))); [reflexivity|].
    destruct (upFires (final (drawKeypoints poses s)));
      [reflexivity|assumption].
  - destruct (detectPose_frame s poses) as [-> _]. exact Hs.
  - exact Hs.
  - rewrite resetWorkout_final. reflexivity.
  - rewrite selectExercise_final. reflexivity.
  - exact Hs.
Qed.

Lemma after_flags (acts : list Action) :
  forall s : PoseAI,
    upPosition s && downPosition s = false ->
    upPosition (after acts s) && downPosition (after acts s) = false.
Proof.
  induction acts as [|a acts IH]; intros s Hs; [exact Hs|].
  cbn [after]. apply IH. apply perform_flags. exact Hs.
Qed.

(** C9.  In every state reached from a fresh object by frames, detector
    answers, session starts, resets, exercise choices and voice switches,
    the up flag and the down flag are not both set, so the phase is one of
    Neutral, Up and Down. *)
Theorem C9_flags_exclusive (acts : list Action) :
  upPosition (after acts newPoseAI) && downPosition (after acts newPoseAI)
  = false
  /\ (phase (after acts newPoseAI) = Some Neutral
      \/ phase (after acts newPoseAI) = Some Up
      \/ phase (after acts newPoseAI) = Some Down).
Proof.
  pose proof (after_flags acts newPoseAI eq_refl) as H.
  split; [assumption|].
  unfold phase.
  destruct (upPosition (after acts newPoseAI)),
    (downPosition (after acts newPoseAI)); try discriminate; auto.
Qed.

Lemma perform_reps (s : PoseAI) (a : Action) :
  isReset a = false ->
  reps (final (perform a s)) = reps s
  \/ reps (final (perform a s)) = S (reps s).
Proof.
  destruct a as [poses|poses| | |e|b]; cbn [isReset perform];
    try discriminate; intros _.
  - destruct (drawKeypoints_effect s poses) as (-> & _).
    destruct (analysed poses && upFires (final (drawKeypoints poses s))
              && downPosition s); auto.
  - destruct (detectPose_frame s poses) as [-> _]. auto.
  - auto.
  - auto.
Qed.

(** C10.  One step of the state machine leaves [reps] unchanged or adds
    exactly 1, on [checkPushupPositions] (first part) and on a whole frame
    (second part); over any run without a reset [reps] does not decrease
    (third part). *)
Theorem C10_reps_steps_by_one :
  (forall s : PoseAI,
      reps (final (checkPushupPositions s)) = reps s
      \/ reps (final (checkPushupPositions s)) = S (reps s))
  /\ (forall (s : PoseAI) (poses : list Pose),
        reps (final (drawKeypoints poses s)) = reps s
        \/ reps (final (drawKeypoints poses s)) = S (reps s))
  /\ (forall (acts : list Action) (s : PoseAI),
        resetFree acts = true -> (reps s <= reps (after acts s))%nat).
Proof.
  split; [|split].
  - intros s. destruct (checkPushupPositions_effect s) as (-> & _).
    destruct (upFires s && downPosition s); auto.
  - intros s poses. exact (perform_reps s (Draw poses) eq_refl).
  - induction acts as [|a acts IH]; intros s Hfree; [cbn; lia|].
    cbn [resetFree forallb] in Hfree. apply andb_true_iff in Hfree.
    destruct Hfree as [Ha Hrest]. apply negb_true_iff in Ha.
    cbn [after]. specialize (IH (final (perform a s)) Hrest).
    destruct (perform_reps s a Ha) as [H|H]; lia.
Qed.

(** C10 on a run of six callbacks. *)
Lemma C10_witness :
  (reps Sample.lowered
   <= reps (after [Draw [Sample.armsUp]; Detect [Sample.armsDown];
                   SetVoiceFeedback false; Draw [Sample.armsDown];
                   StartWorkoutSession; Draw [Sample.armsUp]]
              Sample.lowered))%nat.
Proof.
  apply (proj2 (proj2 C10_reps_steps_by_one)
           [Draw [Sample.armsUp]; Detect [Sample.armsDown];
            SetVoiceFeedback false; Draw [Sample.armsDown];
            StartWorkoutSession; Draw [Sample.armsUp]]
           Sample.lowered).
  reflexivity.
Defined.

(** ** A session, frame by frame *)

Lemma draw_armsDown_lowers (s : PoseAI) (log : list Pose) :
  workoutSession s = Some (log ++ [Sample.armsDown]) ->
  let s' := final (drawKeypoints [Sample.armsDown] s) in
  phase s' = Some Down /\ reps s' = reps s
  /\ workoutSession s' = workoutSession s.
Proof.
  intros Hws. cbv zeta.
  set (s' := final (drawKeypoints [Sample.armsDown] s)).
  destruct (SampleFacts.draw_armsDown s []) as (He & _ & Hh).
  destruct (drawKeypoints_keeps s [Sample.armsDown]) as (_ & _ & Hk).
  destruct (drawKeypoints_effect s [Sample.armsDown]) as (Hr & Hu & Hd).
  fold s' in He, Hh, Hk, Hr, Hu, Hd.
  assert (Hdown : downFires s' = true).
  { apply downFires_conditions. split; [assumption|]. split.
    - rewrite elbowAboveNose_completion. unfold getCurrentPose.
      rewrite Hk, Hws. destruct log as [|p log]; cbn [app].
      + cbn. f_equal. apply NumFacts.gtb_true. lra.
      + rewrite last_last. cbn. f_equal. apply NumFacts.gtb_true. lra.
    - rewrite He, Rabs_right by lra. lra. }
  pose proof (windows_disjoint s') as Hx.
  rewrite Hdown, andb_true_r in Hx.
  rewrite Hx, andb_false_r in Hr. cbn in Hr.
  assert (Han : analysed [Sample.armsDown] = true)
    by (apply SampleFacts.analysed_pose; cbn; lra).
  rewrite Han in Hu, Hd.
  rewrite Hdown in Hu, Hd.
  repeat split; try assumption. apply phase_Down. auto.
Qed.

Lemma draw_armsUp_counts (s : PoseAI) :
  downPosition s = true ->
  let s' := final (drawKeypoints [Sample.armsUp] s) in
  phase s' = Some Up /\ reps s' = S (reps s)
  /\ workoutSession s' = workoutSession s.
Proof.
  intros Hdown. cbv zeta.
  set (s' := final (drawKeypoints [Sample.armsUp] s)).
  destruct (SampleFacts.draw_armsUp s []) as (He & _ & _).
  destruct (drawKeypoints_keeps s [Sample.armsUp]) as (_ & _ & Hk).
  destruct (drawKeypoints_effect s [Sample.armsUp]) as (Hr & Hu & Hd).
  fold s' in He, Hk, Hr, Hu, Hd.
  assert (Hup : upFires s' = true) by (apply upFires_window; lra).
  pose proof (windows_disjoint s') as Hx. rewrite Hup in Hx. cbn in Hx.
  assert (Han : analysed [Sample.armsUp] = true)
    by (apply SampleFacts.analysed_pose; cbn; lra).
  rewrite Han in Hr, Hu, Hd.
  rewrite Hup, Hx in Hu, Hd. rewrite Hup, Hdown in Hr. cbn in Hr.
  repeat split; try assumption. apply phase_Up. auto.
Qed.

(** The session of the specification: from a fresh object with a running
    session, a down frame, an up frame, a down frame and an up frame count
    two repetitions, one at each return to the up position. *)
Example two_repetitions :
  let s0 := after [StartWorkoutSession; Detect [Sample.armsDown]] newPoseAI in
  let sA := after [Draw [Sample.armsDown]] s0 in
  let sB := after [Draw [Sample.armsUp]] sA in
  let sC := after [Draw [Sample.armsDown]] sB in
  let sD := after [Draw [Sample.armsUp]] sC in
  (phase s0 = Some Neutral /\ reps s0 = 0%nat)
  /\ (phase sA = Some Down /\ reps sA = 0%nat)
  /\ (phase sB = Some Up /\ reps sB = 1%nat)
  /\ (phase sC = Some Down /\ reps sC = 1%nat)
  /\ (phase sD = Some Up /\ reps sD = 2%nat).
Proof.
  cbv zeta. cbn [after perform].
  set (s0 := final (detectPose [Sample.armsDown]
                      (final (startWorkoutSession newPoseAI)))).
  assert (H0 : phase s0 = Some Neutral /\ reps s0 = 0%nat
               /\ workoutSession s0 = Some ([] ++ [Sample.armsDown]))
    by (repeat split; reflexivity).
  destruct H0 as (Hp0 & Hr0 & Hw0).
  destruct (draw_armsDown_lowers s0 [] Hw0) as (HpA & HrA & HwA).
  set (sA := final (drawKeypoints [Sample.armsDown] s0)) in *.
  destruct (draw_armsUp_counts sA (proj2 (proj1 (phase_Down sA) HpA)))
    as (HpB & HrB & HwB).
  set (sB := final (drawKeypoints [Sample.armsUp] sA)) in *.
  assert (HwB' : workoutSession sB = Some ([] ++ [Sample.armsDown]))
    by congruence.
  destruct (draw_armsDown_lowers sB [] HwB') as (HpC & HrC & HwC).
  set (sC := final (drawKeypoints [Sample.armsDown] sB)) in *.
  destruct (draw_armsUp_counts sC (proj2 (proj1 (phase_Down sC) HpC)))
    as (HpD & HrD & HwD).
  repeat split; try assumption; congruence.
Qed.

(** C1 on the sample frames. *)
Lemma C1_witness :
  (reps (final (drawKeypoints [Sample.armsUp] Sample.lowered)) = 1%nat
   /\ phase (final (drawKeypoints [Sample.armsUp] Sample.lowered)) = Some Up
   /\ reps (after (map Draw [[Sample.armsUp]; [Sample.armsUp]; [Sample.armsUp]])
              (final (drawKeypoints [Sample.armsUp] Sample.lowered))) = 1%nat
   /\ phase (after (map Draw [[Sample.armsUp]; [Sample.armsUp]; [Sample.armsUp]])
               (final (drawKeypoints [Sample.armsUp] Sample.lowered)))
      = Some Up)
  /\ (reps (final (checkPushupPositions (set_elbowAngle 185 Sample.lowered)))
      = 1%nat
      /\ phase (final (checkPushupPositions (set_elbowAngle 185 Sample.lowered)))
         = Some Up
      /\ reps (final (checkPushupPositions
                        (final (checkPushupPositions
                                  (set_elbowAngle 185 Sample.lowered)))))
         = 1%nat)
  /\ (reps (final (drawKeypoints [Sample.armsUp] Sample.lowered)) = 1%nat
      /\ downPosition Sample.lowered = true
      /\ phase (final (drawKeypoints [Sample.armsUp] Sample.lowered))
         = Some Up)
  /\ (reps (final (drawKeypoints [Sample.armsUp]
                     (after [StartWorkoutSession; Detect [Sample.armsDown];
                             Draw [Sample.armsDown]] newPoseAI)))
      = S (reps (after [StartWorkoutSession; Detect [Sample.armsDown];
                        Draw [Sample.armsDown]] newPoseAI))
      /\ phase (final (drawKeypoints [Sample.armsUp]
                         (after [StartWorkoutSession; Detect [Sample.armsDown];
                                 Draw [Sample.armsDown]] newPoseAI)))
         = Some Up
      /\ reps (after (map Draw [[Sample.armsUp]])
                 (final (drawKeypoints [Sample.armsUp]
                           (after [StartWorkoutSession;
                                   Detect [Sample.armsDown];
                                   Draw [Sample.armsDown]] newPoseAI))))
         = S (reps (after [StartWorkoutSession; Detect [Sample.armsDown];
                           Draw [Sample.armsDown]] newPoseAI))
      /\ phase (after (map Draw [[Sample.armsUp]])
                  (final (drawKeypoints [Sample.armsUp]
                            (after [StartWorkoutSession;
                                    Detect [Sample.armsDown];
                                    Draw [Sample.armsDown]] newPoseAI))))
         = Some Up).
Proof.
  assert (H1 :
    reps (final (drawKeypoints [Sample.armsUp] Sample.lowered)) = 1%nat
    /\ phase (final (drawKeypoints [Sample.armsUp] Sample.lowered)) = Some Up
    /\ reps (after (map Draw [[Sample.armsUp]; [Sample.armsUp]; [Sample.armsUp]])
               (final (drawKeypoints [Sample.armsUp] Sample.lowered))) = 1%nat
    /\ phase (after (map Draw [[Sample.armsUp]; [Sample.armsUp]; [Sample.armsUp]])
                (final (drawKeypoints [Sample.armsUp] Sample.lowered)))
       = Some Up).
  { apply (proj1 C1_rep_counted_on_down_up_only Sample.lowered
             [Sample.armsUp]
             [[Sample.armsUp]; [Sample.armsUp]; [Sample.armsUp]]).
    - reflexivity.
    - apply SampleFacts.analysed_pose; cbn; lra.
    - cbn [elbowStaysUp].
      repeat split;
        try rewrite (proj1 (SampleFacts.draw_armsUp _ _)); lra. }
  split; [exact H1|]. split; [|split].
  - apply (proj1 (proj2 C1_rep_counted_on_down_up_only)
             (set_elbowAngle 185 Sample.lowered)).
    + reflexivity.
    + cbn. lra.
  - apply (proj1 (proj2 (proj2 C1_rep_counted_on_down_up_only))
             Sample.lowered [Sample.armsUp]).
    destruct H1 as [H1 _]. rewrite H1. cbn. discriminate.
  - apply (proj2 (proj2 (proj2 C1_rep_counted_on_down_up_only))
             [StartWorkoutSession; Detect [Sample.armsDown];
              Draw [Sample.armsDown]]
             [Sample.armsUp] [[Sample.armsUp]]).
    + cbn [after perform].
      apply (draw_armsDown_lowers _ []). reflexivity.
    + cbn [elbowStaysUp].
      repeat split;
        try rewrite (proj1 (SampleFacts.draw_armsUp _ _)); lra.
Defined.

(** * Further properties of the workout page *)

(** ** When a frame throws *)

Lemma checkDownPosition_completion (s : PoseAI) :
  completion (checkDownPosition s)
  = match completion (elbowAboveNose s) with
    | Normal _ => Normal tt
    | TypeError => TypeError
    end.
Proof. js_destruct s. js_run; reflexivity. Qed.

Lemma elbowAboveNose_ext (s1 s2 : PoseAI) :
  workoutSession s1 = workoutSession s2 ->
  completion (elbowAboveNose s1) = completion (elbowAboveNose s2).
Proof.
  intros H. rewrite !elbowAboveNose_completion. unfold getCurrentPose.
  rewrite H. reflexivity.
Qed.

Lemma checkPushupPositions_completion (s : PoseAI) :
  completion (checkPushupPositions s)
  = match completion (elbowAboveNose s) with
    | Normal _ => Normal tt
    | TypeError => TypeError
    end.
Proof.
  rewrite <- (elbowAboveNose_ext (final (checkUpPosition s)) s)
    by (rewrite (proj2 (checkUpPosition_frame s)); reflexivity).
  rewrite <- checkDownPosition_completion.
  unfold checkPushupPositions, bind.
  destruct (checkUpPosition_frame s) as [Hc _].
  destruct (checkUpPosition s) as [c s1 t1]. cbn in Hc. subst c. cbn.
  destruct (checkDownPosition s1); reflexivity.
Qed.

Lemma drawKeypoints_completion (s : PoseAI) (pose : Pose)
    (rest : list Pose) :
  analysed (pose :: rest) = true ->
  completion (drawKeypoints (pose :: rest) s)
  = match completion (elbowAboveNose s) with
    | Normal _ => Normal tt
    | TypeError => TypeError
    end.
Proof.
  intros H. pose proof (analysed_length _ _ H) as Hlen.
  destruct (drawKeypoints_keeps s (pose :: rest)) as (_ & _ & Hk).
  destruct (drawKeypoints_analysed s pose rest H) as [Hf _].
  cbv zeta in Hf.
  assert (Hrun : drawKeypoints (pose :: rest) s
                 = (updateArmAngle pose ;; updateBackAngle pose ;;
                    checkPushupPositions) s).
  { unfold analysed in H. unfold drawKeypoints. rewrite H. reflexivity. }
  assert (Hws : workoutSession
                  (final (updateBackAngle pose
                            (final (updateArmAngle pose s))))
                = workoutSession s).
  { rewrite (updateBackAngle_frame _ pose). js_cbn.
    destruct (updateArmAngle_frame s pose) as [-> _]. reflexivity. }
  rewrite <- (elbowAboveNose_ext _ _ Hws).
  rewrite Hrun. unfold bind.
  pose proof (updateArmAngle_completes s pose ltac:(lia)) as H1.
  destruct (updateArmAngle pose s) as [c1 s1 t1]. cbn in H1. subst c1.
  cbn [final] in *.
  pose proof (updateBackAngle_completes s1 pose ltac:(lia)) as H2.
  destruct (updateBackAngle pose s1) as [c2 s2 t2]. cbn in H2. subst c2.
  cbn [final] in *.
  pose proof (checkPushupPositions_completion s2) as H3.
  destruct (checkPushupPositions s2) as [c3 s3 t3]. cbn [completion] in *.
  rewrite H3. reflexivity.
Qed.

Lemma drawKeypoints_throws_iff (s : PoseAI) (poses : list Pose) :
  completion (drawKeypoints poses s) = TypeError
  <-> analysed poses = true
      /\ exists pose, getCurrentPose s = Some pose
                      /\ (List.length pose <= 7)%nat.
Proof.
  destruct (analysed poses) eqn:Han.
  - destruct poses as [|pose rest]; [discriminate|].
    rewrite (drawKeypoints_completion s pose rest Han).
    rewrite elbowAboveNose_completion.
    destruct (getCurrentPose s) as [cur|].
    + split.
      * intros H. split; [reflexivity|]. exists cur. split; [reflexivity|].
        destruct (nth_error cur 0) eqn:E0.
        -- destruct (nth_error cur 7) eqn:E7; [discriminate|].
           apply nth_error_None in E7. assumption.
        -- apply nth_error_None in E0. lia.
      * intros (_ & cur' & Hc & Hlen). inversion Hc. subst cur'.
        destruct (nth_error cur 0); [|reflexivity].
        assert (E7 : nth_error cur 7 = None)
          by (apply nth_error_None; assumption).
        rewrite E7. reflexivity.
    + split; [discriminate|]. intros (_ & cur & Hc & _). discriminate.
  - rewrite (drawKeypoints_skipped s poses Han). cbn.
    split; [discriminate|]. intros [H _]. discriminate.
Qed.

(** A frame ends in a [TypeError] exactly when it is analysed and the
    pose last stored in the session lacks the nose or the left elbow
    (fewer than 8 keypoints).  By then the angles have been updated and the
    up rule applied, so the frame may still have counted a repetition; the
    down rule has not run. *)
Theorem frame_throws_on_short_stored_pose (s : PoseAI)
    (poses : list Pose) :
  (completion (drawKeypoints poses s) = TypeError
   <-> analysed poses = true
       /\ exists pose, getCurrentPose s = Some pose
                       /\ (List.length pose <= 7)%nat)
  /\ (completion (drawKeypoints poses s) = TypeError ->
      reps (final (drawKeypoints poses s))
      = (if upFires (final (drawKeypoints poses s)) && downPosition s
         then S (reps s) else reps s)
      /\ downPosition (final (drawKeypoints poses s))
         = (if upFires (final (drawKeypoints poses s))
            then false else downPosition s)).
Proof.
  split; [apply drawKeypoints_throws_iff|].
  intros Hthrow. apply drawKeypoints_throws_iff in Hthrow.
  destruct Hthrow as (Han & cur & Hc & Hlen).
  destruct (drawKeypoints_effect s poses) as (Hr & _ & Hd).
  rewrite Han in Hr, Hd. cbn [andb] in Hr.
  assert (Hdown : downFires (final (drawKeypoints poses s)) = false).
  { unfold downFires. rewrite elbowAboveNose_completion.
    destruct (drawKeypoints_keeps s poses) as (_ & _ & Hk).
    unfold getCurrentPose in *. rewrite Hk, Hc.
    destruct (nth_error cur 0); [|reflexivity].
    assert (E7 : nth_error cur 7 = None)
      by (apply nth_error_None; assumption).
    rewrite E7. reflexivity. }
  rewrite Hdown in Hd. split; assumption.
Qed.

(** A session that has stored a pose without keypoints: the next analysed
    frame throws, after the repetition has been counted. *)
Lemma frame_throws_witness :
  completion (drawKeypoints [Sample.armsUp]
                (set_workoutSession (Some [[]]) Sample.lowered)) = TypeError
  /\ reps (final (drawKeypoints [Sample.armsUp]
                    (set_workoutSession (Some [[]]) Sample.lowered))) = 1%nat
  /\ downPosition (final (drawKeypoints [Sample.armsUp]
                            (set_workoutSession (Some [[]]) Sample.lowered)))
     = false.
Proof.
  pose proof (frame_throws_on_short_stored_pose
                (set_workoutSession (Some [[]]) Sample.lowered)
                [Sample.armsUp]) as [Hiff Hthen].
  assert (Hthrow : completion (drawKeypoints [Sample.armsUp]
                     (set_workoutSession (Some [[]]) Sample.lowered))
                   = TypeError).
  { apply Hiff. split.
    - apply SampleFacts.analysed_pose; cbn; lra.
    - exists []. split; [reflexivity|cbn; lia]. }
  split; [exact Hthrow|].
  destruct (Hthen Hthrow) as [Hr Hd].
  assert (Hup : upFires (final (drawKeypoints [Sample.armsUp]
                   (set_workoutSession (Some [[]]) Sample.lowered))) = true).
  { apply upFires_window.
    rewrite (proj1 (SampleFacts.draw_armsUp _ _)). lra. }
  rewrite Hup in Hr, Hd. split; assumption.
Defined.

(** The session's log only holds poses that were given to [detectPose]. *)
Lemma perform_log (s : PoseAI) (a : Action) (P : Pose -> Prop) :
  (forall log, workoutSession s = Some log -> Forall P log) ->
  Forall P (detected [a]) ->
  forall log, workoutSession (final (perform a s)) = Some log ->
              Forall P log.
Proof.
  intros Hs Ha. destruct a as [poses|poses| | |e|b]; cbn [perform].
  - destruct (drawKeypoints_keeps s poses) as (_ & _ & ->). exact Hs.
  - unfold detectPose, bind, get. cbn.
    destruct poses as [|pose rest]; [exact Hs|].
    destruct (workoutSession s) as [log0|] eqn:Hw; cbn.
    + intros log Hlog. inversion Hlog. subst log.
      apply Forall_app. split; [apply Hs; reflexivity|].
      cbn in Ha. assumption.
    + rewrite Hw. discriminate.
  - cbn. intros log Hlog. inversion Hlog. constructor.
  - rewrite resetWorkout_final. exact Hs.
  - rewrite selectExercise_final. exact Hs.
  - exact Hs.
Qed.

Lemma detected_cons (a : Action) (acts : list Action) :
  detected (a :: acts) = detected [a] ++ detected acts.
Proof.
  destruct a as [poses|poses| | |e|b]; try reflexivity.
  destruct poses; reflexivity.
Qed.

Lemma after_log (acts : list Action) (P : Pose -> Prop) :
  forall s : PoseAI,
    (forall log, workoutSession s = Some log -> Forall P log) ->
    Forall P (detected acts) ->
    forall log, workoutSession (after acts s) = Some log -> Forall P log.
Proof.
  induction acts as [|a acts IH]; intros s Hs Hd; [exact Hs|].
  rewrite detected_cons in Hd. apply Forall_app in Hd. destruct Hd as [Ha Hd].
  cbn [after]. apply IH; [|assumption].
  apply perform_log; assumption.
Qed.

Lemma last_in {A : Type} (l : list A) :
  forall d : A, In (last l d) (d :: l).
Proof.
  induction l as [|a l IH]; intros d.
  - left. reflexivity.
  - destruct l as [|b l].
    + right. left. reflexivity.
    + change (last (a :: b :: l) d) with (last (b :: l) d).
      destruct (IH d) as [H|H].
      * left. assumption.
      * right. right. assumption.
Qed.

Lemma getCurrentPose_in_log (s : PoseAI) (pose : Pose) :
  getCurrentPose s = Some pose ->
  exists log, workoutSession s = Some log /\ In pose log.
Proof.
  unfold getCurrentPose. destruct (workoutSession s) as [[|p ps]|];
    try discriminate.
  intros H. inversion H. exists (p :: ps). split; [reflexivity|].
  apply last_in.
Qed.

(** From a fresh object, as long as every pose given to [detectPose] has
    the nose and the left elbow (at least 8 keypoints, as the 17 of the
    detector have), no frame throws, whatever the callbacks before it. *)
Theorem frames_complete_on_full_poses (acts : list Action)
    (poses : list Pose) :
  Forall (fun pose => (7 < List.length pose)%nat) (detected acts) ->
  completion (drawKeypoints poses (after acts newPoseAI)) = Normal tt.
Proof.
  intros Hd.
  destruct (completion (drawKeypoints poses (after acts newPoseAI)))
    as [[]|] eqn:Hc; [reflexivity|exfalso].
  apply drawKeypoints_throws_iff in Hc.
  destruct Hc as (_ & cur & Hcur & Hlen).
  apply getCurrentPose_in_log in Hcur. destruct Hcur as (log & Hlog & Hin).
  assert (Hall : Forall (fun pose => (7 < List.length pose)%nat) log).
  { apply (after_log acts _ newPoseAI); try assumption.
    cbn. discriminate. }
  rewrite Forall_forall in Hall. specialize (Hall cur Hin). lia.
Qed.

Lemma frames_complete_witness :
  completion
    (drawKeypoints [Sample.armsUp]
       (after [StartWorkoutSession; Detect [Sample.armsDown];
               Draw [Sample.armsDown]; Detect [Sample.armsUp]] newPoseAI))
  = Normal tt.
Proof.
  apply (frames_complete_on_full_poses
           [StartWorkoutSession; Detect [Sample.armsDown];
            Draw [Sample.armsDown]; Detect [Sample.armsUp]]
           [Sample.armsUp]).
  repeat constructor; cbn; lia.
Defined.

(** ** Frames that are not analysed *)

(** A frame whose first pose has the detector's 17 keypoints is analysed
    exactly when all 17 score above 0.3.  A frame with one keypoint at or
    below 0.3, and a frame without a pose, leave the object untouched and
    issue nothing: no angle, no posture check, no counting. *)
Theorem unsure_frame_is_ignored (s : PoseAI) (pose : Pose)
    (rest : list Pose) :
  (List.length pose = 17%nat ->
   (analysed (pose :: rest) = true
    <-> forall k, In k pose -> 0.3 < score k))
  /\ (List.length pose = 17%nat ->
      forall k, In k pose -> score k <= 0.3 ->
      drawKeypoints (pose :: rest) s = mkResult (Normal tt) s [])
  /\ drawKeypoints [] s = mkResult (Normal tt) s [].
Proof.
  assert (Hiff : List.length pose = 17%nat ->
                 (analysed (pose :: rest) = true
                  <-> forall k, In k pose -> 0.3 < score k)).
  { intros Hlen. unfold analysed. rewrite Nat.eqb_eq. split.
    - intros H k Hin. rewrite <- Hlen in H.
      apply filter_length_forallb in H. rewrite forallb_forall in H.
      apply NumFacts.gtb_true. apply H. assumption.
    - intros H. rewrite forallb_filter_id; [assumption|].
      apply forallb_forall. intros k Hin. apply NumFacts.gtb_true.
      apply H. assumption. }
  split; [exact Hiff|]. split; [|reflexivity].
  intros Hlen k Hin Hlow. apply drawKeypoints_skipped.
  destruct (analysed (pose :: rest)) eqn:Han; [exfalso|reflexivity].
  pose proof (proj1 (Hiff Hlen) eq_refl k Hin). lra.
Qed.

Lemma unsure_frame_witness :
  drawKeypoints [Sample.unsure] Sample.lowered
  = mkResult (Normal tt) Sample.lowered [].
Proof.
  apply (proj1 (proj2 (unsure_frame_is_ignored Sample.lowered Sample.unsure
                         [])) eq_refl (mkKeypoint (-1) 0 (1 / 10))).
  - cbn. tauto.
  - cbn. lra.
Defined.

(** ** Two frames for a repetition *)

Lemma perform_two_frames (s : PoseAI) (a : Action) :
  let s' := final (perform a s) in
  (2 * reps s' + (if downPosition s' then 1 else 0)
   <= 2 * reps s + (if downPosition s then 1 else 0) + analysedDraws [a])%nat.
Proof.
  cbv zeta. destruct a as [poses|poses| | |e|b];
    cbn [perform analysedDraws filter List.length].
  - destruct (drawKeypoints_effect s poses) as (Hr & _ & Hd).
    pose proof (windows_disjoint (final (drawKeypoints poses s))) as Hx.
    rewrite Hr, Hd. destruct (analysed poses); cbn [andb List.length].
    + destruct (downFires (final (drawKeypoints poses s))).
      * rewrite andb_true_r in Hx. rewrite Hx. cbn [andb].
        destruct (downPosition s); lia.
      * destruct (upFires (final (drawKeypoints poses s)));
          destruct (downPosition s); cbn [andb]; lia.
    + lia.
  - destruct (detectPose_frame s poses) as [-> _]. js_cbn. lia.
  - cbn. lia.
  - rewrite resetWorkout_final. cbn. lia.
  - rewrite selectExercise_final. cbn. lia.
  - cbn. lia.
Qed.

Lemma analysedDraws_cons (a : Action) (acts : list Action) :
  analysedDraws (a :: acts) = (analysedDraws [a] + analysedDraws acts)%nat.
Proof.
  unfold analysedDraws. cbn [filter].
  destruct (match a with Draw poses => analysed poses | _ => false end);
    reflexivity.
Qed.

Lemma after_two_frames (acts : list Action) :
  forall s : PoseAI,
    (2 * reps (after acts s) + (if downPosition (after acts s) then 1 else 0)
     <= 2 * reps s + (if downPosition s then 1 else 0)
        + analysedDraws acts)%nat.
Proof.
  induction acts as [|a acts IH]; intros s.
  - cbn. lia.
  - cbn [after]. rewrite analysedDraws_cons.
    pose proof (perform_two_frames s a) as H1. cbv zeta in H1.
    specialize (IH (final (perform a s))). lia.
Qed.

(** A repetition takes at least two analysed frames, one that takes the
    down position and a later one that returns up: after any sequence of
    callbacks on a fresh object, twice the count is at most the number of
    analysed frames.  Noise cannot count faster than that. *)
Theorem two_frames_per_repetition (acts : list Action) :
  (2 * reps (after acts newPoseAI) <= analysedDraws acts)%nat.
Proof.
  pose proof (after_two_frames acts newPoseAI) as H. cbn in H.
  destruct (downPosition (after acts newPoseAI)); lia.
Qed.

(** ** Voice feedback switched off *)

Lemma updateBackAngle_silent (s : PoseAI) (pose : Pose) :
  voiceFeedbackEnabled s = false ->
  (forall text, ~ In (Speak text) (trace (updateBackAngle pose s)))
  /\ backWarningGiven (final (updateBackAngle pose s)) = backWarningGiven s.
Proof.
  js_destruct s. js_cbn. intros ->.
  js_run;
    try match goal with
        | H : _ && false = true |- _ =>
            rewrite andb_false_r in H; discriminate
        end;
    (split; [intros text Hin; cbn in Hin;
             repeat (destruct Hin as [Hin|Hin]; try discriminate);
             assumption
            |reflexivity]).
Qed.

Lemma checkPushupPositions_silent (s : PoseAI) :
  voiceFeedbackEnabled s = false ->
  forall text, ~ In (Speak text) (trace (checkPushupPositions s)).
Proof.
  js_destruct s. js_cbn. intros ->.
  js_run;
    try match goal with
        | H : _ && false = true |- _ =>
            rewrite andb_false_r in H; discriminate
        end;
    intros text Hin; cbn in Hin;
    repeat (destruct Hin as [Hin|Hin]; try discriminate); assumption.
Qed.

Lemma drawKeypoints_silent (s : PoseAI) (poses : list Pose) :
  voiceFeedbackEnabled s = false ->
  (forall text, ~ In (Speak text) (trace (drawKeypoints poses s)))
  /\ backWarningGiven (final (drawKeypoints poses s)) = backWarningGiven s.
Proof.
  intros Hv. destruct (analysed poses) eqn:Han.
  - destruct poses as [|pose rest]; [discriminate|].
    destruct (drawKeypoints_angles s pose rest Han) as (_ & _ & _ & Hw).
    destruct (drawKeypoints_analysed s pose rest Han) as [_ Ht].
    cbv zeta in Hw, Ht. rewrite Hw, Ht. clear Hw Ht.
    destruct (updateArmAngle_frame s pose) as [Hs1 Ht1]. rewrite Ht1.
    set (s1 := final (updateArmAngle pose s)) in *.
    assert (Hv1 : voiceFeedbackEnabled s1 = false)
      by (rewrite Hs1; assumption).
    assert (Hw1 : backWarningGiven s1 = backWarningGiven s)
      by (rewrite Hs1; reflexivity).
    destruct (updateBackAngle_silent s1 pose Hv1) as [Hq Hkeep].
    set (s2 := final (updateBackAngle pose s1)) in *.
    assert (Hv2 : voiceFeedbackEnabled s2 = false).
    { subst s2. rewrite (updateBackAngle_frame s1 pose). assumption. }
    split; [|congruence].
    intros text Hin. cbn [app] in Hin. apply in_app_or in Hin.
    destruct Hin as [Hin|Hin].
    + exact (Hq text Hin).
    + exact (checkPushupPositions_silent s2 Hv2 text Hin).
  - rewrite (drawKeypoints_skipped s poses Han). cbn. split; auto.
Qed.

Lemma perform_silent (s : PoseAI) (a : Action) :
  voiceFeedbackEnabled s = false -> switchesVoiceOn a = false ->
  (forall text, ~ In (Speak text) (trace (perform a s)))
  /\ voiceFeedbackEnabled (final (perform a s)) = false
  /\ (isReset a = false ->
      backWarningGiven (final (perform a s)) = backWarningGiven s).
Proof.
  intros Hv Ha. destruct a as [poses|poses| | |e|b]; cbn [perform isReset].
  - destruct (drawKeypoints_silent s poses Hv) as [Hq Hw].
    destruct (drawKeypoints_keeps s poses) as (_ & Hk & _).
    repeat split; try assumption; congruence.
  - destruct (detectPose_frame s poses) as [-> ->]. js_cbn.
    repeat split; auto.
  - cbn. repeat split; auto.
  - rewrite resetWorkout_final. js_cbn. split; [|split; [assumption|discriminate]].
    intros text Hin. js_destruct s. js_run. cbn in Hin.
    repeat (destruct Hin as [Hin|Hin]; try discriminate); assumption.
  - rewrite selectExercise_final. js_cbn. split; [|split; [assumption|discriminate]].
    intros text Hin. js_destruct s. js_run. cbn in Hin.
    repeat (destruct Hin as [Hin|Hin]; try discriminate); assumption.
  - destruct b; [discriminate|]. cbn. repeat split; auto.
Qed.

(** While voice feedback is off (the checkbox has switched it off before
    the callbacks and none of them switches it on) nothing is handed to
    the speech engine, and frames do not use up the one posture warning:
    without a reset [backWarningGiven] stays as it was, so the warning is
    still due when voice feedback comes back. *)
Theorem voice_off_is_silent (acts : list Action) :
  forall s : PoseAI,
    voiceFeedbackEnabled s = false ->
    forallb (fun a => negb (switchesVoiceOn a)) acts = true ->
    (forall text, ~ In (Speak text) (events acts s))
    /\ voiceFeedbackEnabled (after acts s) = false
    /\ (resetFree acts = true ->
        backWarningGiven (after acts s) = backWarningGiven s).
Proof.
  induction acts as [|a acts IH]; intros s Hv Hoff.
  - cbn. repeat split; auto.
  - cbn [forallb] in Hoff. apply andb_true_iff in Hoff.
    destruct Hoff as [Ha Hrest]. apply negb_true_iff in Ha.
    destruct (perform_silent s a Hv Ha) as (Hq & Hv' & Hw).
    destruct (IH (final (perform a s)) Hv' Hrest) as (IHq & IHv & IHw).
    cbn [events after]. split; [|split; [assumption|]].
    + intros text Hin. apply in_app_or in Hin. destruct Hin as [Hin|Hin].
      * exact (Hq text Hin).
      * exact (IHq text Hin).
    + intros Hfree. cbn [resetFree forallb] in Hfree.
      apply andb_true_iff in Hfree. destruct Hfree as [Hr Hfree].
      apply negb_true_iff in Hr. rewrite (IHw Hfree). apply Hw. assumption.
Qed.

Lemma voice_off_witness :
  (forall text,
      ~ In (Speak text)
          (events [Draw [Sample.bent]; Draw [Sample.armsUp];
                   Draw [Sample.bent]]
             (set_voiceFeedbackEnabled false Sample.lowered)))
  /\ voiceFeedbackEnabled
       (after [Draw [Sample.bent]; Draw [Sample.armsUp]; Draw [Sample.bent]]
          (set_voiceFeedbackEnabled false Sample.lowered)) = false
  /\ backWarningGiven
       (after [Draw [Sample.bent]; Draw [Sample.armsUp]; Draw [Sample.bent]]
          (set_voiceFeedbackEnabled false Sample.lowered)) = false.
Proof.
  destruct (voice_off_is_silent
              [Draw [Sample.bent]; Draw [Sample.armsUp]; Draw [Sample.bent]]
              (set_voiceFeedbackEnabled false Sample.lowered)
              eq_refl eq_refl) as (Hq & Hv & Hw).
  split; [exact Hq|]. split; [exact Hv|]. exact (Hw eq_refl).
Defined.

(** ** Counting needs a stored pose *)

Lemma downFires_without_pose (s : PoseAI) :
  getCurrentPose s = None -> downFires s = false.
Proof.
  intros H. unfold downFires. rewrite elbowAboveNose_completion, H.
  rewrite andb_false_r. reflexivity.
Qed.

Lemma perform_without_pose (s : PoseAI) (a : Action) :
  bringsPose a = false ->
  getCurrentPose s = None /\ downPosition s = false /\ reps s = 0%nat ->
  getCurrentPose (final (perform a s)) = None
  /\ downPosition (final (perform a s)) = false
  /\ reps (final (perform a s)) = 0%nat.
Proof.
  intros Ha (Hp & Hd & Hr).
  destruct a as [poses|poses| | |e|b]; cbn [perform bringsPose] in *.
  - destruct (drawKeypoints_keeps s poses) as (_ & _ & Hk).
    assert (Hp' : getCurrentPose (final (drawKeypoints poses s)) = None)
      by (unfold getCurrentPose in *; rewrite Hk; assumption).
    destruct (drawKeypoints_effect s poses) as (Hr' & _ & Hd').
    rewrite (downFires_without_pose _ Hp'), Hd in Hd'.
    rewrite Hd, andb_false_r, Hr in Hr'.
    split; [assumption|]. split; [|assumption].
    rewrite Hd'. destruct (analysed poses); [|reflexivity].
    destruct (upFires (final (drawKeypoints poses s))); reflexivity.
  - destruct poses; [|discriminate].
    unfold detectPose, bind, get, ret. cbn. auto.
  - unfold getCurrentPose. cbn. auto.
  - rewrite resetWorkout_final. unfold getCurrentPose in *. cbn. auto.
  - rewrite selectExercise_final. unfold getCurrentPose in *. cbn. auto.
  - unfold getCurrentPose in *. cbn. auto.
Qed.

(** The down rule reads the nose and the elbow from the pose last stored
    by [detectPose], not from the frame being drawn.  As long as no
    callback has handed a pose to [detectPose], frames alone never take
    the down position and never count: [reps] stays 0 whatever they
    show. *)
Theorem no_count_without_stored_pose (acts : list Action) :
  forallb (fun a => negb (bringsPose a)) acts = true ->
  reps (after acts newPoseAI) = 0%nat
  /\ downPosition (after acts newPoseAI) = false
  /\ phase (after acts newPoseAI) <> Some Down.
Proof.
  intros Hacts.
  assert (Hgen : forall s,
    getCurrentPose s = None /\ downPosition s = false /\ reps s = 0%nat ->
    getCurrentPose (after acts s) = None
    /\ downPosition (after acts s) = false
    /\ reps (after acts s) = 0%nat).
  { induction acts as [|a acts IH]; intros s Hs; [exact Hs|].
    cbn [forallb] in Hacts. apply andb_true_iff in Hacts.
    destruct Hacts as [Ha Hrest]. apply negb_true_iff in Ha.
    cbn [after]. apply (IH Hrest). apply perform_without_pose; assumption. }
  destruct (Hgen newPoseAI) as (_ & Hd & Hr); [repeat split; reflexivity|].
  repeat split; try assumption.
  intros Hdown. apply phase_Down in Hdown. destruct Hdown. congruence.
Qed.

Lemma no_count_witness :
  reps (after [StartWorkoutSession; Draw [Sample.armsDown];
               Draw [Sample.armsUp]; Draw [Sample.armsDown];
               Draw [Sample.armsUp]] newPoseAI) = 0%nat
  /\ downPosition (after [StartWorkoutSession; Draw [Sample.armsDown];
                          Draw [Sample.armsUp]; Draw [Sample.armsDown];
                          Draw [Sample.armsUp]] newPoseAI) = false
  /\ phase (after [StartWorkoutSession; Draw [Sample.armsDown];
                   Draw [Sample.armsUp]; Draw [Sample.armsDown];
                   Draw [Sample.armsUp]] newPoseAI) <> Some Down.
Proof.
  apply (no_count_without_stored_pose
           [StartWorkoutSession; Draw [Sample.armsDown];
            Draw [Sample.armsUp]; Draw [Sample.armsDown];
            Draw [Sample.armsUp]]).
  reflexivity.
Defined.

(** ** Ranges of the stored angles *)

Lemma updateArmAngle_range (s : PoseAI) (pose : Pose) :
  elbowAngle s = 999 \/ -360 <= elbowAngle s <= 360 ->
  elbowAngle (final (updateArmAngle pose s)) = 999
  \/ -360 <= elbowAngle (final (updateArmAngle pose s)) <= 360.
Proof.
  intros H. js_destruct s. js_cbn.
  js_run; try assumption. right. apply jointAngle_range.
Qed.

Lemma perform_ranges (s : PoseAI) (a : Action) :
  -180 < backAngle s < 180
  /\ (elbowAngle s = 999 \/ -360 <= elbowAngle s <= 360) ->
  -180 < backAngle (final (perform a s)) < 180
  /\ (elbowAngle (final (perform a s)) = 999
      \/ -360 <= elbowAngle (final (perform a s)) <= 360).
Proof.
  intros [Hb He]. destruct a as [poses|poses| | |e|b]; cbn [perform].
  - destruct (analysed poses) eqn:Han.
    + destruct poses as [|pose rest]; [discriminate|].
      destruct (drawKeypoints_angles s pose rest Han) as (-> & -> & _).
      split.
      * apply updateBackAngle_range.
        destruct (updateArmAngle_frame s pose) as [-> _]. assumption.
      * apply updateArmAngle_range. assumption.
    + rewrite (drawKeypoints_skipped s poses Han). auto.
  - destruct (detectPose_frame s poses) as [-> _]. auto.
  - auto.
  - rewrite resetWorkout_final. cbn. split; [lra|auto].
  - rewrite selectExercise_final. cbn. split; [lra|auto].
  - auto.
Qed.

(** In every state reached from a fresh object the back angle lies
    strictly between -180 and 180, and the elbow angle is the initial
    999 or lies between -360 and 360. *)
Theorem stored_angles_bounded (acts : list Action) :
  -180 < backAngle (after acts newPoseAI) < 180
  /\ (elbowAngle (after acts newPoseAI) = 999
      \/ -360 <= elbowAngle (after acts newPoseAI) <= 360).
Proof.
  assert (Hgen : forall s,
    -180 < backAngle s < 180
    /\ (elbowAngle s = 999 \/ -360 <= elbowAngle s <= 360) ->
    -180 < backAngle (after acts s) < 180
    /\ (elbowAngle (after acts s) = 999
        \/ -360 <= elbowAngle (after acts s) <= 360)).
  { induction acts as [|a acts IH]; intros s Hs; [exact Hs|].
    cbn [after]. apply IH. apply perform_ranges. exact Hs. }
  apply Hgen. cbn. split; [lra|auto].
Qed.

(** ** The count on the page *)

Lemma textShown_app (id : string) (t1 t2 : list Event) (before : string) :
  textShown id (t1 ++ t2) before = textShown id t2 (textShown id t1 before).
Proof. unfold textShown. apply fold_left_app. Qed.

Lemma updateBackAngle_text (s : PoseAI) (pose : Pose) (id before : string) :
  textShown id (trace (updateBackAngle pose s)) before = before.
Proof. js_destruct s. js_run; reflexivity. Qed.

Lemma checkPushupPositions_text (s : PoseAI) :
  textShown "rep-count" (trace (checkPushupPositions s))
    (Num.toString (reps s))
  = Num.toString (reps (final (checkPushupPositions s))).
Proof. js_destruct s. js_run; reflexivity. Qed.

Lemma perform_text (s : PoseAI) (a : Action) :
  textShown "rep-count" (trace (perform a s)) (Num.toString (reps s))
  = Num.toString (reps (final (perform a s))).
Proof.
  destruct a as [poses|poses| | |e|b]; cbn [perform].
  - destruct (analysed poses) eqn:Han.
    + destruct poses as [|pose rest]; [discriminate|].
      destruct (drawKeypoints_analysed s pose rest Han) as [-> ->].
      destruct (updateArmAngle_frame s pose) as [Hs1 ->]. cbn [app].
      rewrite textShown_app, updateBackAngle_text.
      set (s2 := final (updateBackAngle pose (final (updateArmAngle pose s)))).
      assert (Hr : reps s2 = reps s).
      { subst s2. rewrite (updateBackAngle_frame _ pose). js_cbn.
        rewrite Hs1. reflexivity. }
      rewrite <- Hr. apply checkPushupPositions_text.
    + rewrite (drawKeypoints_skipped s poses Han). reflexivity.
  - destruct (detectPose_frame s poses) as [-> ->]. reflexivity.
  - reflexivity.
  - js_destruct s. js_run. reflexivity.
  - js_destruct s. js_run. reflexivity.
  - reflexivity.
Qed.

(** The element [rep-count] keeps up with [reps]: if it shows the count
    before a sequence of callbacks, it shows the count after it.  (It is
    written at each counted repetition and at each reset, and [reps]
    changes nowhere else.) *)
Theorem rep_count_text_follows_reps (acts : list Action) :
  forall s : PoseAI,
    textShown "rep-count" (events acts s) (Num.toString (reps s))
    = Num.toString (reps (after acts s)).
Proof.
  induction acts as [|a acts IH]; intros s; [reflexivity|].
  cbn [events after]. rewrite textShown_app, perform_text. apply IH.
Qed.

(** ** The form score *)

Lemma clamp_bounds (v : R) : 0 <= Rmax 0 (Rmin 100 v) <= 100.
Proof.
  unfold Rmax, Rmin.
  destruct (Rle_dec 100 v); destruct (Rle_dec 0 _); lra.
Qed.

Lemma clamp_monotone (a b : R) :
  a <= b -> Rmax 0 (Rmin 100 a) <= Rmax 0 (Rmin 100 b).
Proof.
  intros H. unfold Rmax, Rmin.
  destruct (Rle_dec 100 a); destruct (Rle_dec 100 b);
    repeat match goal with
    | |- context [Rle_dec ?u ?v] => destruct (Rle_dec u v)
    end; lra.
Qed.

(** The form score is not a number exactly on a pose without keypoints;
    otherwise it lies between 0 and 100 (first and second part).  Flagging
    the back never raises it (third part; the subtraction, the bonus and
    the clamp are monotone, also when each rounds); for an exercise other
    than push-ups neither the back flag nor the elbow angle matters
    (fourth part). *)
Theorem form_score_bounds (s : PoseAI) (pose : Pose) :
  (calculateFormScore s pose = None <-> pose = [])
  /\ (forall v, calculateFormScore s pose = Some v -> 0 <= v <= 100)
  /\ (forall a b,
        calculateFormScore (set_highlightBack true s) pose = Some a ->
        calculateFormScore (set_highlightBack false s) pose = Some b ->
        a <= b)
  /\ (String.eqb (currentExercise s) "pushups" = false ->
      forall (h : bool) (e : R),
        calculateFormScore (set_elbowAngle e (set_highlightBack h s)) pose
        = calculateFormScore s pose).
Proof.
  unfold calculateFormScore. destruct pose as [|k pose].
  - repeat split; intros; try discriminate; reflexivity.
  - set (f := fold_left (fun sum kp => sum + score kp) (k :: pose) 0
              / INR (List.length (k :: pose)) * 100).
    split; [split; discriminate|]. split; [|split].
    + intros v H. inversion H. apply clamp_bounds.
    + js_cbn. intros a b Ha Hb. inversion Ha. inversion Hb. clear Ha Hb.
      destruct (String.eqb (currentExercise s) "pushups").
      * destruct ((elbowAngle s >? 160) && (elbowAngle s <? 200)).
        -- apply clamp_monotone. lra.
        -- apply clamp_monotone. lra.
      * lra.
    + js_cbn. intros H h e. rewrite H. reflexivity.
Qed.

Lemma form_score_witness :
  (0 <= Rmax 0 (Rmin 100 (fold_left (fun sum kp => sum + score kp)
                            Sample.bent 0
                          / INR (List.length Sample.bent) * 100 - 20 + 10))
   <= 100)
  /\ calculateFormScore
       (set_elbowAngle 90
          (set_highlightBack true
             (set_currentExercise "plank" newPoseAI))) Sample.bent
     = calculateFormScore (set_currentExercise "plank" newPoseAI)
         Sample.bent
  /\ Rmax 0 (Rmin 100 (fold_left (fun sum kp => sum + score kp)
                         Sample.bent 0
                       / INR (List.length Sample.bent) * 100 - 20))
     <= Rmax 0 (Rmin 100 (fold_left (fun sum kp => sum + score kp)
                            Sample.bent 0
                          / INR (List.length Sample.bent) * 100)).
Proof.
  assert (E3 : (999 <? 200) = false) by (apply NumFacts.ltb_false; lra).
  split; [|split]; cycle 2.
  - apply (proj1 (proj2 (proj2 (form_score_bounds newPoseAI Sample.bent)))).
    + unfold calculateFormScore, Sample.bent, Sample.pose, newPoseAI. js_cbn.
      change (String.eqb "pushups" "pushups") with true. cbv iota.
      rewrite E3, andb_false_r. reflexivity.
    + unfold calculateFormScore, Sample.bent, Sample.pose, newPoseAI. js_cbn.
      change (String.eqb "pushups" "pushups") with true. cbv iota.
      rewrite E3, andb_false_r. reflexivity.
  - apply (proj1 (proj2 (form_score_bounds
              (set_elbowAngle 180 (set_highlightBack true newPoseAI))
              Sample.bent))).
    unfold calculateFormScore, Sample.bent, Sample.pose, newPoseAI. js_cbn.
    change (String.eqb "pushups" "pushups") with true. cbv iota.
    assert (E1 : (180 >? 160) = true) by (apply NumFacts.gtb_true; lra).
    assert (E2 : (180 <? 200) = true) by (apply NumFacts.ltb_true; lra).
    rewrite E1, E2. reflexivity.
  - apply (proj2 (proj2 (proj2 (form_score_bounds
              (set_currentExercise "plank" newPoseAI) Sample.bent)))).
    reflexivity.
Defined.

(** ** The coach text *)




(** ** Durations *)

Lemma string_of_uint_noColon (d : Decimal.uint) :
  noColon (NilEmpty.string_of_uint d) = true.
Proof. induction d; cbn; try reflexivity; assumption. Qed.

Lemma splitAtColon_app (u v : string) :
  noColon u = true ->
  splitAtColon (u ++ String ":" v) = Some (u, v).
Proof.
  induction u as [|c u IH]; cbn; intros H; [reflexivity|].
  apply andb_true_iff in H. destruct H as [Hc Hu].
  apply negb_true_iff in Hc. rewrite Hc, (IH Hu). reflexivity.
Qed.

Lemma readNat_toString (n : nat) : readNat (Num.toString n) = Some n.
Proof.
  unfold readNat, Num.toString. rewrite NilEmpty.usu. cbn.
  rewrite Unsigned.of_to. reflexivity.
Qed.

(** The two-character field, checked on each of its sixty values. *)
Lemma seconds_field (k : nat) :
  (k < 60)%nat ->
  String.length (JS.padStart 2 "0" (Num.toString k)) = 2%nat
  /\ readNat (JS.padStart 2 "0" (Num.toString k)) = Some k.
Proof.
  intros Hk.
  assert (Hall : forallb (fun k =>
            (String.length (JS.padStart 2 "0" (Num.toString k)) =? 2)%nat
            && match readNat (JS.padStart 2 "0" (Num.toString k)) with
               | Some j => (j =? k)%nat
               | None => false
               end) (seq 0 60) = true) by (vm_compute; reflexivity).
  rewrite forallb_forall in Hall.
  specialize (Hall k ltac:(apply in_seq; lia)).
  apply andb_true_iff in Hall. destruct Hall as [Hlen Hread].
  apply Nat.eqb_eq in Hlen. split; [assumption|].
  destruct (readNat (JS.padStart 2 "0" (Num.toString k))) as [j|];
    [|discriminate].
  apply Nat.eqb_eq in Hread. congruence.
Qed.

(** A duration can be read back from its text: the text is the minutes in
    decimal, a colon, and the seconds on exactly two digits.  Hence two
    different durations never print alike. *)
Theorem formatDuration_reads_back :
  (forall seconds : nat,
      readDuration (formatDuration seconds) = Some seconds)
  /\ (forall a b : nat, formatDuration a = formatDuration b -> a = b).
Proof.
  assert (Hread : forall seconds : nat,
             readDuration (formatDuration seconds) = Some seconds).
  { intros seconds. unfold readDuration, formatDuration. cbv zeta.
    change (Num.toString (seconds / 60) ++ ":"
            ++ JS.padStart 2 "0" (Num.toString (seconds mod 60)))%string
      with (Num.toString (seconds / 60)
            ++ String ":" (JS.padStart 2 "0"
                             (Num.toString (seconds mod 60))))%string.
    rewrite splitAtColon_app by apply string_of_uint_noColon.
    destruct (seconds_field (seconds mod 60)) as [Hlen Hss].
    { apply Nat.mod_upper_bound. discriminate. }
    rewrite Hlen, readNat_toString, Hss. cbn [Nat.eqb].
    f_equal. symmetry. apply Nat.div_mod_eq. }
  split; [exact Hread|].
  intros a b H. pose proof (Hread a) as Ha. rewrite H, Hread in Ha.
  congruence.
Qed.

Lemma round_tenth (k : nat) :
  JS.round (INR k * 0.1) = Z.of_nat ((k + 5) / 10).
Proof.
  unfold JS.round. symmetry. apply Int_part_spec.
  rewrite <- INR_IZR_INZ.
  pose proof (Nat.div_mod_eq (k + 5) 10) as Hdm.
  pose proof (Nat.mod_upper_bound (k + 5) 10 ltac:(discriminate)) as Hlt.
  set (q := ((k + 5) / 10)%nat) in *. set (m := ((k + 5) mod 10)%nat) in *.
  assert (Hk : INR k + 5 = 10 * INR q + INR m).
  { apply (f_equal INR) in Hdm.
    rewrite !plus_INR, mult_INR in Hdm. simpl INR in Hdm. lra. }
  assert (Hm : 0 <= INR m < 10).
  { split; [apply pos_INR|].
    apply lt_INR in Hlt. simpl INR in Hlt. lra. }
  lra.
Qed.

(** The workout clock: the tick after [n] seconds shows the duration
    [n + 1] as [formatDuration] prints it, and the calorie counter shows
    [(n + 6) / 10] rounded down, one tenth of the seconds rounded to the
    nearest; the counter never goes down from one tick to the next. *)
Theorem workout_timer_tick (n : nat) :
  workoutTimerTick n
  = (S n, [ TextContent "workout-time" (formatDuration (S n));
            TextContent "calories" (Num.toString ((S n + 5) / 10)) ])
  /\ (Z.to_nat (JS.round (INR (S n) * 0.1))
      <= Z.to_nat (JS.round (INR (S (S n)) * 0.1)))%nat.
Proof.
  split.
  - unfold workoutTimerTick, formatDuration. cbv zeta.
    rewrite round_tenth, Nat2Z.id. reflexivity.
  - rewrite !round_tenth, !Nat2Z.id.
    apply Nat.Div0.div_le_mono. lia.
Qed.

(** ** The skeleton on the canvas *)





(** * Properties of the measurement page *)

Module BodyMeasurementFacts.
Import BodyMeasurement.

Ltac bm_unfold :=
  unfold detectPose, notAwaited, drawPose, takeMeasurement, showMeasurement,
    addToHistory, startCalibration, measurementsWithPose, calibrateWithHand,
    updateStatus, reduceAdd, both, scoresAbove, keypoint, when, bind, get,
    ret, modify, emit, throw in *.

Ltac bm_cbn :=
  cbn [ended obj notes app negb andb orb
       set_isDetecting set_isCalibrating set_isCalibrated
       set_scaleCmPerPixel set_currentMeasurements set_measurementHistory
       set_calibrationFrames set_chest set_leftBicep set_rightBicep
       isDetecting isCalibrating isCalibrated scaleCmPerPixel
       currentMeasurements measurementHistory calibrationFrames
       chest leftBicep rightBicep number] in *.

Ltac bm_case :=
  match goal with
  | |- context [match nth_error ?p ?i with _ => _ end] =>
      destruct (nth_error p i) eqn:?
  | |- context [if ?b then _ else _] => destruct b eqn:?
  end.

Ltac bm_run := bm_unfold; bm_cbn; repeat (bm_case; bm_cbn).

Ltac bm_destruct o :=
  let det := fresh "det" in let cing := fresh "cing" in
  let ced := fresh "ced" in let sc := fresh "sc" in
  let cm := fresh "cm" in let hist := fresh "hist" in
  let fr := fresh "fr" in
  destruct o as [det cing ced sc cm hist fr].

(** *** Calibration *)

(** A frame that proposes no scale is passed over. *)
Lemma calibrateWithHand_rejects (o : Obj) (pose : Pose) :
  frameScale pose = None ->
  obj (calibrateWithHand pose o) = o /\ notes (calibrateWithHand pose o) = [].
Proof.
  unfold frameScale. intros H. bm_destruct o.
  bm_run; try (split; reflexivity);
    repeat match goal with
    | H : Some _ = Some _ |- _ => inversion H; clear H; subst
    | H : None = Some _ |- _ => discriminate H
    | H : Some _ = None |- _ => discriminate H
    end;
    repeat match goal with
    | E : ?b = true, H : context [?b] |- _ => rewrite E in H
    end; cbn [andb] in *; discriminate.
Qed.

Lemma reduceAdd_snoc (o : Obj) (l : list R) (c : R) :
  reduceAdd (l ++ [c]) o
  = mkOut (Normal (fold_left Rplus (l ++ [c]) 0)) o [].
Proof.
  unfold reduceAdd, ret. destruct l as [|a l]; cbn [app fold_left].
  - rewrite Rplus_0_l. reflexivity.
  - rewrite Rplus_0_l. reflexivity.
Qed.

(** A frame that proposes a scale: the scale is taken and noted; the
    tenth one ends the calibration on the mean of the ten. *)
Lemma calibrateWithHand_accepts (o : Obj) (pose : Pose) (c : R) :
  frameScale pose = Some c ->
  calibrateWithHand pose o
  = let frames := calibrationFrames o ++ [c] in
    if (10 <=? List.length frames)%nat then
      let mean := fold_left Rplus frames 0 / INR (List.length frames) in
      mkOut (Normal tt)
        (mkObj (isDetecting o) false true (Some mean)
           (currentMeasurements o) (measurementHistory o) [])
        [ CalibrationStatus "Calibrated"; ScaleValue mean;
          Status "Calibration complete" "ready" ]
    else
      mkOut (Normal tt)
        (mkObj (isDetecting o) (isCalibrating o) (isCalibrated o) (Some c)
           (currentMeasurements o) (measurementHistory o) frames)
        [].
Proof.
  unfold frameScale. intros H.
  destruct (nth_error pose 5) as [ls|] eqn:E5; [|discriminate].
  destruct (nth_error pose 6) as [rs|] eqn:E6; [|discriminate].
  destruct (nth_error pose 9) as [lw|] eqn:E9; [|discriminate].
  destruct (nth_error pose 10) as [rw|] eqn:E10; [|discriminate].
  destruct ((score ls >? 0.5) && (score rs >? 0.5) && (score lw >? 0.5)
            && (score rw >? 0.5) && (Rabs (x rs - x ls) >? 0)) eqn:Hc;
    [|discriminate].
  inversion H. subst c. clear H.
  repeat (apply andb_true_iff in Hc; destruct Hc as [Hc ?]).
  bm_destruct o. cbv zeta.
  unfold calibrateWithHand, both, scoresAbove, keypoint, when.
  rewrite E5, E6, E9, E10.
  unfold bind at 1. unfold bind, ret, get, modify, emit, updateStatus. bm_cbn.
  repeat match goal with
  | E : (_ >? _) = true |- _ => rewrite E
  end.
  bm_cbn.
  destruct (10 <=? List.length (fr ++ [(40 / Rabs (x rs - x ls))%R]))%nat;
    [|reflexivity].
  rewrite reduceAdd_snoc. reflexivity.
Qed.

Lemma calibrateAll_rejects (poses : list Pose) :
  forall o : Obj, frameScales poses = [] -> calibrateAll poses o = o.
Proof.
  induction poses as [|pose poses IH]; intros o H; [reflexivity|].
  cbn [frameScales] in H. cbn [calibrateAll].
  destruct (frameScale pose) eqn:Hf; [discriminate|].
  rewrite (proj1 (calibrateWithHand_rejects o pose Hf)). apply IH. exact H.
Qed.

(** Fewer than ten proposals in all: they are collected, in order. *)
Lemma calibrateAll_collects (poses : list Pose) :
  forall o : Obj,
    (List.length (calibrationFrames o) + List.length (frameScales poses)
     < 10)%nat ->
    calibrateAll poses o
    = match frameScales poses with
      | [] => o
      | _ :: _ =>
          mkObj (isDetecting o) (isCalibrating o) (isCalibrated o)
            (Some (last (frameScales poses) 0)) (currentMeasurements o)
            (measurementHistory o)
            (calibrationFrames o ++ frameScales poses)
      end.
Proof.
  induction poses as [|pose poses IH]; intros o Hlen; [reflexivity|].
  cbn [frameScales calibrateAll] in *.
  destruct (frameScale pose) as [c|] eqn:Hf.
  - rewrite (calibrateWithHand_accepts o pose c Hf). cbv zeta.
    cbn [List.length] in Hlen.
    assert (Hn : (10 <=? List.length (calibrationFrames o ++ [c]))%nat
                 = false).
    { apply Nat.leb_gt. rewrite length_app. cbn. lia. }
    rewrite Hn. cbn [obj]. rewrite IH.
    + cbn [isDetecting isCalibrating isCalibrated currentMeasurements
           measurementHistory calibrationFrames].
      rewrite <- app_assoc. cbn [app].
      destruct (frameScales poses) as [|c' cs]; reflexivity.
    + cbn [calibrationFrames]. rewrite length_app. cbn. lia.
  - rewrite (proj1 (calibrateWithHand_rejects o pose Hf)). apply IH. exact Hlen.
Qed.

(** The proposal that makes ten: the calibration ends on the mean. *)
Lemma calibrateAll_completes (poses : list Pose) :
  forall o : Obj,
    frameScales poses <> [] ->
    (List.length (calibrationFrames o) + List.length (frameScales poses)
     = 10)%nat ->
    calibrateAll poses o
    = mkObj (isDetecting o) false true
        (Some (fold_left Rplus (calibrationFrames o ++ frameScales poses) 0
               / 10))
        (currentMeasurements o) (measurementHistory o) [].
Proof.
  induction poses as [|pose poses IH]; intros o Hne Hlen;
    [contradiction Hne; reflexivity|].
  cbn [frameScales calibrateAll] in *.
  destruct (frameScale pose) as [c|] eqn:Hf.
  - rewrite (calibrateWithHand_accepts o pose c Hf). cbv zeta.
    cbn [List.length] in Hlen.
    destruct (frameScales poses) as [|c' cs] eqn:Hrest.
    + assert (Hn : (10 <=? List.length (calibrationFrames o ++ [c]))%nat
                   = true).
      { apply Nat.leb_le. rewrite length_app. cbn in *. lia. }
      rewrite Hn. cbn [obj]. rewrite calibrateAll_rejects by assumption.
      replace (INR (List.length (calibrationFrames o ++ [c]))) with 10;
        [reflexivity|].
      rewrite length_app. cbn [List.length] in *.
      replace (List.length (calibrationFrames o) + 1)%nat with 10%nat
        by lia.
      simpl INR. lra.
    + assert (Hn : (10 <=? List.length (calibrationFrames o ++ [c]))%nat
                   = false).
      { apply Nat.leb_gt. rewrite length_app. cbn in *. lia. }
      rewrite Hn. cbn [obj]. rewrite IH.
      * cbn [isDetecting isCalibrating isCalibrated currentMeasurements
             measurementHistory calibrationFrames].
        rewrite <- app_assoc. reflexivity.
      * discriminate.
      * cbn [calibrationFrames]. rewrite length_app. cbn in *. lia.
  - rewrite (proj1 (calibrateWithHand_rejects o pose Hf)).
    apply IH; assumption.
Qed.

(** After [startCalibration] the scale is settled by the tenth frame that
    shows both shoulders and both wrists with a score above 0.5 and the
    shoulders apart; frames that do not are passed over.  Up to nine such
    frames are only collected, in order (first part); the tenth sets
    [isCalibrated], clears [isCalibrating] and the collection, and fixes
    the scale at the mean of the ten proposals (second part). *)
Theorem calibration_takes_ten_frames (poses : list Pose) (o : Obj) :
  calibrationFrames o = [] ->
  ((List.length (frameScales poses) < 10)%nat ->
   isCalibrated (calibrateAll poses o) = isCalibrated o
   /\ isCalibrating (calibrateAll poses o) = isCalibrating o
   /\ calibrationFrames (calibrateAll poses o) = frameScales poses)
  /\ ((List.length (frameScales poses) = 10)%nat ->
      isCalibrated (calibrateAll poses o) = true
      /\ isCalibrating (calibrateAll poses o) = false
      /\ calibrationFrames (calibrateAll poses o) = []
      /\ scaleCmPerPixel (calibrateAll poses o)
         = Some (fold_left Rplus (frameScales poses) 0 / 10)).
Proof.
  intros Hfr. split.
  - intros Hlen. rewrite calibrateAll_collects by (rewrite Hfr; cbn; lia).
    rewrite Hfr. destruct (frameScales poses); repeat split; auto.
  - intros Hlen. rewrite calibrateAll_completes.
    + rewrite Hfr. repeat split; reflexivity.
    + intros H. rewrite H in Hlen. discriminate.
    + rewrite Hfr. exact Hlen.
Qed.

(** The sample frames in front of the calibration: shoulders one pixel
    apart, all scores 1, so each proposes 40 cm per pixel; the frame with
    the unsure wrist proposes nothing. *)
Lemma frameScale_sample (w k : Keypoint) :
  0.5 < score w -> frameScale (Sample.pose w k) = Some (40 / Rabs (0 - 1)).
Proof.
  intros Hw. apply NumFacts.gtb_true in Hw.
  assert (H1 : (1 >? 0.5) = true) by (apply NumFacts.gtb_true; lra).
  assert (H2 : (Rabs (0 - 1) >? 0) = true).
  { apply NumFacts.gtb_true. rewrite Rabs_left by lra. lra. }
  unfold frameScale, Sample.pose. cbn [nth_error score x Sample.pt].
  rewrite Hw, H1, H2. reflexivity.
Qed.

Lemma frameScale_unsure : frameScale Sample.unsure = None.
Proof.
  assert (H1 : (1 >? 0.5) = true) by (apply NumFacts.gtb_true; lra).
  assert (H2 : (1 / 10 >? 0.5) = false) by (apply NumFacts.gtb_false; lra).
  unfold frameScale, Sample.unsure. cbn [nth_error score x Sample.pt].
  rewrite H1, H2. reflexivity.
Qed.

Lemma frameScales_samples (n : nat) :
  frameScales (repeat Sample.armsUp n) = repeat (40 / Rabs (0 - 1)) n.
Proof.
  induction n as [|n IH]; [reflexivity|].
  cbn [repeat frameScales]. unfold Sample.armsUp at 1.
  rewrite frameScale_sample by (cbn; lra). rewrite IH. reflexivity.
Qed.

Lemma calibration_witness :
  (isCalibrated (calibrateAll (Sample.unsure :: repeat Sample.armsUp 3) fresh)
   = false
   /\ isCalibrating
        (calibrateAll (Sample.unsure :: repeat Sample.armsUp 3) fresh)
      = false
   /\ calibrationFrames
        (calibrateAll (Sample.unsure :: repeat Sample.armsUp 3) fresh)
      = frameScales (Sample.unsure :: repeat Sample.armsUp 3))
  /\ (isCalibrated
        (calibrateAll (Sample.unsure :: repeat Sample.armsUp 10) fresh)
      = true
      /\ isCalibrating
           (calibrateAll (Sample.unsure :: repeat Sample.armsUp 10) fresh)
         = false
      /\ calibrationFrames
           (calibrateAll (Sample.unsure :: repeat Sample.armsUp 10) fresh)
         = []
      /\ scaleCmPerPixel
           (calibrateAll (Sample.unsure :: repeat Sample.armsUp 10) fresh)
         = Some (fold_left Rplus
                   (frameScales (Sample.unsure :: repeat Sample.armsUp 10)) 0
                 / 10)).
Proof.
  assert (Hs : forall n,
             frameScales (Sample.unsure :: repeat Sample.armsUp n)
             = repeat (40 / Rabs (0 - 1)) n).
  { intros n. cbn [frameScales]. rewrite frameScale_unsure.
    apply frameScales_samples. }
  split.
  - apply (proj1 (calibration_takes_ten_frames
                    (Sample.unsure :: repeat Sample.armsUp 3) fresh eq_refl)).
    rewrite Hs. cbn. lia.
  - apply (proj2 (calibration_takes_ten_frames
                    (Sample.unsure :: repeat Sample.armsUp 10) fresh eq_refl)).
    rewrite Hs. reflexivity.
Defined.

(** *** Frames *)

Lemma drawConnections_out (pose : Pose) (cs : list (nat * nat)) (o : Obj) :
  exists c, drawConnections pose cs o = mkOut c o [].
Proof.
  induction cs as [|[start finish] cs IH]; [exists (Normal tt); reflexivity|].
  cbn [drawConnections]. destruct IH as [c2 IH].
  unfold bind at 1.
  destruct (both (scoresAbove 0.3 pose start) (scoresAbove 0.3 pose finish) o)
    as [c o1 n1] eqn:E.
  assert (H : o1 = o /\ n1 = []).
  { revert E. bm_run; intros E; inversion E; split; reflexivity. }
  destruct H as [-> ->]. destruct c as [b|]; [|exists TypeError; reflexivity].
  rewrite IH. exists c2. reflexivity.
Qed.

Lemma drawConnections_obj (pose : Pose) (cs : list (nat * nat)) (o : Obj) :
  obj (drawConnections pose cs o) = o
  /\ notes (drawConnections pose cs o) = [].
Proof.
  destruct (drawConnections_out pose cs o) as [c ->]. split; reflexivity.
Qed.

Lemma detectPose_obj (poses : list Pose) (o : Obj) :
  obj (detectPose poses o)
  = match poses with
    | [] => o
    | pose :: _ =>
        match ended (drawPose pose o) with
        | TypeError => o
        | Normal _ =>
            if isCalibrating o then obj (calibrateWithHand pose o)
            else if isCalibrated o then obj (measurementsWithPose pose o)
            else o
        end
    end.
Proof.
  destruct poses as [|pose rest]; [reflexivity|].
  cbn [detectPose]. unfold drawPose.
  destruct (drawConnections_obj pose connections o) as [Ho Hn].
  unfold bind at 1.
  destruct (drawConnections pose connections o) as [c o1 n1].
  cbn [obj notes ended] in *. subst o1 n1.
  destruct c as [[]|]; [|reflexivity].
  unfold bind at 1, get. 
  destruct (isCalibrating o).
  - unfold notAwaited. reflexivity.
  - destruct (isCalibrated o).
    + destruct (measurementsWithPose pose o); reflexivity.
    + reflexivity.
Qed.

(** *** What the callbacks keep *)

Lemma frameScale_positive (pose : Pose) (c : R) :
  frameScale pose = Some c -> 0 < c.
Proof.
  unfold frameScale.
  destruct (nth_error pose 5) as [ls|]; [|discriminate].
  destruct (nth_error pose 6) as [rs|]; [|discriminate].
  destruct (nth_error pose 9) as [lw|]; [|discriminate].
  destruct (nth_error pose 10) as [rw|]; [|discriminate].
  destruct ((score ls >? 0.5) && (score rs >? 0.5) && (score lw >? 0.5)
            && (score rw >? 0.5) && (Rabs (x rs - x ls) >? 0)) eqn:Hc;
    [|discriminate].
  intros H. inversion H. subst c.
  apply andb_true_iff in Hc. destruct Hc as [_ Hc].
  apply NumFacts.gtb_true in Hc.
  apply Rdiv_lt_0_compat; lra.
Qed.

Lemma fold_left_Rplus_le (l : list R) :
  forall a : R, Forall (fun c => 0 < c) l -> a <= fold_left Rplus l a.
Proof.
  induction l as [|c l IH]; intros a H; cbn [fold_left]; [lra|].
  inversion H; subst. specialize (IH (a + c) ltac:(assumption)). lra.
Qed.

Lemma mean_positive (l : list R) (c : R) :
  Forall (fun c => 0 < c) l -> 0 < c ->
  0 < fold_left Rplus (l ++ [c]) 0 / INR (List.length (l ++ [c])).
Proof.
  intros Hl Hc. apply Rdiv_lt_0_compat.
  - rewrite fold_left_app. cbn [fold_left].
    pose proof (fold_left_Rplus_le l 0 Hl). lra.
  - apply lt_0_INR. rewrite length_app. cbn. lia.
Qed.

Lemma calibrateWithHand_frame (o : Obj) (pose : Pose) :
  currentMeasurements (obj (calibrateWithHand pose o)) = currentMeasurements o
  /\ measurementHistory (obj (calibrateWithHand pose o))
     = measurementHistory o
  /\ isDetecting (obj (calibrateWithHand pose o)) = isDetecting o.
Proof.
  destruct (frameScale pose) as [c|] eqn:Hf.
  - rewrite (calibrateWithHand_accepts o pose c Hf). cbv zeta.
    destruct (10 <=? List.length (calibrationFrames o ++ [c]))%nat;
      repeat split; reflexivity.
  - rewrite (proj1 (calibrateWithHand_rejects o pose Hf)).
    repeat split; reflexivity.
Qed.

Lemma calibrateWithHand_settled (o : Obj) (pose : Pose) :
  settled o -> settled (obj (calibrateWithHand pose o)).
Proof.
  intros H. pose proof H as (Hfr & Hsc & Hc & Hl & Hr).
  destruct (frameScale pose) as [c|] eqn:Hf.
  - pose proof (frameScale_positive pose c Hf) as Hpos.
    rewrite (calibrateWithHand_accepts o pose c Hf). cbv zeta.
    destruct (10 <=? List.length (calibrationFrames o ++ [c]))%nat.
    + unfold settled. bm_cbn. repeat split; try assumption.
      * constructor.
      * apply mean_positive; assumption.
    + unfold settled. bm_cbn. repeat split; try assumption.
      apply Forall_app. split; [assumption|]. constructor; [assumption|].
      constructor.
  - rewrite (proj1 (calibrateWithHand_rejects o pose Hf)). exact H.
Qed.

(** [measurementsWithPose] writes measurements only: each value is left
    or set to a length times the scale. *)
Lemma measurementsWithPose_frame (o : Obj) (pose : Pose) :
  exists m : Measurements,
    obj (measurementsWithPose pose o) = set_currentMeasurements m o
    /\ (notNegative (Some (number (scaleCmPerPixel o))) ->
        notNegative (chest (currentMeasurements o)) ->
        notNegative (leftBicep (currentMeasurements o)) ->
        notNegative (rightBicep (currentMeasurements o)) ->
        notNegative (chest m) /\ notNegative (leftBicep m)
        /\ notNegative (rightBicep m)).
Proof.
  bm_destruct o. destruct cm as [c l r].
  assert (Hm : forall a b : R, 0 <= b -> 0 <= Rabs a * b).
  { intros a b Hb. apply Rmult_le_pos; [apply Rabs_pos|exact Hb]. }
  assert (Hs : forall a b : R, 0 <= b -> 0 <= sqrt a * b).
  { intros a b Hb. apply Rmult_le_pos; [apply sqrt_pos|exact Hb]. }
  bm_run;
    (eexists; split;
     [unfold set_currentMeasurements; bm_cbn; reflexivity
     |cbn [notNegative chest leftBicep rightBicep set_chest set_leftBicep
           set_rightBicep]; intros; repeat split; auto]).
Qed.

Lemma measurementsWithPose_settled (o : Obj) (pose : Pose) :
  settled o -> isCalibrated o = true ->
  settled (obj (measurementsWithPose pose o)).
Proof.
  intros (Hfr & Hsc & Hc & Hl & Hr) Hcal.
  destruct (measurementsWithPose_frame o pose) as (m & -> & Hm).
  destruct Hm as (Hc' & Hl' & Hr'); try assumption.
  { destruct (scaleCmPerPixel o); cbn; [lra|congruence]. }
  unfold settled. bm_cbn. repeat split; assumption.
Qed.

Lemma detectPose_settled (o : Obj) (poses : list Pose) :
  settled o -> settled (obj (detectPose poses o)).
Proof.
  intros H. rewrite detectPose_obj. destruct poses as [|pose rest];
    [exact H|].
  destruct (ended (drawPose pose o)); [|exact H].
  destruct (isCalibrating o).
  - apply calibrateWithHand_settled. exact H.
  - destruct (isCalibrated o) eqn:Hcal; [|exact H].
    apply measurementsWithPose_settled; assumption.
Qed.

(** *** Taking a measurement *)

Lemma history_kept (e : HistoryEntry) (h : list HistoryEntry) :
  (if (10 <? List.length (e :: h))%nat then removelast (e :: h) else e :: h)
  = firstn (Nat.max 10 (List.length h)) (e :: h).
Proof.
  destruct (10 <? List.length (e :: h))%nat eqn:E.
  - apply Nat.ltb_lt in E. cbn [List.length] in E.
    rewrite removelast_firstn_len. cbn [List.length Nat.pred].
    f_equal. lia.
  - apply Nat.ltb_ge in E. cbn [List.length] in E.
    symmetry. apply firstn_all2. cbn [List.length]. lia.
Qed.

Lemma takeMeasurement_out (now : string) (o : Obj) :
  takeMeasurement now o
  = if isCalibrated o then
      mkOut (Normal tt)
        (set_measurementHistory
           (firstn (Nat.max 10 (List.length (measurementHistory o)))
              (mkHistoryEntry now (currentMeasurements o)
               :: measurementHistory o)) o)
        (Status "Taking measurements..." "measuring"
         :: blockNotes "chest-measurement" (chest (currentMeasurements o))
         ++ blockNotes "left-bicep-measurement"
              (leftBicep (currentMeasurements o))
         ++ blockNotes "right-bicep-measurement"
              (rightBicep (currentMeasurements o))
         ++ [Status "Measurements complete" "ready"])
    else mkOut (Normal tt) o [Status "Please calibrate first" "error"].
Proof.
  rewrite <- history_kept. unfold blockNotes.
  bm_destruct o. destruct cm as [c l r].
  unfold set_measurementHistory. bm_cbn.
  destruct ced; [|reflexivity].
  unfold takeMeasurement, showMeasurement, addToHistory, updateStatus, when,
    bind, get, ret, modify, emit. bm_cbn. cbn [List.length].
  destruct (truthy c), (truthy l), (truthy r); bm_cbn; cbn [List.length];
    destruct (10 <? S (List.length hist))%nat; reflexivity.
Qed.

Lemma startCalibration_obj (o : Obj) :
  obj (startCalibration o)
  = if isDetecting o
    then set_calibrationFrames [] (set_isCalibrating true o)
    else o.
Proof. bm_destruct o. destruct det; reflexivity. Qed.

Lemma perform_settled (a : Action) (o : Obj) :
  settled o -> settled (obj (perform a o)).
Proof.
  intros H. destruct a as [| | |poses|now]; cbn [perform].
  - exact H.
  - exact H.
  - rewrite startCalibration_obj. destruct (isDetecting o); [|exact H].
    destruct H as (Hfr & Hsc & Hc & Hl & Hr).
    unfold settled. bm_cbn. repeat split; try assumption.
    constructor.
  - apply detectPose_settled. exact H.
  - rewrite takeMeasurement_out. destruct (isCalibrated o) eqn:Hcal;
      [|exact H].
    destruct H as (Hfr & Hsc & Hc & Hl & Hr).
    unfold settled. bm_cbn. repeat split; assumption.
Qed.

Lemma after_settled (acts : list Action) :
  forall o : Obj, settled o -> settled (after acts o).
Proof.
  induction acts as [|a acts IH]; intros o H; [exact H|].
  cbn [after]. apply IH. apply perform_settled. exact H.
Qed.

Lemma fresh_settled : settled fresh.
Proof.
  unfold settled, fresh. cbn. repeat split; auto.
Qed.

Lemma perform_history (a : Action) (o : Obj) :
  measurementHistory (obj (perform a o)) = measurementHistory o
  \/ exists now,
       a = Measure now /\ isCalibrated o = true
       /\ measurementHistory (obj (perform a o))
          = firstn (Nat.max 10 (List.length (measurementHistory o)))
              (mkHistoryEntry now (currentMeasurements o)
               :: measurementHistory o).
Proof.
  destruct a as [| | |poses|now]; cbn [perform].
  - left. reflexivity.
  - left. reflexivity.
  - left. rewrite startCalibration_obj. destruct (isDetecting o); reflexivity.
  - left. rewrite detectPose_obj. destruct poses as [|pose rest];
      [reflexivity|].
    destruct (ended (drawPose pose o)); [|reflexivity].
    destruct (isCalibrating o).
    + apply calibrateWithHand_frame.
    + destruct (isCalibrated o); [|reflexivity].
      destruct (measurementsWithPose_frame o pose) as (m & -> & _).
      reflexivity.
  - rewrite takeMeasurement_out. destruct (isCalibrated o) eqn:Hcal.
    + right. exists now. repeat split; reflexivity.
    + left. reflexivity.
Qed.

Lemma perform_history_length (a : Action) (o : Obj) :
  (List.length (measurementHistory o) <= 10 ->
   List.length (measurementHistory (obj (perform a o))) <= 10)%nat
  /\ (10 <= List.length (measurementHistory o) ->
      List.length (measurementHistory (obj (perform a o)))
      = List.length (measurementHistory o))%nat.
Proof.
  destruct (perform_history a o) as [->|(now & _ & _ & ->)].
  - split; intros H; [exact H|reflexivity].
  - rewrite length_firstn. cbn [List.length]. split; intros H; lia.
Qed.

Lemma shown_app (a b : list Note) : shown (a ++ b) = shown a ++ shown b.
Proof. apply flat_map_app. Qed.

(** Whatever happens on the page, the history keeps its bound: a history
    of at most 10 entries never grows past 10, and a history that already
    holds 10 or more (one read back from the storage, say) keeps its
    length for good, since one entry is dropped for each one added. *)
Theorem history_never_grows_past_ten (acts : list Action) :
  forall o : Obj,
    ((List.length (measurementHistory o) <= 10)%nat ->
     (List.length (measurementHistory (after acts o)) <= 10)%nat)
    /\ ((10 <= List.length (measurementHistory o))%nat ->
        List.length (measurementHistory (after acts o))
        = List.length (measurementHistory o)).
Proof.
  induction acts as [|a acts IH]; intros o; cbn [after].
  - split; intros H; [exact H|reflexivity].
  - destruct (perform_history_length a o) as [Hle Hge].
    destruct (IH (obj (perform a o))) as [IHle IHge].
    split; intros H.
    + apply IHle, Hle, H.
    + rewrite IHge; [apply Hge, H|]. rewrite Hge; exact H.
Qed.

(** [takeMeasurement] on a calibrated page puts the current values, with
    the time, at the front of the history and keeps the first
    [max 10 (length history)] entries; it shows a value exactly when it is
    present and not 0, so a chest value of 0 is recorded and not shown. *)
Theorem measurement_recorded_newest_first (now : string) (o : Obj) :
  isCalibrated o = true ->
  measurementHistory (obj (takeMeasurement now o))
  = firstn (Nat.max 10 (List.length (measurementHistory o)))
      (mkHistoryEntry now (currentMeasurements o) :: measurementHistory o)
  /\ hd_error (measurementHistory (obj (takeMeasurement now o)))
     = Some (mkHistoryEntry now (currentMeasurements o))
  /\ (forall (id : string) (v : R),
        In (id, v) (shown (notes (takeMeasurement now o)))
        <-> v <> 0
            /\ (id = "chest-measurement"%string
                /\ chest (currentMeasurements o) = Some v
                \/ id = "left-bicep-measurement"%string
                   /\ leftBicep (currentMeasurements o) = Some v
                \/ id = "right-bicep-measurement"%string
                   /\ rightBicep (currentMeasurements o) = Some v)).
Proof.
  intros Hcal. rewrite takeMeasurement_out, Hcal. cbn [obj notes].
  unfold set_measurementHistory. cbn [measurementHistory].
  split; [reflexivity|]. split.
  - destruct (Nat.max 10 (List.length (measurementHistory o))) eqn:E;
      [lia|reflexivity].
  - intros id v.
    assert (Hb : forall i w,
               In (id, v) (shown (blockNotes i w))
               <-> v <> 0 /\ id = i /\ w = Some v).
    { intros i w. unfold blockNotes, truthy.
      destruct w as [r|]; cbn.
      - destruct (Req_dec_T r 0) as [Hz|Hz]; cbn.
        + split; [contradiction|]. intros (Hv & _ & Hr). inversion Hr.
          congruence.
        + split.
          * intros [H|[]]. inversion H. subst. auto.
          * intros (_ & -> & Hr). inversion Hr. auto.
      - split; [contradiction|]. intros (_ & _ & Hr). discriminate. }
    change (Status "Taking measurements..." "measuring" :: ?l)
      with ([Status "Taking measurements..." "measuring"] ++ l).
    rewrite !shown_app, !in_app_iff, !Hb. cbn [shown flat_map app In].
    tauto.
Qed.

Lemma measurement_recorded_witness :
  measurementHistory
    (obj (takeMeasurement "t"
            (mkObj true false true (Some 40)
               (mkMeasurements (Some 0) None (Some 12)) [] [])))
  = firstn (Nat.max 10 (List.length (A := HistoryEntry) []))
      [mkHistoryEntry "t" (mkMeasurements (Some 0) None (Some 12))]
  /\ hd_error
       (measurementHistory
          (obj (takeMeasurement "t"
                  (mkObj true false true (Some 40)
                     (mkMeasurements (Some 0) None (Some 12)) [] []))))
     = Some (mkHistoryEntry "t" (mkMeasurements (Some 0) None (Some 12)))
  /\ (forall (id : string) (v : R),
        In (id, v)
          (shown
             (notes (takeMeasurement "t"
                       (mkObj true false true (Some 40)
                          (mkMeasurements (Some 0) None (Some 12)) [] []))))
        <-> v <> 0
            /\ (id = "chest-measurement"%string /\ Some 0 = Some v
                \/ id = "left-bicep-measurement"%string /\ None = Some v
                \/ id = "right-bicep-measurement"%string
                   /\ Some 12 = Some v)).
Proof.
  apply (measurement_recorded_newest_first "t"
           (mkObj true false true (Some 40)
              (mkMeasurements (Some 0) None (Some 12)) [] [])).
  reflexivity.
Defined.

(** In every state that the page reaches from the constructor's, the
    scale is absent or positive and is present once the page is
    calibrated, the scales collected for a calibration are positive, and
    no measured value is negative. *)
Theorem scale_positive_values_not_negative (acts : list Action) :
  (forall c : R, scaleCmPerPixel (after acts fresh) = Some c -> 0 < c)
  /\ (isCalibrated (after acts fresh) = true ->
      exists c : R, scaleCmPerPixel (after acts fresh) = Some c /\ 0 < c)
  /\ Forall (fun c => 0 < c) (calibrationFrames (after acts fresh))
  /\ notNegative (chest (currentMeasurements (after acts fresh)))
  /\ notNegative (leftBicep (currentMeasurements (after acts fresh)))
  /\ notNegative (rightBicep (currentMeasurements (after acts fresh))).
Proof.
  destruct (after_settled acts fresh fresh_settled)
    as (Hfr & Hsc & Hc & Hl & Hr).
  repeat split; try assumption.
  - intros c E. rewrite E in Hsc. exact Hsc.
  - intros Hcal. destruct (scaleCmPerPixel (after acts fresh)) as [c|].
    + exists c. split; [reflexivity|exact Hsc].
    + congruence.
Qed.

(** A callback that leaves the page uncalibrated found it uncalibrated
    and has neither measured nor recorded. *)
Lemma perform_uncalibrated (a : Action) (o : Obj) :
  isCalibrated (obj (perform a o)) = false ->
  isCalibrated o = false
  /\ currentMeasurements (obj (perform a o)) = currentMeasurements o
  /\ measurementHistory (obj (perform a o)) = measurementHistory o.
Proof.
  destruct a as [| | |poses|now]; cbn [perform].
  - intros H. repeat split; assumption.
  - intros H. repeat split; assumption.
  - rewrite startCalibration_obj.
    destruct (isDetecting o); intros H; repeat split; assumption.
  - rewrite detectPose_obj. destruct poses as [|pose rest];
      [intros H; repeat split; assumption|].
    destruct (ended (drawPose pose o));
      [|intros H; repeat split; assumption].
    destruct (isCalibrating o).
    + destruct (calibrateWithHand_frame o pose) as (Hm & Hh & _).
      destruct (frameScale pose) as [c|] eqn:Hf.
      * rewrite (calibrateWithHand_accepts o pose c Hf) in *. cbv zeta in *.
        destruct (10 <=? List.length (calibrationFrames o ++ [c]))%nat;
          cbn [obj isCalibrated] in *; intros H;
          [discriminate|repeat split; assumption].
      * rewrite (proj1 (calibrateWithHand_rejects o pose Hf)) in *.
        intros H. repeat split; assumption.
    + destruct (isCalibrated o) eqn:Hcal;
        [|intros H; repeat split; reflexivity].
      destruct (measurementsWithPose_frame o pose) as (m & -> & _).
      bm_cbn. rewrite Hcal. discriminate.
  - rewrite takeMeasurement_out. destruct (isCalibrated o) eqn:Hcal.
    + bm_cbn. rewrite Hcal. discriminate.
    + intros _. repeat split; reflexivity.
Qed.

Lemma after_uncalibrated (acts : list Action) :
  forall o : Obj,
    isCalibrated (after acts o) = false ->
    isCalibrated o = false
    /\ currentMeasurements (after acts o) = currentMeasurements o
    /\ measurementHistory (after acts o) = measurementHistory o.
Proof.
  induction acts as [|a acts IH]; intros o H; cbn [after] in *.
  - repeat split; assumption.
  - destruct (IH _ H) as (Hc & Hm & Hh).
    destruct (perform_uncalibrated a o Hc) as (Hc' & Hm' & Hh').
    repeat split; congruence.
Qed.

(** Until a calibration has completed nothing is measured and nothing is
    recorded.  In a visit of the page that has not been calibrated so far,
    the three values are still [null], the history is the one that
    [loadMeasurementHistory] read from the storage (empty when there was
    none), and [takeMeasurement] only reports the error. *)
Theorem nothing_measured_before_calibration
    (saved : option (list HistoryEntry)) (before later : list Action)
    (now : string) :
  isCalibrated (visit saved before later) = false ->
  currentMeasurements (visit saved before later)
  = mkMeasurements None None None
  /\ measurementHistory (visit saved before later)
     = match saved with
       | Some history => history
       | None => []
       end
  /\ takeMeasurement now (visit saved before later)
     = mkOut (Normal tt) (visit saved before later)
         [Status "Please calibrate first" "error"].
Proof.
  intros Hcal. split; [|split].
  - unfold visit in *.
    destruct (after_uncalibrated later _ Hcal) as (Hc & -> & _).
    assert (Hb : isCalibrated (after before fresh) = false).
    { destruct saved; exact Hc. }
    destruct (after_uncalibrated before fresh Hb) as (_ & Hm & _).
    destruct saved; cbn [loadMeasurementHistory]; exact Hm.
  - unfold visit in *.
    destruct (after_uncalibrated later _ Hcal) as (Hc & _ & ->).
    destruct saved as [history|]; [reflexivity|].
    cbn [loadMeasurementHistory] in *.
    destruct (after_uncalibrated before fresh Hc) as (_ & _ & Hh).
    exact Hh.
  - rewrite takeMeasurement_out, Hcal. reflexivity.
Qed.

(** A return visit: one entry is read back from the storage, a
    calibration is started and has seen one frame when a measurement is
    asked for. *)
Lemma nothing_measured_witness :
  currentMeasurements
    (visit (Some [mkHistoryEntry "s" (mkMeasurements (Some 38) None None)])
       [CameraStarted]
       [Calibrate; Detected [Sample.armsUp]; Measure "t"])
  = mkMeasurements None None None
  /\ measurementHistory
       (visit (Some [mkHistoryEntry "s" (mkMeasurements (Some 38) None None)])
          [CameraStarted]
          [Calibrate; Detected [Sample.armsUp]; Measure "t"])
     = [mkHistoryEntry "s" (mkMeasurements (Some 38) None None)]
  /\ takeMeasurement "u"
       (visit (Some [mkHistoryEntry "s" (mkMeasurements (Some 38) None None)])
          [CameraStarted]
          [Calibrate; Detected [Sample.armsUp]; Measure "t"])
     = mkOut (Normal tt)
         (visit
            (Some [mkHistoryEntry "s" (mkMeasurements (Some 38) None None)])
            [CameraStarted]
            [Calibrate; Detected [Sample.armsUp]; Measure "t"])
         [Status "Please calibrate first" "error"].
Proof.
  apply (nothing_measured_before_calibration
           (Some [mkHistoryEntry "s" (mkMeasurements (Some 38) None None)])
           [CameraStarted]
           [Calibrate; Detected [Sample.armsUp]; Measure "t"] "u").
  unfold visit. cbn [after perform]. rewrite takeMeasurement_out.
  rewrite detectPose_obj.
  assert (Hs : frameScale Sample.armsUp = Some (40 / Rabs (0 - 1))).
  { apply frameScale_sample. cbn. lra. }
  change (obj (startCalibration
                 (obj (loadMeasurementHistory
                         (Some [mkHistoryEntry "s"
                                  (mkMeasurements (Some 38) None None)])
                         (obj (modify (set_isDetecting true) fresh))))))
    with (mkObj true true false None (mkMeasurements None None None)
            [mkHistoryEntry "s" (mkMeasurements (Some 38) None None)] []).
  cbn [isCalibrating isCalibrated].
  rewrite (calibrateWithHand_accepts _ _ _ Hs). cbv zeta.
  cbn [calibrationFrames app List.length Nat.leb obj isCalibrated
       isCalibrating isDetecting].
  destruct (ended (drawPose Sample.armsUp _)); reflexivity.
Defined.

(** A frame either calibrates or measures: while the page is calibrating
    it leaves the measured values alone, otherwise it leaves the scale and
    the calibration alone, and on a page neither calibrating nor
    calibrated it changes nothing; in no case does it touch the history. *)
Theorem frame_calibrates_or_measures (poses : list Pose) (o : Obj) :
  (isCalibrating o = true ->
   currentMeasurements (obj (detectPose poses o)) = currentMeasurements o)
  /\ (isCalibrating o = false ->
      scaleCmPerPixel (obj (detectPose poses o)) = scaleCmPerPixel o
      /\ isCalibrated (obj (detectPose poses o)) = isCalibrated o
      /\ isCalibrating (obj (detectPose poses o)) = false
      /\ calibrationFrames (obj (detectPose poses o)) = calibrationFrames o)
  /\ (isCalibrating o = false -> isCalibrated o = false ->
      obj (detectPose poses o) = o)
  /\ measurementHistory (obj (detectPose poses o)) = measurementHistory o.
Proof.
  rewrite detectPose_obj. destruct poses as [|pose rest].
  { repeat split; auto. }
  destruct (ended (drawPose pose o)).
  2:{ repeat split; auto. }
  destruct (measurementsWithPose_frame o pose) as (m & Hm & _).
  destruct (calibrateWithHand_frame o pose) as (Hc & Hh & _).
  split; [|split; [|split]].
  - intros ->. exact Hc.
  - intros E. rewrite E.
    destruct (isCalibrated o) eqn:Hcal; [rewrite Hm|]; bm_cbn;
      repeat split; auto.
  - intros -> ->. reflexivity.
  - destruct (isCalibrating o); [exact Hh|].
    destruct (isCalibrated o); [rewrite Hm|]; reflexivity.
Qed.

End BodyMeasurementFacts.
